(** * A shallow embedding of the FAT32 driver [fat32.c]

    The driver is a single C file.  Its integers are the fixed-width
    unsigned types [u8], [u16] and [u32]; they are embedded as [Z] with
    the wrap-around written out.  Memory blocks (the 512-byte sector
    buffer, a BPB sector, a directory record) are lists of byte values
    addressed by offset.  The functions that touch the sector cache and
    the block device pass the volume and the device explicitly. *)

From Stdlib Require Import ZArith List Lia Bool String Ascii.
Import ListNotations.
Local Open Scope Z_scope.

(** ** Machine integers *)

Definition u8 (x : Z) : Z := x mod 2 ^ 8.
Definition u16 (x : Z) : Z := x mod 2 ^ 16.
Definition u32 (x : Z) : Z := x mod 2 ^ 32.

(** ** Memory blocks *)

(** [byte_at m i] is [((u8 * )m)[i]].  A read outside the block is
    undefined in C; the model reads 0 there. *)
Definition byte_at (m : list Z) (i : Z) : Z := u8 (nth (Z.to_nat i) m 0).

Fixpoint set_nth (n : nat) (x : Z) (m : list Z) : list Z :=
  match m, n with
  | [], _ => []
  | _ :: t, O => x :: t
  | h :: t, S k => h :: set_nth k x t
  end.

(** [set_byte m i x] is [((u8 * )m)[i] = (u8)x].  A write outside the
    block is undefined in C; the model leaves the block as it is. *)
Definition set_byte (m : list Z) (i : Z) (x : Z) : list Z :=
  set_nth (Z.to_nat i) (u8 x) m.

(** Store a 32-bit value in LE format *)
Definition fat_store32 (dest : list Z) (off : Z) (value : Z) : list Z :=
  let d0 := set_byte dest off value in
  let value1 := Z.shiftr (u32 value) 8 in
  let d1 := set_byte d0 (off + 1) value1 in
  let value2 := Z.shiftr value1 8 in
  let d2 := set_byte d1 (off + 2) value2 in
  let value3 := Z.shiftr value2 8 in
  set_byte d2 (off + 3) value3.

(** Store a 16-bit value in LE format *)
Definition fat_store16 (dest : list Z) (off : Z) (value : Z) : list Z :=
  let d0 := set_byte dest off value in
  let value1 := Z.shiftr (u16 value) 8 in
  set_byte d0 (off + 1) value1.

(** Load a 32-bit value from [src + off] in LE format *)
Definition fat_load32 (src : list Z) (off : Z) : Z :=
  let value := 0 in
  let value := Z.lor value (byte_at src off) in
  let value := Z.lor value (Z.shiftl (byte_at src (off + 1)) 8) in
  let value := Z.lor value (Z.shiftl (byte_at src (off + 2)) 16) in
  let value := Z.lor value (Z.shiftl (byte_at src (off + 3)) 24) in
  u32 value.

(** Load a 16-bit value from [src + off] in LE format *)
Definition fat_load16 (src : list Z) (off : Z) : Z :=
  let value := 0 in
  let value := Z.lor value (byte_at src off) in
  let value := Z.lor value (Z.shiftl (byte_at src (off + 1)) 8) in
  u16 value.

(** The [do ... while (--count)] loop of [fat_memcmp], [n] bytes left. *)
Fixpoint fat_memcmp_loop (n : nat) (src_1 : list Z) (off_1 : Z)
  (src_2 : list Z) (off_2 : Z) : Z :=
  match n with
  | O => 1
  | S k =>
      if negb (byte_at src_1 off_1 =? byte_at src_2 off_2) then 0
      else fat_memcmp_loop k src_1 (off_1 + 1) src_2 (off_2 + 1)
  end.

(** Compares two memory blocks with size [count] *)
Definition fat_memcmp (src_1 : list Z) (off_1 : Z) (src_2 : list Z)
  (off_2 : Z) (count : Z) : Z :=
  if count =? 0 then 1
  else fat_memcmp_loop (Z.to_nat count) src_1 off_1 src_2 off_2.

(** ** The volume *)

(** [struct volume_s] is declared in the absent [fat32.h]; the fields
    are the ones [fat32.c] reads and writes, taken as [u32] where the
    source does not show a narrower type.  [disk] is the handle that is
    passed on to the block layer.  The [next] pointers are the order of
    the list of mounted volumes ([volume_base] below); the 11-byte
    [label] plays no part in the functions embedded here. *)
Record volume_s := mk_volume {
  letter : Z;
  disk : Z;
  sector_size : Z;
  cluster_size : Z;
  total_size : Z;
  info_lba : Z;
  fat_lba : Z;
  data_lba : Z;
  root_lba : Z;
  buffer : list Z;
  buffer_lba : Z;
  buffer_dirty : Z
}.

Definition set_buffer (vol : volume_s) (b : list Z) : volume_s :=
  mk_volume (letter vol) (disk vol) (sector_size vol) (cluster_size vol)
    (total_size vol) (info_lba vol) (fat_lba vol) (data_lba vol)
    (root_lba vol) b (buffer_lba vol) (buffer_dirty vol).

Definition set_buffer_lba (vol : volume_s) (lba : Z) : volume_s :=
  mk_volume (letter vol) (disk vol) (sector_size vol) (cluster_size vol)
    (total_size vol) (info_lba vol) (fat_lba vol) (data_lba vol)
    (root_lba vol) (buffer vol) lba (buffer_dirty vol).

Definition set_buffer_dirty (vol : volume_s) (x : Z) : volume_s :=
  mk_volume (letter vol) (disk vol) (sector_size vol) (cluster_size vol)
    (total_size vol) (info_lba vol) (fat_lba vol) (data_lba vol)
    (root_lba vol) (buffer vol) (buffer_lba vol) x.

(** ** Cluster and sector arithmetic *)

(** Maps a sector LBA to the relative cluster number and vica verca.
    The operands are [u32]; a zero [cluster_size] is a division by zero
    in C and gives quotient 0 here. *)
Definition fat_sect_to_clust (vol : volume_s) (sect : Z) : Z :=
  u32 (u32 (sect - data_lba vol) / cluster_size vol + 2).

Definition fat_clust_to_sect (vol : volume_s) (clust : Z) : Z :=
  u32 (u32 (clust - 2) * cluster_size vol + data_lba vol).

(** ** Constants of [fat32.h] *)

(** Modelled from the spec: [fat32.h] is absent, so the named offsets
    and masks are not in the source.  The values are the ones of the
    specification's on-disk formats (section 6: BPB fields, FSInfo
    [next_free]@492 and [free_count]@488, the filesystem-type string @82
    or @54; section 4.G: attribute byte at offset 11, LFN pattern 0x0F,
    checksum at offset 13, sequence mask 0x1F, cluster words at 20 and
    26, size at 28) and, for the fields the specification does not
    place, of the FAT32 layout it refers to. *)
Definition BPB_SECTOR_SIZE : Z := 11.
Definition BPB_CLUSTER_SIZE : Z := 13.
Definition BPB_RSVD_CNT : Z := 14.
Definition BPB_NUM_FATS : Z := 16.
Definition BPB_ROOT_ENT_CNT : Z := 17.
Definition BPB_TOT_SECT_16 : Z := 19.
Definition BPB_FAT_SIZE_16 : Z := 22.
Definition BPB_TOT_SECT_32 : Z := 32.
Definition BPB_32_FAT_SIZE : Z := 36.
Definition BPB_16_FSTYPE : Z := 54.
Definition BPB_32_FSTYPE : Z := 82.
Definition INFO_CLUST_CNT : Z := 488.
Definition INFO_CLUST_NEXT_FREE : Z := 492.
Definition SFN_ATTR : Z := 11.
Definition SFN_CTIME_TH : Z := 13.
Definition SFN_CTIME : Z := 14.
Definition SFN_CDATE : Z := 16.
Definition SFN_ADATE : Z := 18.
Definition SFN_CLUSTH : Z := 20.
Definition SFN_WTIME : Z := 22.
Definition SFN_WDATE : Z := 24.
Definition SFN_CLUSTL : Z := 26.
Definition SFN_FILE_SIZE : Z := 28.
Definition LFN_SEQ : Z := 0.
Definition LFN_SEQ_MSK : Z := 31.
Definition LFN_CRC : Z := 13.
Definition ATTR_LFN : Z := 15.

(** Modelled from the spec: the status codes of [fat32.h] (section 6).
    Their numeric values are not known; the source returns both named
    codes and the integer literals 0 and 1 from functions of type
    [fstatus], and two functions end without a [return].  [retval]
    keeps the three apart. *)
Inductive fstatus :=
  | FSTATUS_OK | FSTATUS_EOF | FSTATUS_ERROR | FSTATUS_NO_VOLUME
  | FSTATUS_PATH_ERR.

Inductive retval :=
  | Status (s : fstatus)
  | Literal (z : Z)
  | NoValue.

(** UCS-2 offsets used in long file name (LFN) entries *)
Definition lfn_offsets : list Z := [1; 3; 5; 7; 9; 14; 16; 18; 20; 22; 24; 28; 30].

(** ** The block device *)

(** Modelled from the spec: the block layer ([disk_read], [disk_write]
    of [disk_interface.h]) is an external collaborator: sector
    addressed, synchronous, and each transfer either succeeds fully or
    fails with no partial transfer (sections 5 and 6).  [sectors] is the
    content of the medium; [faults] tells for the coming transfers, in
    order, whether they fail; when it is used up every transfer
    succeeds.  The model has one medium: the handle [disk] selects
    nothing.  Every call of the driver transfers one sector. *)
Record device := mk_device {
  sectors : Z -> list Z;
  faults : list bool
}.

Definition disk_read (dev : device) (disk : Z) (lba : Z)
  : option (list Z) * device :=
  match faults dev with
  | [] => (Some (sectors dev lba), dev)
  | true :: rest => (None, mk_device (sectors dev) rest)
  | false :: rest => (Some (sectors dev lba), mk_device (sectors dev) rest)
  end.

Definition write_sector (m : Z -> list Z) (lba : Z) (b : list Z)
  : Z -> list Z :=
  fun l => if l =? lba then b else m l.

Definition disk_write (dev : device) (disk : Z) (b : list Z) (lba : Z)
  : bool * device :=
  match faults dev with
  | [] => (true, mk_device (write_sector (sectors dev) lba b) [])
  | true :: rest => (false, mk_device (sectors dev) rest)
  | false :: rest =>
      (true, mk_device (write_sector (sectors dev) lba b) rest)
  end.

(** ** The sector cache *)

(** Check if the buffer is dirty and cleans it *)
Definition fat_flush (vol : volume_s) (dev : device)
  : Z * volume_s * device :=
  if negb (buffer_dirty vol =? 0) then
    match disk_write dev (disk vol) (buffer vol) (buffer_lba vol) with
    | (false, dev1) => (0, vol, dev1)
    | (true, dev1) => (1, set_buffer_dirty vol 0, dev1)
    end
  else (1, vol, dev).

(** Takes in a LBA and update the volumes local buffer if needed. *)
Definition fat_read (vol : volume_s) (dev : device) (lba : Z)
  : Z * volume_s * device :=
  if buffer_lba vol =? lba then (1, vol, dev)
  else
    let '(r, vol1, dev1) := fat_flush vol dev in
    if r =? 0 then (0, vol1, dev1)
    else
      match disk_read dev1 (disk vol1) lba with
      | (None, dev2) => (0, vol1, dev2)
      | (Some s, dev2) => (1, set_buffer_lba (set_buffer vol1 s) lba, dev2)
      end.

(** ** The FAT table *)

(** Returns the 32-bit FAT entry corresponding with the cluster number.
    The result is [None] where the source returns 0 and leaves
    [*fat_entry] alone, and [Some e] where it stores [e] and returns 1. *)
Definition fat_table_get (vol : volume_s) (dev : device) (cluster : Z)
  : option Z * volume_s * device :=
  let start_sect := u32 (fat_lba vol + cluster / 128) in
  let start_off := cluster mod 128 in
  let '(r, vol1, dev1) := fat_read vol dev start_sect in
  if r =? 0 then (None, vol1, dev1)
  else (Some (fat_load32 (buffer vol1) (start_off * 4)), vol1, dev1).

(** Takes in a cluster and a FAT table entry and updates the cluster FAT
    table entry with this value. *)
Definition fat_table_set (vol : volume_s) (dev : device) (cluster : Z)
  (fat_entry : Z) : Z * volume_s * device :=
  let start_sect := u32 (fat_lba vol + cluster / 128) in
  let start_offset := cluster mod 128 in
  let '(r, vol1, dev1) := fat_read vol dev start_sect in
  if r =? 0 then (0, vol1, dev1)
  else
    let vol2 :=
      set_buffer vol1 (fat_store32 (buffer vol1) (4 * start_offset) fat_entry) in
    let vol3 := set_buffer_dirty vol2 1 in
    let '(_, vol4, dev4) := fat_flush vol3 dev1 in
    (1, vol4, dev4).

(** The [while (1)] loop of [fat_get_cluster].  [None]: the fuel ran
    out.  [Some (false, ...)]: the loop left the function by [return 0].
    [Some (true, ...)]: the loop was left by [break]. *)
Fixpoint fat_get_cluster_loop (fuel : nat) (vol : volume_s) (dev : device)
  (sector rw match_found : Z) (cluster : option Z)
  : option (bool * volume_s * device * Z * Z * option Z) :=
  match fuel with
  | O => None
  | S k =>
      let '(r, vol1, dev1) := fat_read vol dev sector in
      if r =? 0 then Some (false, vol1, dev1, sector, rw, cluster)
      else
        let entry := fat_load32 (buffer vol1) rw in
        let rw' := u32 (rw + 4) in
        let sector' := if rw' >=? sector_size vol1 then u32 (sector + 1) else sector in
        let rw'' := if rw' >=? sector_size vol1 then 0 else rw' in
        if Z.land entry 127 =? 0 then
          if negb (match_found =? 0) then
            Some (true, vol1, dev1, sector, rw, cluster)
          else
            let c := u32 (u32 (128 * u32 (sector - fat_lba vol1)) + rw / 4) in
            let vol2 :=
              set_buffer vol1 (fat_store32 (buffer vol1) rw 268435455) in
            let vol3 := set_buffer_dirty vol2 1 in
            fat_get_cluster_loop k vol3 dev1 sector' rw'' 1 (Some c)
        else
          fat_get_cluster_loop k vol1 dev1 sector' rw'' match_found cluster
  end.

(** [fat_get_cluster].  The components of the result are the value
    returned, the content of [*cluster] ([None] while the source has not
    stored to it), the volume and the device.  The source has no
    [return] after the final [fat_flush]: control reaches the closing
    brace and no value is returned ([NoValue]). *)
Definition fat_get_cluster (fuel : nat) (vol : volume_s) (dev : device)
  : option (retval * option Z * volume_s * device) :=
  let '(r, vol1, dev1) := fat_read vol dev (info_lba vol) in
  if r =? 0 then Some (Literal 0, None, vol1, dev1)
  else
    let next_free := fat_load32 (buffer vol1) INFO_CLUST_NEXT_FREE in
    let tot_free := fat_load32 (buffer vol1) INFO_CLUST_CNT in
    let sector := u32 (fat_lba vol1 + next_free / 128) in
    let rw := u32 ((next_free mod 128) * 4) in
    match fat_get_cluster_loop fuel vol1 dev1 sector rw 0 None with
    | None => None
    | Some (false, vol2, dev2, _, _, cluster) =>
        Some (Literal 0, cluster, vol2, dev2)
    | Some (true, vol2, dev2, sector2, rw2, cluster) =>
        let '(r3, vol3, dev3) := fat_read vol2 dev2 (info_lba vol2) in
        if r3 =? 0 then Some (Literal 0, cluster, vol3, dev3)
        else
          let b1 :=
            fat_store32 (buffer vol3) INFO_CLUST_NEXT_FREE
              (u32 (u32 (128 * u32 (sector2 - fat_lba vol3)) + rw2 / 4)) in
          let b2 := fat_store32 b1 INFO_CLUST_CNT (u32 (tot_free - 1)) in
          let vol4 := set_buffer_dirty (set_buffer vol3 b2) 1 in
          let '(_, vol5, dev5) := fat_flush vol4 dev3 in
          Some (NoValue, cluster, vol5, dev5)
    end.

(** ** Directory and file cursors *)

(** [struct dir_s].  [vol] is the pointer to the volume: the position of
    the volume in the list of mounted volumes.  The functions below take
    the volume a cursor points to as an argument of their own. *)
Module Dir.
Record t := mk {
  vol : nat;
  start_sect : Z;
  sector : Z;
  cluster : Z;
  rw_offset : Z;
  size : Z
}.
End Dir.

(** [struct file_s] *)
Module File.
Record t := mk {
  vol : nat;
  start_sect : Z;
  sector : Z;
  cluster : Z;
  rw_offset : Z;
  glob_offset : Z;
  size : Z
}.
End File.

(** The end-of-chain test on a FAT entry, as the source writes it. *)
Definition is_eoc (new_cluster : Z) : bool :=
  let eoc_value := Z.land new_cluster 268435455 in
  (eoc_value >=? 268435448) && (eoc_value <=? 268435455).

(** Move the directory pointer to the next entry *)
Definition fat_dir_get_next (vol : volume_s) (dev : device) (dir : Dir.t)
  : Z * Dir.t * volume_s * device :=
  let rw1 := u32 (Dir.rw_offset dir + 32) in
  if rw1 >=? sector_size vol then
    let rw2 := u32 (rw1 - sector_size vol) in
    let sector2 := u32 (Dir.sector dir + 1) in
    let dir2 :=
      Dir.mk (Dir.vol dir) (Dir.start_sect dir) sector2 (Dir.cluster dir)
        rw2 (Dir.size dir) in
    if sector2 >=?
       u32 (fat_clust_to_sect vol (Dir.cluster dir) + cluster_size vol) then
      match fat_table_get vol dev (Dir.cluster dir) with
      | (None, vol1, dev1) => (0, dir2, vol1, dev1)
      | (Some new_cluster, vol1, dev1) =>
          if is_eoc new_cluster then (0, dir2, vol1, dev1)
          else
            (1,
             Dir.mk (Dir.vol dir) (Dir.start_sect dir)
               (fat_clust_to_sect vol1 new_cluster) new_cluster rw2
               (Dir.size dir),
             vol1, dev1)
      end
    else (1, dir2, vol, dev)
  else
    (1,
     Dir.mk (Dir.vol dir) (Dir.start_sect dir) (Dir.sector dir)
       (Dir.cluster dir) rw1 (Dir.size dir),
     vol, dev).

(** Resolves any overflow on rw_offset, sector and cluster on the given
    [file] descriptor *)
Definition fat_file_addr_resolve (vol : volume_s) (dev : device)
  (file : File.t) : Z * File.t * volume_s * device :=
  if File.rw_offset file >=? sector_size vol then
    let rw2 := u32 (File.rw_offset file - sector_size vol) in
    let sector2 := u32 (File.sector file + 1) in
    let file2 :=
      File.mk (File.vol file) (File.start_sect file) sector2
        (File.cluster file) rw2 (File.glob_offset file) (File.size file) in
    if sector2 >=?
       u32 (fat_clust_to_sect vol (File.cluster file) + cluster_size vol) then
      match fat_table_get vol dev (File.cluster file) with
      | (None, vol1, dev1) => (0, file2, vol1, dev1)
      | (Some new_cluster, vol1, dev1) =>
          if is_eoc new_cluster then (0, file2, vol1, dev1)
          else
            (1,
             File.mk (File.vol file) (File.start_sect file)
               (fat_clust_to_sect vol1 new_cluster) new_cluster rw2
               (File.glob_offset file) (File.size file),
             vol1, dev1)
      end
    else (1, file2, vol, dev)
  else (1, file, vol, dev).

(** ** Names and checksums *)

(** The [do ... while (--count)] loop of [fat_dir_sfn_crc]. *)
Fixpoint fat_dir_sfn_crc_loop (count : nat) (sfn : list Z) (off : Z)
  (crc : Z) : Z :=
  match count with
  | O => crc
  | S k =>
      let crc1 :=
        u8 (Z.shiftl (Z.land crc 1) 7 + Z.shiftr crc 1 + byte_at sfn off) in
      fat_dir_sfn_crc_loop k sfn (off + 1) crc1
  end.

(** Calculates the SFN checksum based on the 8.3 short file name *)
Definition fat_dir_sfn_crc (sfn : list Z) (off : Z) : Z :=
  fat_dir_sfn_crc_loop 11 sfn off 0.

(** [name[i]] of a C string: the character code, and the terminating
    NUL at the end.  A read behind the terminator is undefined in C; the
    model reads 0 there. *)
Definition char_at (name : string) (i : Z) : Z :=
  match String.get (Z.to_nat i) name with
  | Some a => Z.of_N (N_of_ascii a)
  | None => 0
  end.

Fixpoint fat_dir_sfn_cmp_loop (n : nat) (sfn : list Z) (soff : Z)
  (name : string) (noff : Z) : Z :=
  match n with
  | O => 1
  | S k =>
      let tmp_char := char_at name noff in
      let tmp_char :=
        if (tmp_char >=? 97) && (tmp_char <=? 122) then u8 (tmp_char - 32)
        else tmp_char in
      if negb (tmp_char =? byte_at sfn soff) then 0
      else fat_dir_sfn_cmp_loop k sfn (soff + 1) name (noff + 1)
  end.

(** Universal compare without caring for capitals vs non-capitals.
    [size] is a [u8]; the [do ... while (--size)] loop runs 256 times
    when it is entered with [size] 0. *)
Definition fat_dir_sfn_cmp (sfn : list Z) (soff : Z) (name : string)
  (noff : Z) (size : Z) : Z :=
  let size := if u8 size >? 8 then 8 else u8 size in
  fat_dir_sfn_cmp_loop (if size =? 0 then 256 else Z.to_nat size)
    sfn soff name noff.

(** The value of a plain [char] that holds the byte [b], as the
    comparison with a [u8] sees it after the promotion to [int].
    Whether plain [char] is signed is fixed by the compiler and its
    options, which are no part of the source: [char_signed] tells it.
    The two readings differ for the bytes from 0x80 on only. *)
Definition plain_char (char_signed : bool) (b : Z) : Z :=
  if char_signed && (b >=? 128) then b - 256 else b.

Fixpoint fat_dir_lfn_cmp_loop (char_signed : bool) (offs : list Z) (i : Z)
  (lfn : list Z) (off : Z) (name : string) (noff name_off : Z) : Z :=
  match offs with
  | [] => 1
  | o :: rest =>
      let c := byte_at lfn (off + o) in
      if (c =? 0) || (c =? 255) then 1
      else if negb (c =? plain_char char_signed
                           (char_at name (noff + name_off + i))) then 0
      else
        fat_dir_lfn_cmp_loop char_signed rest (i + 1) lfn off name noff
          name_off
  end.

(** Takes in a pointer to a LFN entry and check if it matches the given
    name.  The source compares the [u8] of the slot with the plain
    [char] of the name; [size] is not used. *)
Definition fat_dir_lfn_cmp (char_signed : bool) (lfn : list Z) (off : Z)
  (name : string) (noff : Z) (size : Z) : Z :=
  let name_off :=
    u8 (13 * (Z.land (byte_at lfn (off + LFN_SEQ)) LFN_SEQ_MSK - 1)) in
  fat_dir_lfn_cmp_loop char_signed lfn_offsets 0 lfn off name noff name_off.

(** ** Directory search and path resolution *)

(** The [while (1)] loop of [fat_dir_search]; [None] when the fuel ran
    out.  [match_] is the local [match]. *)
Fixpoint fat_dir_search_loop (char_signed : bool) (fuel : nat)
  (vol : volume_s) (dev : device) (dir : Dir.t) (name : string) (noff size : Z)
  (lfn_crc lfn_match match_ : Z)
  : option (Z * Dir.t * volume_s * device) :=
  match fuel with
  | O => None
  | S k =>
      let '(r, vol1, dev1) := fat_read vol dev (Dir.sector dir) in
      if r =? 0 then Some (0, dir, vol1, dev1)
      else
        let curr_buff := buffer vol1 in
        let rw_tmp := Dir.rw_offset dir in
        let sfn_tmp := byte_at curr_buff rw_tmp in
        if sfn_tmp =? 0 then Some (0, dir, vol1, dev1)
        else
          let continue_ (lfn_crc' lfn_match' match' : Z) :=
            let '(r2, dir2, vol2, dev2) := fat_dir_get_next vol1 dev1 dir in
            if r2 =? 0 then Some (0, dir2, vol2, dev2)
            else
              fat_dir_search_loop char_signed k vol2 dev2 dir2 name noff size
                lfn_crc' lfn_match' match' in
          if negb ((sfn_tmp =? 0) || (sfn_tmp =? 5) || (sfn_tmp =? 229)) then
            if Z.land (byte_at curr_buff (rw_tmp + SFN_ATTR)) ATTR_LFN
               =? ATTR_LFN then
              let lfn_match' :=
                if fat_dir_lfn_cmp char_signed curr_buff rw_tmp name noff
                     size =? 0
                then 0 else lfn_match in
              continue_ (byte_at curr_buff (rw_tmp + LFN_CRC)) lfn_match'
                match_
            else
              let match' :=
                if negb (lfn_crc =? 0) && negb (lfn_match =? 0) then
                  if lfn_crc =? fat_dir_sfn_crc curr_buff rw_tmp then 1
                  else match_
                else
                  if negb (fat_dir_sfn_cmp curr_buff rw_tmp name noff size
                           =? 0)
                  then 1 else match_ in
              if negb (match' =? 0) then
                let cluster :=
                  u32 (Z.lor
                         (Z.shiftl
                            (fat_load16 curr_buff (rw_tmp + SFN_CLUSTH)) 16)
                         (fat_load16 curr_buff (rw_tmp + SFN_CLUSTL))) in
                let sector := fat_clust_to_sect vol1 cluster in
                Some (1,
                      Dir.mk (Dir.vol dir) sector sector cluster 0
                        (fat_load32 curr_buff (rw_tmp + SFN_FILE_SIZE)),
                      vol1, dev1)
              else continue_ 0 1 match'
          else continue_ lfn_crc lfn_match match_
  end.

(** Takes in a pointer to a directory and tries to find a name match.
    The local [lfn_match] has no initialiser in the source;
    [lfn_match_init] is the value it happens to hold.  [char_signed],
    here and in the callers, is handed down to [fat_dir_lfn_cmp]. *)
Definition fat_dir_search (char_signed : bool) (fuel : nat)
  (lfn_match_init : Z)
  (vol : volume_s) (dev : device) (dir : Dir.t) (name : string)
  (noff size : Z) : option (Z * Dir.t * volume_s * device) :=
  let dir1 :=
    if negb (Dir.start_sect dir =? Dir.sector dir) then
      Dir.mk (Dir.vol dir) (Dir.start_sect dir) (Dir.start_sect dir)
        (fat_sect_to_clust vol (Dir.start_sect dir)) 0 (Dir.size dir)
    else dir in
  fat_dir_search_loop char_signed fuel vol dev dir1 name noff size 0
    lfn_match_init 0.

(** Gets a volume from the linked list base on the volume letter.  The
    result is the pointer (the position in the list) and the volume it
    points to; [None] is [NULL]. *)
Fixpoint volume_get_from (pos : nat) (vols : list volume_s) (l : Z)
  : option (nat * volume_s) :=
  match vols with
  | [] => None
  | vol :: rest =>
      if letter vol =? l then Some (pos, vol)
      else volume_get_from (S pos) rest l
  end.

Definition volume_get (volume_base : list volume_s) (l : Z)
  : option (nat * volume_s) :=
  volume_get_from 0 volume_base l.

Fixpoint put_volume (pos : nat) (vol : volume_s) (vols : list volume_s)
  : list volume_s :=
  match vols, pos with
  | [], _ => []
  | _ :: rest, O => vol :: rest
  | v :: rest, S k => v :: put_volume k vol rest
  end.

(** [while ( *path && ( *path != '/')) path++;] *)
Fixpoint skip_to_slash (n : nat) (path : string) (p : Z) : Z :=
  match n with
  | O => p
  | S k =>
      let c := char_at path p in
      if negb (c =? 0) && negb (c =? 47) then skip_to_slash k path (p + 1)
      else p
  end.

(** The loop that measures a name fragment: [true] when it met a ['.']
    and the function returns, else the fragment size. *)
Fixpoint measure_fragment (n : nat) (path : string) (tmp_ptr : Z)
  (frag_size : Z) : bool * Z :=
  match n with
  | O => (false, frag_size)
  | S k =>
      let c := char_at path tmp_ptr in
      if negb (c =? 0) && negb (c =? 47) then
        if c =? 46 then (true, frag_size)
        else measure_fragment k path (tmp_ptr + 1) (u8 (frag_size + 1))
      else (false, frag_size)
  end.

(** The [while (1)] loop of [fat_follow_path]; [p] is [path]. *)
Fixpoint fat_follow_path_loop (char_signed : bool) (fuel : nat)
  (lfn_match_init : Z)
  (vol : volume_s) (dev : device) (dir : Dir.t) (path : string) (p : Z)
  : option (retval * Dir.t * volume_s * device) :=
  match fuel with
  | O => None
  | S k =>
      let n := S (String.length path) in
      let p1 := skip_to_slash n path p in
      if char_at path p1 =? 0 then Some (Status FSTATUS_OK, dir, vol, dev)
      else
        let p2 := p1 + 1 in
        if char_at path p2 =? 0 then Some (Status FSTATUS_OK, dir, vol, dev)
        else
          match measure_fragment n path p2 0 with
          | (true, _) => Some (Status FSTATUS_OK, dir, vol, dev)
          | (false, frag_size) =>
              match fat_dir_search char_signed fuel lfn_match_init vol dev
                      dir path p2 frag_size with
              | None => None
              | Some (r, dir1, vol1, dev1) =>
                  if r =? 0 then Some (Literal 0, dir1, vol1, dev1)
                  else
                    fat_follow_path_loop char_signed k lfn_match_init vol1
                      dev1 dir1 path p2
              end
          end
  end.

(** This function will take in a path and a blank directory object.  The
    function will follow the path and return the directory object to the
    last found folder. *)
Definition fat_follow_path (char_signed : bool) (fuel : nat)
  (lfn_match_init : Z)
  (volume_base : list volume_s) (dev : device) (dir : Dir.t)
  (path : string)
  : option (retval * Dir.t * list volume_s * device) :=
  match volume_get volume_base (char_at path 0) with
  | None => Some (Status FSTATUS_NO_VOLUME, dir, volume_base, dev)
  | Some (ptr, vol) =>
      let dir1 :=
        Dir.mk ptr (root_lba vol) (root_lba vol)
          (fat_clust_to_sect vol (root_lba vol)) 0 (Dir.size dir) in
      if negb (char_at path 1 =? 58) then
        Some (Status FSTATUS_PATH_ERR, dir1, volume_base, dev)
      else if negb (char_at path 2 =? 47) then
        Some (Status FSTATUS_PATH_ERR, dir1, volume_base, dev)
      else
        match fat_follow_path_loop char_signed fuel lfn_match_init vol dev
                dir1 path 2
        with
        | None => None
        | Some (r, dir2, vol2, dev2) =>
            Some (r, dir2, put_volume ptr vol2 volume_base, dev2)
        end
  end.

(** ** Reading a directory *)

(** [struct info_s]: the record a directory read fills in. *)
Record info_s := mk_info {
  name : list Z;
  name_length : Z;
  attribute : Z;
  c_time_tenth : Z;
  c_time : Z;
  c_date : Z;
  w_time : Z;
  w_date : Z;
  a_date : Z;
  size : Z
}.

(** The loop that copies the 13 characters of a LFN entry into
    [info->name]; the result is the name and [name_length]. *)
Fixpoint lfn_copy_loop (offs : list Z) (i : Z) (entry : list Z) (off : Z)
  (name_offset : Z) (nm : list Z) (name_length : Z) : list Z * Z :=
  match offs with
  | [] => (nm, name_length)
  | o :: rest =>
      let tmp_char := byte_at entry (off + o) in
      if negb ((tmp_char =? 0) || (tmp_char =? 255)) then
        lfn_copy_loop rest (i + 1) entry off name_offset
          (set_byte nm (name_offset + i) tmp_char) (u8 (name_length + 1))
      else lfn_copy_loop rest (i + 1) entry off name_offset nm name_length
  end.

(** The loop that copies the 11 characters of a SFN entry. *)
Fixpoint sfn_copy_loop (n : nat) (i : Z) (entry : list Z) (off : Z)
  (nm : list Z) (name_length : Z) : list Z * Z :=
  match n with
  | O => (nm, name_length)
  | S k =>
      sfn_copy_loop k (i + 1) entry off
        (set_byte nm i (byte_at entry (off + i))) (u8 (name_length + 1))
  end.

(** The [while (1)] loop of [fat_dir_read]; [None] when the fuel ran
    out. *)
Fixpoint fat_dir_read_loop (fuel : nat) (vol : volume_s) (dev : device)
  (dir : Dir.t) (info : info_s) (lfn_crc name_len : Z)
  : option (fstatus * Dir.t * info_s * volume_s * device) :=
  match fuel with
  | O => None
  | S k =>
      let '(r, vol1, dev1) := fat_read vol dev (Dir.sector dir) in
      if r =? 0 then Some (FSTATUS_ERROR, dir, info, vol1, dev1)
      else
        let entry := buffer vol1 in
        let off := Dir.rw_offset dir in
        let sfn_check := byte_at entry off in
        if sfn_check =? 0 then Some (FSTATUS_EOF, dir, info, vol1, dev1)
        else if negb (sfn_check =? 229) && negb (sfn_check =? 5) then
          let sfn_attr := byte_at entry (off + SFN_ATTR) in
          if Z.land sfn_attr ATTR_LFN =? ATTR_LFN then
            let name_offset :=
              u8 (13 * (Z.land (byte_at entry off) LFN_SEQ_MSK - 1)) in
            let '(nm, name_len1) :=
              lfn_copy_loop lfn_offsets 0 entry off name_offset (name info)
                name_len in
            let info1 :=
              mk_info nm (name_length info) (attribute info)
                (c_time_tenth info) (c_time info) (c_date info)
                (w_time info) (w_date info) (a_date info) (size info) in
            let '(_, dir2, vol2, dev2) := fat_dir_get_next vol1 dev1 dir in
            fat_dir_read_loop k vol2 dev2 dir2 info1
              (byte_at entry (off + LFN_CRC)) name_len1
          else
            if negb (lfn_crc =? 0)
               && negb (lfn_crc =? fat_dir_sfn_crc entry off) then
              Some (FSTATUS_ERROR, dir, info, vol1, dev1)
            else
              let '(nm, name_len1) :=
                if negb (lfn_crc =? 0) then (name info, name_len)
                else sfn_copy_loop 11 0 entry off (name info) name_len in
              let info1 :=
                mk_info nm name_len1 (byte_at entry (off + SFN_ATTR))
                  (byte_at entry (off + SFN_CTIME_TH))
                  (fat_load16 entry (off + SFN_CTIME))
                  (fat_load16 entry (off + SFN_CDATE))
                  (fat_load16 entry (off + SFN_WTIME))
                  (fat_load16 entry (off + SFN_WDATE))
                  (fat_load16 entry (off + SFN_ADATE))
                  (fat_load32 entry (off + SFN_FILE_SIZE)) in
              let '(_, dir2, vol2, dev2) := fat_dir_get_next vol1 dev1 dir in
              Some (FSTATUS_OK, dir2, info1, vol2, dev2)
        else
          let '(_, dir2, vol2, dev2) := fat_dir_get_next vol1 dev1 dir in
          fat_dir_read_loop k vol2 dev2 dir2 info lfn_crc name_len
  end.

Definition fat_dir_read (fuel : nat) (vol : volume_s) (dev : device)
  (dir : Dir.t) (info : info_s)
  : option (fstatus * Dir.t * info_s * volume_s * device) :=
  fat_dir_read_loop fuel vol dev dir info 0 0.

(** ** Renaming *)

(** The [for] loop of [fat_dir_rename] that measures the name up to the
    first ['.'] that is not its first character. *)
Fixpoint rename_name_length (n : nat) (nm : string) (i : Z)
  (name_len : Z) : Z :=
  match n with
  | O => name_len
  | S k =>
      if (char_at nm i =? 46) && negb (i =? 0) then name_len
      else rename_name_length k nm (u8 (i + 1)) (u8 (name_len + 1))
  end.

(** The local [entries_req] of [fat_dir_rename] for a name of [length]
    characters. *)
Definition rename_entries_req (nm : string) (length : Z) : Z :=
  let name_len := rename_name_length (Z.to_nat (u8 length)) nm 0 0 in
  let entries_req := 1 in
  if name_len >? 8 then u8 (u8 length / 13 - 1) else entries_req.

(** Renames a directory.  What the function computes leaves it only
    through [print]: the second component lists the numbers printed
    (name length, then entries required and entries present).  The
    source has no [return] at its end. *)
Definition fat_dir_rename (vol : volume_s) (dev : device) (dir : Dir.t)
  (nm : string) (length : Z) : retval * list Z * volume_s * device :=
  let name_len := rename_name_length (Z.to_nat (u8 length)) nm 0 0 in
  let entries_req := rename_entries_req nm length in
  let '(r, vol1, dev1) := fat_read vol dev (Dir.sector dir) in
  if r =? 0 then (Status FSTATUS_ERROR, [name_len], vol1, dev1)
  else
    let entries_pres :=
      if Z.land (byte_at (buffer vol1) (Dir.rw_offset dir + SFN_ATTR))
           ATTR_LFN =? ATTR_LFN
      then
        u8 (Z.land (byte_at (buffer vol1) (Dir.rw_offset dir)) LFN_SEQ_MSK
            + 1)
      else 1 in
    (NoValue, [name_len; entries_req; entries_pres], vol1, dev1).

(** ** Files *)

(** The [while (count--)] loop of [fat_file_read], [n] iterations left.
    [out] collects the bytes stored through [buffer], [status] is
    [*status]. *)
Fixpoint fat_file_read_loop (n : nat) (sect_size file_size : Z)
  (vol : volume_s) (dev : device) (file : File.t) (out : list Z)
  (status : Z)
  : fstatus * File.t * list Z * Z * volume_s * device :=
  match n with
  | O => (FSTATUS_OK, file, out, status, vol, dev)
  | S k =>
      let '(r, file1, vol1, dev1) :=
        if File.rw_offset file >=? sect_size then
          let '(_, file1, vol1, dev1) := fat_file_addr_resolve vol dev file in
          let '(r, vol2, dev2) := fat_read vol1 dev1 (File.sector file1) in
          (r, file1, vol2, dev2)
        else (1, file, vol, dev) in
      if r =? 0 then (FSTATUS_ERROR, file1, out, status, vol1, dev1)
      else
        let b := byte_at (buffer vol1) (File.rw_offset file1) in
        let file2 :=
          File.mk (File.vol file1) (File.start_sect file1)
            (File.sector file1) (File.cluster file1)
            (u32 (File.rw_offset file1 + 1))
            (u32 (File.glob_offset file1 + 1)) (File.size file1) in
        let status1 := u32 (status + 1) in
        if File.glob_offset file2 >=? file_size then
          (FSTATUS_OK, file2, out ++ [b], status1, vol1, dev1)
        else
          fat_file_read_loop k sect_size file_size vol1 dev1 file2
            (out ++ [b]) status1
  end.

(** This functions reads a number of bytes from the file pointer.  The
    components of the result are the status returned, the file, the
    bytes delivered, [*status], the volume and the device. *)
Definition fat_file_read (vol : volume_s) (dev : device) (file : File.t)
  (count : Z) : fstatus * File.t * list Z * Z * volume_s * device :=
  let status := 0 in
  let sect_size := u16 (sector_size vol) in
  let file_size := File.size file in
  let '(r, vol1, dev1) := fat_read vol dev (File.sector file) in
  if r =? 0 then (FSTATUS_ERROR, file, [], status, vol1, dev1)
  else
    fat_file_read_loop (Z.to_nat (u32 count)) sect_size file_size vol1 dev1
      file [] status.

(** The [while (cluster_offset)] loop of [fat_file_jump].  The first
    component is [Some r] when the loop left the function with
    [return r]. *)
Fixpoint fat_file_jump_loop (cluster_offset : nat) (vol : volume_s)
  (dev : device) (cluster : Z) : option retval * Z * volume_s * device :=
  match cluster_offset with
  | O => (None, cluster, vol, dev)
  | S k =>
      match fat_table_get vol dev cluster with
      | (None, vol1, dev1) => (Some (Status FSTATUS_ERROR), cluster, vol1, dev1)
      | (Some new_cluster, vol1, dev1) =>
          if is_eoc new_cluster then (Some (Literal 0), cluster, vol1, dev1)
          else fat_file_jump_loop k vol1 dev1 new_cluster
      end
  end.

(** Move the read/write file pointer.  The offset specified is from the
    start of the file.  A zero [sector_size] or [cluster_size] is a
    division by zero in C; here the quotient is 0 and the remainder the
    dividend. *)
Definition fat_file_jump (vol : volume_s) (dev : device) (file : File.t)
  (offset : Z) : retval * File.t * volume_s * device :=
  let cluster0 := fat_sect_to_clust vol (File.start_sect file) in
  let sector_offset := offset / sector_size vol in
  let cluster_offset := sector_offset / cluster_size vol in
  let sector_offset := sector_offset mod cluster_size vol in
  match fat_file_jump_loop (Z.to_nat cluster_offset) vol dev cluster0 with
  | (Some r, cluster1, vol1, dev1) =>
      (r,
       File.mk (File.vol file) (File.start_sect file) (File.sector file)
         cluster1 (File.rw_offset file) (File.glob_offset file)
         (File.size file),
       vol1, dev1)
  | (None, cluster1, vol1, dev1) =>
      (Status FSTATUS_OK,
       File.mk (File.vol file) (File.start_sect file)
         (u32 (fat_clust_to_sect vol1 cluster1 + sector_offset)) cluster1
         (offset mod sector_size vol1) offset (File.size file),
       vol1, dev1)
  end.

(** ** Recognising a FAT32 partition *)

(** The string literal ["FAT"] with its terminator. *)
Definition FAT_literal : list Z := [70; 65; 84; 0].

(** The initialiser of the local [root_sectors] of [fat_search].  Its
    operands are [int] ([u16] promoted): the quotient truncates, and a
    zero divisor (sector size 1), a division by zero in C, gives 0
    here. *)
Definition fat_search_root_sectors (bpb : list Z) : Z :=
  u32 (Z.quot
         (fat_load16 bpb BPB_ROOT_ENT_CNT * 32
          + (fat_load16 bpb BPB_SECTOR_SIZE - 1))
         (fat_load16 bpb BPB_SECTOR_SIZE - 1)).

(** Checks for a valid FAT32 file system on the given partition.  A zero
    cluster size, a division by zero in C, gives quotient 0 here. *)
Definition fat_search (bpb : list Z) : Z :=
  if negb (fat_load16 bpb 510 =? 43605) then 0
  else if (fat_memcmp bpb BPB_32_FSTYPE FAT_literal 0 3 =? 0)
          && (fat_memcmp bpb BPB_16_FSTYPE FAT_literal 0 3 =? 0) then 0
  else
    let root_sectors := fat_search_root_sectors bpb in
    let fat_size :=
      if negb (fat_load16 bpb BPB_FAT_SIZE_16 =? 0)
      then fat_load16 bpb BPB_FAT_SIZE_16
      else fat_load32 bpb BPB_32_FAT_SIZE in
    let tot_sect :=
      if negb (fat_load16 bpb BPB_TOT_SECT_16 =? 0)
      then fat_load16 bpb BPB_TOT_SECT_16
      else fat_load32 bpb BPB_TOT_SECT_32 in
    let data_sectors :=
      u32 (tot_sect
           - u32 (fat_load16 bpb BPB_RSVD_CNT
                  + u32 (byte_at bpb BPB_NUM_FATS * fat_size)
                  + root_sectors)) in
    let data_clusters := data_sectors / byte_at bpb BPB_CLUSTER_SIZE in
    if data_clusters <? 65525 then 0 else 1.

(** ** What the cache shows, and the conditions of the statements *)

(** The content of sector [lba] as the driver sees it: the buffer for the
    cached sector, the medium for every other one. *)
Definition view (vol : volume_s) (dev : device) (lba : Z) : list Z :=
  if lba =? buffer_lba vol then buffer vol else sectors dev lba.

(** A clean buffer holds what the medium holds for its sector. *)
Definition coherent (vol : volume_s) (dev : device) : Prop :=
  buffer_dirty vol = 0 -> sectors dev (buffer_lba vol) = buffer vol.

(** Every coming transfer succeeds. *)
Definition no_faults (dev : device) : Prop := faults dev = [].

(** Two states of one volume: everything but the cache agrees. *)
Definition same_geometry (v w : volume_s) : Prop :=
  letter w = letter v /\ disk w = disk v
  /\ sector_size w = sector_size v /\ cluster_size w = cluster_size v
  /\ total_size w = total_size v /\ info_lba w = info_lba v
  /\ fat_lba w = fat_lba v /\ data_lba w = data_lba v
  /\ root_lba w = root_lba v.

(** The driver sees the sectors [L], and the conditions above hold. *)
Definition shows (vol : volume_s) (dev : device) (L : Z -> list Z)
  : Prop :=
  (forall l, view vol dev l = L l) /\ coherent vol dev /\ no_faults dev.

(** The FAT entry of cluster [c] in the sectors [L]. *)
Definition fat_entry (L : Z -> list Z) (fat : Z) (c : Z) : Z :=
  fat_load32 (L (u32 (fat + c / 128))) ((c mod 128) * 4).

(** The cluster [hops] links down the chain from [c]; [None] when an
    end-of-chain entry is met before. *)
Fixpoint chain_walk (L : Z -> list Z) (fat : Z) (hops : nat) (c : Z)
  : option Z :=
  match hops with
  | O => Some c
  | S k =>
      if is_eoc (fat_entry L fat c) then None
      else chain_walk L fat k (fat_entry L fat c)
  end.

(** A free FAT entry, as [fat_get_cluster] tests it. *)
Definition entry_free (e : Z) : Prop := Z.land e 127 = 0.

(** The three fields of the sector cache. *)
Definition cache_state (vol : volume_s) : list Z * Z * Z :=
  (buffer vol, buffer_lba vol, buffer_dirty vol).

(** ** The statements of the specification, in its words *)

(** Rename chain sizing: 1 if [L <= 8], else [ceil (L / 13) + 1]. *)
Definition entries_required_spec (L : Z) : Z :=
  if L <=? 8 then 1 else (L + 12) / 13 + 1.

(** BPB validation: [root_sectors = ceil (root_ent_cnt * 32 /
    sector_size)], [data_clusters = (tot_sect - (rsvd_cnt + num_fats *
    fat_size + root_sectors)) / cluster_size], and the three
    conditions. *)
Definition root_sectors_spec (bpb : list Z) : Z :=
  let sz := fat_load16 bpb BPB_SECTOR_SIZE in
  (fat_load16 bpb BPB_ROOT_ENT_CNT * 32 + sz - 1) / sz.

Definition data_clusters_spec (bpb : list Z) : Z :=
  let fat_size :=
    if fat_load16 bpb BPB_FAT_SIZE_16 =? 0
    then fat_load32 bpb BPB_32_FAT_SIZE
    else fat_load16 bpb BPB_FAT_SIZE_16 in
  let tot_sect :=
    if fat_load16 bpb BPB_TOT_SECT_16 =? 0
    then fat_load32 bpb BPB_TOT_SECT_32
    else fat_load16 bpb BPB_TOT_SECT_16 in
  (tot_sect
   - (fat_load16 bpb BPB_RSVD_CNT + byte_at bpb BPB_NUM_FATS * fat_size
      + root_sectors_spec bpb))
  / byte_at bpb BPB_CLUSTER_SIZE.

Definition fat32_accept_spec (bpb : list Z) : bool :=
  (fat_load16 bpb 510 =? 43605)
  && ((fat_memcmp bpb BPB_32_FSTYPE FAT_literal 0 3 =? 1)
      || (fat_memcmp bpb BPB_16_FSTYPE FAT_literal 0 3 =? 1))
  && (data_clusters_spec bpb >=? 65525).

(** A directory record in use, and its two kinds. *)
Definition entry_in_use (b : list Z) (off : Z) : Prop :=
  byte_at b off <> 0 /\ byte_at b off <> 229 /\ byte_at b off <> 5.

Definition lfn_slot (b : list Z) (off : Z) : Prop :=
  entry_in_use b off
  /\ Z.land (byte_at b (off + SFN_ATTR)) ATTR_LFN = ATTR_LFN.

Definition sfn_record (b : list Z) (off : Z) : Prop :=
  entry_in_use b off
  /\ Z.land (byte_at b (off + SFN_ATTR)) ATTR_LFN <> ATTR_LFN.

(** The cursor one record further in the sectors [L]: the step of
    [fat_dir_get_next] with the FAT entry read in [L].  The cursor moves
    also where the step reports the end of the chain; [fat_dir_read] goes
    on with it whatever the step returns. *)
Definition dir_next (vol : volume_s) (L : Z -> list Z) (dir : Dir.t)
  : Dir.t :=
  let rw1 := u32 (Dir.rw_offset dir + 32) in
  if rw1 >=? sector_size vol then
    let rw2 := u32 (rw1 - sector_size vol) in
    let sector2 := u32 (Dir.sector dir + 1) in
    if sector2 >=?
       u32 (fat_clust_to_sect vol (Dir.cluster dir) + cluster_size vol) then
      let new_cluster := fat_entry L (fat_lba vol) (Dir.cluster dir) in
      if is_eoc new_cluster then
        Dir.mk (Dir.vol dir) (Dir.start_sect dir) sector2 (Dir.cluster dir)
          rw2 (Dir.size dir)
      else
        Dir.mk (Dir.vol dir) (Dir.start_sect dir)
          (fat_clust_to_sect vol new_cluster) new_cluster rw2 (Dir.size dir)
    else
      Dir.mk (Dir.vol dir) (Dir.start_sect dir) sector2 (Dir.cluster dir)
        rw2 (Dir.size dir)
  else
    Dir.mk (Dir.vol dir) (Dir.start_sect dir) (Dir.sector dir)
      (Dir.cluster dir) rw1 (Dir.size dir).

(** The cursor [n] records further. *)
Fixpoint dir_nth (n : nat) (vol : volume_s) (L : Z -> list Z)
  (dir : Dir.t) : Dir.t :=
  match n with
  | O => dir
  | S k => dir_nth k vol L (dir_next vol L dir)
  end.

(** The FSInfo fields of a sector. *)
Definition fsinfo_next_free (b : list Z) : Z :=
  fat_load32 b INFO_CLUST_NEXT_FREE.

Definition fsinfo_free_count (b : list Z) : Z :=
  fat_load32 b INFO_CLUST_CNT.

(** ** Volumes, sectors and records of the examples *)

Definition zero_sector : list Z := repeat 0 512.

(** The volume of the mount scenario: 512-byte sectors, 8 sectors per
    cluster, FSInfo at 2049, FAT at 2080, data and root at 4128 (root
    cluster 2), letter ['C']. *)
Definition vol_C : volume_s :=
  mk_volume 67 0 512 8 0 2049 2080 4128 4128 zero_sector 0 0.

(** A volume with 128 sectors per cluster. *)
Definition vol_128 : volume_s :=
  mk_volume 67 0 512 128 0 2049 2080 4128 4128 zero_sector 0 0.

(** The first FAT sector: the chain 2 -> 5 -> 9 -> end, clusters 10 and
    17 free, every other entry an end-of-chain mark. *)
Definition fat_demo_entry (i : Z) : list Z :=
  if (i =? 10) || (i =? 17) then [0; 0; 0; 0]
  else if i =? 2 then [5; 0; 0; 0]
  else if i =? 5 then [9; 0; 0; 0]
  else [255; 255; 255; 15].

Definition fat_demo : list Z :=
  flat_map fat_demo_entry (map Z.of_nat (seq 0 128)).

(** The FSInfo sector: [next_free] 10, [free_count] 50. *)
Definition fsinfo_demo : list Z :=
  fat_store32 (fat_store32 zero_sector INFO_CLUST_NEXT_FREE 10)
    INFO_CLUST_CNT 50.

Fixpoint put_bytes (m : list Z) (off : Z) (bs : list Z) : list Z :=
  match bs with
  | [] => m
  | b :: rest => put_bytes (set_byte m off b) (off + 1) rest
  end.

(** A LFN slot: sequence byte 0x41, the character ['a'], checksum byte
    [crc]. *)
Definition lfn_demo (crc : Z) : list Z :=
  [65; 97; 0; 255; 255; 255; 255; 255; 255; 255; 255; 15; 0; crc;
   255; 255; 255; 255; 255; 255; 255; 255; 255; 255; 255; 255; 0; 0;
   255; 255; 255; 255].

(** The SFN record ["A          "], an archive file of size 0. *)
Definition sfn_demo : list Z :=
  [65; 32; 32; 32; 32; 32; 32; 32; 32; 32; 32; 32; 0; 0; 0; 0;
   0; 0; 0; 0; 0; 0; 0; 0; 0; 0; 3; 0; 0; 0; 0; 0].

(** A root directory sector: one LFN slot with checksum byte [crc], its
    SFN record, and the end mark. *)
Definition root_demo (crc : Z) : list Z :=
  put_bytes (put_bytes zero_sector 0 (lfn_demo crc)) 32 sfn_demo.

(** The medium of the examples; [flts] are the coming faults. *)
Definition medium_demo (crc : Z) (l : Z) : list Z :=
  if l =? 2049 then fsinfo_demo
  else if l =? 2080 then fat_demo
  else if l =? 4128 then root_demo crc
  else zero_sector.

Definition dev_demo (crc : Z) (flts : list bool) : device :=
  mk_device (medium_demo crc) flts.

(** [vol_C] with a dirty buffer that belongs to sector 5. *)
Definition vol_dirty_5 : volume_s :=
  mk_volume 67 0 512 8 0 2049 2080 4128 4128 fsinfo_demo 5 1.

(** The cursor at the start of the root directory of [vol_C]. *)
Definition root_dir : Dir.t := Dir.mk 0 4128 4128 2 0 0.

Definition blank_dir : Dir.t := Dir.mk 0 0 0 0 0 0.

Definition blank_info : info_s := mk_info (repeat 0 256) 0 0 0 0 0 0 0 0 0.

(** A file of 100 bytes in cluster 2 with the cursor at its end. *)
Definition file_at_eof : File.t := File.mk 0 4128 4128 2 100 100 100.

(** A file of three clusters (chain 2 -> 5 -> 9), cursor at its start. *)
Definition file_demo : File.t := File.mk 0 4128 4128 2 0 0 12288.

(** A BPB sector: 512-byte sectors, 1 sector per cluster, 32 reserved
    sectors, 2 FATs of 512 sectors, no root entries, ["FAT32   "] at
    offset 82, signature 0xAA55, and [tot_sect] sectors in all. *)
Definition bpb_demo (tot_sect : Z) : list Z :=
  let b := fat_store16 zero_sector BPB_SECTOR_SIZE 512 in
  let b := set_byte b BPB_CLUSTER_SIZE 1 in
  let b := fat_store16 b BPB_RSVD_CNT 32 in
  let b := set_byte b BPB_NUM_FATS 2 in
  let b := fat_store32 b BPB_TOT_SECT_32 tot_sect in
  let b := fat_store32 b BPB_32_FAT_SIZE 512 in
  let b := put_bytes b BPB_32_FSTYPE [70; 65; 84; 51; 50; 32; 32; 32] in
  fat_store16 b 510 43605.

(** ** More of the driver: copying memory *)

(** The [do ... while (--count)] loop of [fat_memcpy], [n] bytes left.
    The two blocks are apart: the model has no overlapping copies. *)
Fixpoint fat_memcpy_loop (n : nat) (src : list Z) (soff : Z)
  (dest : list Z) (doff : Z) : list Z :=
  match n with
  | O => dest
  | S k =>
      fat_memcpy_loop k src (soff + 1)
        (set_byte dest doff (byte_at src soff)) (doff + 1)
  end.

(** Copies [count] number of bytes using byte access.  The loop tests
    [--count] after the copy: entered with [count] 0 it runs [2 ^ 32]
    times. *)
Definition fat_memcpy (src : list Z) (soff : Z) (dest : list Z)
  (doff : Z) (count : Z) : list Z :=
  fat_memcpy_loop
    (if u32 count =? 0 then Z.to_nat 4294967296 else Z.to_nat (u32 count))
    src soff dest doff.

(** ** More of the driver: opening and closing *)

(** Opens a directory *)
Definition fat_dir_open (char_signed : bool) (fuel : nat)
  (lfn_match_init : Z)
  (volume_base : list volume_s) (dev : device) (dir : Dir.t)
  (path : string)
  : option (retval * Dir.t * list volume_s * device) :=
  fat_follow_path char_signed fuel lfn_match_init volume_base dev dir path.

(** [fat_dir_close]: checks if the volume is clean.  [vol] is the volume
    [dir->vol] points to. *)
Definition fat_dir_close (vol : volume_s) (dev : device)
  : fstatus * volume_s * device :=
  let '(r, vol1, dev1) := fat_flush vol dev in
  if r =? 0 then (FSTATUS_ERROR, vol1, dev1) else (FSTATUS_OK, vol1, dev1).

(** Cleans up a file.  [vol] is the volume [file->vol] points to. *)
Definition fat_file_close (vol : volume_s) (dev : device)
  : fstatus * volume_s * device :=
  let '(r, vol1, dev1) := fat_flush vol dev in
  if r =? 0 then (FSTATUS_ERROR, vol1, dev1) else (FSTATUS_OK, vol1, dev1).

(** ** More of the conditions of the statements *)

(** A deleted directory record: first byte 0xE5 or 0x05, as the driver
    tests it. *)
Definition deleted_record (b : list Z) (off : Z) : Prop :=
  byte_at b off = 229 \/ byte_at b off = 5.

(** The sector of the cursor lies in the cluster of the cursor. *)
Definition in_cluster (vol : volume_s) (dir : Dir.t) : Prop :=
  fat_clust_to_sect vol (Dir.cluster dir) <= Dir.sector dir
  /\ Dir.sector dir
     < fat_clust_to_sect vol (Dir.cluster dir) + cluster_size vol.

(** The character the short-name comparison uses for [c]: lower-case
    ASCII letters count as their capitals. *)
Definition upper_char (c : Z) : Z :=
  if (c >=? 97) && (c <=? 122) then c - 32 else c.

(** The [n] bytes of a block from offset [off] on. *)
Fixpoint bytes_from (n : nat) (m : list Z) (off : Z) : list Z :=
  match n with
  | O => []
  | S k => byte_at m off :: bytes_from k m (off + 1)
  end.

(** The checksum of a short name as a rotate-and-add recurrence over its
    bytes: [c := rot_right_8 c + b] in 8 bits, from [c = 0]. *)
Definition rot_right_8 (c : Z) : Z :=
  Z.lor (Z.shiftl (Z.land c 1) 7) (Z.shiftr c 1).

Definition sfn_crc_spec (bytes : list Z) : Z :=
  fold_left (fun c b => u8 (rot_right_8 c + b)) bytes 0.

(** ** More of the driver: opening a file *)

(** [*char_ptr] for a pointer that [fat_file_open] moves backwards.  A
    read before the string is undefined in C; the model reads 0 there. *)
Definition char_before (path : string) (p : Z) : Z :=
  if p <? 0 then 0 else char_at path p.

(** The loop of [fat_file_open] that walks back to the last ['/'],
    counting in the [u8] [frag_size]. *)
Fixpoint back_to_slash (n : nat) (path : string) (p : Z) (frag_size : Z)
  : Z * Z :=
  match n with
  | O => (p, frag_size)
  | S k =>
      let c := char_before path p in
      if negb (c =? 47) && negb (c =? 0) then
        back_to_slash k path (p - 1) (u8 (frag_size + 1))
      else (p, frag_size)
  end.

(** Opens a file and returns the file object.  It takes in a global
    path.  The locals [dir] and [frag_size] have no initialiser in the
    source: [dir_init] and [frag_size_init] are what they happen to
    hold.  [ok_code] is the numeric value of [FSTATUS_OK] in the absent
    [fat32.h], against which the source compares the literal 0 that
    [fat_follow_path] returns for a directory it did not find.  The
    result is [None] when the fuel ran out (the pointer [dir.vol] is a
    volume of the list whenever it is used). *)
Definition fat_file_open (char_signed : bool) (fuel : nat)
  (lfn_match_init frag_size_init : Z)
  (ok_code : Z) (dir_init : Dir.t) (volume_base : list volume_s)
  (dev : device) (file : File.t) (path : string) (length : Z)
  : option (retval * File.t * list volume_s * device) :=
  match fat_follow_path char_signed fuel lfn_match_init volume_base dev
          dir_init path
  with
  | None => None
  | Some (status, dir, vols1, dev1) =>
      let not_ok :=
        match status with
        | Status FSTATUS_OK => false
        | Status _ => true
        | Literal z => negb (z =? ok_code)
        | NoValue => true
        end in
      if not_ok then Some (status, file, vols1, dev1)
      else
        let char_ptr := u16 length - 1 in
        if char_before path char_ptr =? 0 then
          Some (Status FSTATUS_PATH_ERR, file, vols1, dev1)
        else
          let char_ptr :=
            if char_before path char_ptr =? 47 then char_ptr - 1
            else char_ptr in
          let '(char_ptr, frag_size) :=
            back_to_slash (Z.to_nat (char_ptr + 2)) path char_ptr
              frag_size_init in
          if char_before path char_ptr =? 0 then
            Some (Status FSTATUS_PATH_ERR, file, vols1, dev1)
          else
            match nth_error vols1 (Dir.vol dir) with
            | None => None
            | Some vol =>
                match fat_dir_search char_signed fuel lfn_match_init vol
                        dev1 dir path (char_ptr + 1) frag_size with
                | None => None
                | Some (r, dir2, vol2, dev2) =>
                    let vols2 := put_volume (Dir.vol dir) vol2 vols1 in
                    if r =? 0 then
                      Some (Status FSTATUS_PATH_ERR, file, vols2, dev2)
                    else
                      Some (Status FSTATUS_OK,
                            File.mk (Dir.vol dir2) (Dir.sector dir2)
                              (Dir.sector dir2) (Dir.cluster dir2) 0
                              (File.glob_offset file) (Dir.size dir2),
                            vols2, dev2)
                end
            end
  end.

(** ** More of the driver: the list of volumes *)

(** The linked list with base [volume_base] and the bitmask of the
    letters in use. *)
Record registry := mk_registry {
  volume_base : list volume_s;
  volume_bitmask : Z
}.

Definition set_letter (vol : volume_s) (l : Z) : volume_s :=
  mk_volume l (disk vol) (sector_size vol) (cluster_size vol)
    (total_size vol) (info_lba vol) (fat_lba vol) (data_lba vol)
    (root_lba vol) (buffer vol) (buffer_lba vol) (buffer_dirty vol).

(** The loop of [fat_volume_add] that assigns a letter based on the
    bitmask, [n] rounds left, [i] the bit tried. *)
Fixpoint assign_letter (n : nat) (i : Z) (bitmask : Z) (vol : volume_s)
  : Z * volume_s :=
  match n with
  | O => (bitmask, vol)
  | S k =>
      if Z.land bitmask (u32 (Z.shiftl 1 i)) =? 0 then
        (u32 (Z.lor bitmask (u32 (Z.shiftl 1 i))), set_letter vol (67 + i))
      else assign_letter k (u8 (i + 1)) bitmask vol
  end.

(** Add a volume to the system volumes and assign a letter to it.  The
    volume is linked behind the last one and then gets its letter. *)
Definition fat_volume_add (reg : registry) (vol : volume_s)
  : Z * registry :=
  let '(mask, vol1) := assign_letter 32 0 (volume_bitmask reg) vol in
  (1, mk_registry (volume_base reg ++ [vol1]) mask).

(** The search of [fat_volume_remove]: the first volume with the letter
    and the list without it. *)
Fixpoint unlink_volume (l : Z) (vols : list volume_s)
  : option (volume_s * list volume_s) :=
  match vols with
  | [] => None
  | v :: rest =>
      if letter v =? l then Some (v, rest)
      else
        match unlink_volume l rest with
        | None => None
        | Some (curr, rest') => Some (curr, v :: rest')
        end
  end.

(** Remove a volume from the system volumes.  This function does not
    delete the memory.  A letter below ['C'] or above ['C' + 31] gives a
    shift by 32 or more, undefined in C; the model clears no bit of the
    32 then. *)
Definition fat_volume_remove (reg : registry) (l : Z) : Z * registry :=
  match unlink_volume l (volume_base reg) with
  | None => (0, reg)
  | Some (curr, vols) =>
      let bit_pos := u8 (letter curr - 67) in
      (1,
       mk_registry vols
         (u32 (Z.land (volume_bitmask reg) (Z.lnot (Z.shiftl 1 bit_pos)))))
  end.

(** Gets the first volume available. *)
Definition volume_get_first (reg : registry) : option volume_s :=
  hd_error (volume_base reg).

(** The letters of the list and the bitmask agree: the bitmask is a
    [u32], no two volumes share a letter, every volume has a letter from
    ['C'] to ['C' + 31] whose bit is set, and every set bit is the letter
    of a volume. *)
Definition registry_ok (reg : registry) : Prop :=
  0 <= volume_bitmask reg < 2 ^ 32
  /\ NoDup (map letter (volume_base reg))
  /\ (forall v, In v (volume_base reg) ->
                67 <= letter v < 99
                /\ Z.testbit (volume_bitmask reg) (letter v - 67) = true)
  /\ (forall i, 0 <= i < 32 -> Z.testbit (volume_bitmask reg) i = true ->
                In (67 + i) (map letter (volume_base reg))).

(** ** More of the driver: the volume label *)

(** Modelled from the spec: the [VOLUME_ID] attribute bit of [fat32.h]
    (section 4.G: the LFN pattern is
    [READ_ONLY|HIDDEN|SYSTEM|VOLUME_ID = 0x0F]). *)
Definition ATTR_VOL_LABEL : Z := 8.

(** The label functions keep their cursor in a local [struct dir_s] of
    which they set [sector], [rw_offset] and [cluster] but not [vol].
    [fat_dir_get_next], which they call when the record at hand is not
    the label, reads [dir->vol->sector_size]: through a pointer that was
    never set.  [WildPointer] is that outcome, with the volume and the
    device as they are at that point. *)
Inductive outcome (A : Type) :=
  | Returns (a : A)
  | WildPointer (vol : volume_s) (dev : device).
Arguments Returns {A} a.
Arguments WildPointer {A} vol dev.

(** The label record, as the two functions test it: the volume-label
    bit is set and the attribute is not the LFN pattern. *)
Definition is_label_attribute (attribute : Z) : bool :=
  negb (Z.land attribute ATTR_VOL_LABEL =? 0)
  && negb (Z.land attribute ATTR_LFN =? ATTR_LFN).

(** Gets the volume label.  [label] is the array the caller passes; the
    11 bytes are copied one by one. *)
Definition fat_get_vol_label (vol : volume_s) (dev : device)
  (label : list Z) : outcome (retval * list Z * volume_s * device) :=
  let sector := root_lba vol in
  let rw_offset := 0 in
  let '(r, vol1, dev1) := fat_read vol dev sector in
  if r =? 0 then Returns (Status FSTATUS_ERROR, label, vol1, dev1)
  else
    let attribute := byte_at (buffer vol1) (rw_offset + SFN_ATTR) in
    if is_label_attribute attribute then
      Returns (Literal 1,
               fat_memcpy_loop 11 (buffer vol1) rw_offset label 0,
               vol1, dev1)
    else WildPointer vol1 dev1.

(** Get the volue label *)
Definition volume_get_label (vol : volume_s) (dev : device)
  (label : list Z) : outcome (retval * list Z * volume_s * device) :=
  fat_get_vol_label vol dev label.

(** The loop of [volume_set_label] that stores the 11 characters: the
    name, then spaces. *)
Fixpoint set_label_loop (n : nat) (i : Z) (b : list Z) (off : Z)
  (nm : string) (length : Z) : list Z :=
  match n with
  | O => b
  | S k =>
      set_label_loop k (i + 1)
        (set_byte b (off + i) (if i >=? length then 32 else char_at nm i))
        off nm length
  end.

(** [volume_set_label]: writes the label into the label record of the
    root directory and flushes; it returns 1 whatever the flush
    returns. *)
Definition volume_set_label (vol : volume_s) (dev : device) (nm : string)
  (length : Z) : outcome (retval * volume_s * device) :=
  let sector := root_lba vol in
  let rw_offset := 0 in
  let '(r, vol1, dev1) := fat_read vol dev sector in
  if r =? 0 then Returns (Status FSTATUS_ERROR, vol1, dev1)
  else
    let attribute := byte_at (buffer vol1) (rw_offset + SFN_ATTR) in
    if is_label_attribute attribute then
      let b := set_label_loop 11 0 (buffer vol1) rw_offset nm (u8 length) in
      let vol2 := set_buffer_dirty (set_buffer vol1 b) 1 in
      let '(_, vol3, dev3) := fat_flush vol2 dev1 in
      Returns (Literal 1, vol3, dev3)
    else WildPointer vol1 dev1.

(** A root directory whose first record is the volume label [OLDLABEL],
    and the device that holds it. *)
Definition label_record_demo : list Z :=
  [79; 76; 68; 76; 65; 66; 69; 76; 32; 32; 32; 8; 0; 0; 0; 0;
   0; 0; 0; 0; 0; 0; 0; 0; 0; 0; 0; 0; 0; 0; 0; 0].

Definition dev_label : device :=
  mk_device
    (fun l => if l =? 4128 then put_bytes zero_sector 0 label_record_demo
              else zero_sector)
    [].

(** A device whose root directory holds the label record and, after it,
    the short-name record of the examples. *)
Definition dev_search : device :=
  mk_device
    (fun l =>
       if l =? 4128 then
         put_bytes (put_bytes zero_sector 0 label_record_demo) 32 sfn_demo
       else zero_sector)
    [].

(** The characters a LFN slot holds, as [fat_dir_lfn_cmp] reads them:
    the low bytes at [offs], up to the first 0x00 or 0xFF. *)
Fixpoint lfn_chars (offs : list Z) (lfn : list Z) (off : Z) : list Z :=
  match offs with
  | [] => []
  | o :: rest =>
      let c := byte_at lfn (off + o) in
      if (c =? 0) || (c =? 255) then [] else c :: lfn_chars rest lfn off
  end.

(** ** End of chain and returned statuses, for the statements *)





(** * Properties *)

(** ** Machine integers and memory blocks *)

Lemma u8_range x : 0 <= u8 x < 256.
Proof. unfold u8. apply Z.mod_pos_bound. reflexivity. Qed.

Lemma u32_range x : 0 <= u32 x < 4294967296.
Proof. unfold u32. apply Z.mod_pos_bound. reflexivity. Qed.

Lemma u32_small x : 0 <= x < 4294967296 -> u32 x = x.
Proof. intros H. unfold u32. apply Z.mod_small. exact H. Qed.

Lemma u8_small x : 0 <= x < 256 -> u8 x = x.
Proof. intros H. unfold u8. apply Z.mod_small. exact H. Qed.

Lemma u32_idem x : u32 (u32 x) = u32 x.
Proof. unfold u32. apply Z.mod_mod. discriminate. Qed.

Lemma u32_add_l x y : u32 (u32 x + y) = u32 (x + y).
Proof. unfold u32. apply Zplus_mod_idemp_l. Qed.

Lemma u32_add_r x y : u32 (x + u32 y) = u32 (x + y).
Proof. unfold u32. apply Zplus_mod_idemp_r. Qed.

Lemma u32_sub_l x y : u32 (u32 x - y) = u32 (x - y).
Proof. unfold u32. apply Zminus_mod_idemp_l. Qed.

(** ** C8: cluster and sector arithmetic *)

(** C8, as stated, fails where the product wraps around: with 128 sectors
    per cluster, cluster 33554434 is mapped to the first data sector and
    back to cluster 2. *)
Lemma clust_sect_roundtrip_wraps :
  2 <= 33554434 < 2 ^ 32 /\ 0 <= 0 < cluster_size vol_128
  /\ fat_sect_to_clust vol_128 (u32 (fat_clust_to_sect vol_128 33554434 + 0))
     <> 33554434.
Proof.
  split; [lia|]. split; [simpl; lia|]. vm_compute. discriminate.
Qed.

(** C8 (amended): for every volume, every cluster number ([u32]) from 2
    on and every sector offset below the cluster size such that
    [(cluster - 2) * cluster_size + sector_off] stays below [2 ^ 32],
    [fat_sect_to_clust] of [fat_clust_to_sect] plus the offset is the
    cluster again. *)
Theorem clust_sect_roundtrip (v : volume_s) (cluster sector_off : Z) :
  2 <= cluster < 2 ^ 32 ->
  0 <= sector_off < cluster_size v ->
  (cluster - 2) * cluster_size v + sector_off < 2 ^ 32 ->
  fat_sect_to_clust v (u32 (fat_clust_to_sect v cluster + sector_off))
  = cluster.
Proof.
  intros Hc Hoff Hfit.
  change (2 ^ 32) with 4294967296 in Hfit, Hc.
  assert (Hcs : 0 < cluster_size v) by lia.
  assert (Hprod : 0 <= (cluster - 2) * cluster_size v) by nia.
  assert (Hc32 : cluster - 2 < 4294967296) by nia.
  unfold fat_sect_to_clust, fat_clust_to_sect.
  rewrite (u32_small (cluster - 2)) by lia.
  rewrite u32_add_l, u32_sub_l.
  replace ((cluster - 2) * cluster_size v + data_lba v + sector_off
           - data_lba v)
    with (sector_off + (cluster - 2) * cluster_size v) by ring.
  rewrite (u32_small (sector_off + _)) by lia.
  rewrite Z.div_add by lia.
  rewrite Z.div_small by lia.
  rewrite u32_small by lia. lia.
Qed.

Lemma clust_sect_roundtrip_witness :
  fat_sect_to_clust vol_C (u32 (fat_clust_to_sect vol_C 5 + 3)) = 5.
Proof.
  apply (clust_sect_roundtrip vol_C 5 3); simpl; lia.
Defined.

(** ** C4: the number of entries a new name needs *)

Lemma entries_req_formula_differs (L : Z) :
  0 <= L <= 255 -> u8 (u8 L / 13 - 1) <> entries_required_spec L.
Proof.
  intros HL. rewrite (u8_small L) by lia.
  unfold entries_required_spec.
  assert (Hq : 0 <= L / 13 <= 19).
  { split; [apply Z.div_pos; lia|].
    assert (L / 13 < 20) by (apply Z.div_lt_upper_bound; lia). lia. }
  assert (Hc : L / 13 <= (L + 12) / 13) by (apply Z.div_le_mono; lia).
  assert (Hu : (L + 12) / 13 < 21) by (apply Z.div_lt_upper_bound; lia).
  destruct (Z.eq_dec (L / 13) 0) as [H0 | H0].
  - rewrite H0. change (u8 (0 - 1)) with 255.
    destruct (L <=? 8); lia.
  - rewrite u8_small by lia.
    destruct (L <=? 8) eqn:H8.
    + apply Z.leb_le in H8.
      assert (L / 13 = 0) by (apply Z.div_small; lia). lia.
    + lia.
Qed.

(** C4: for every name of length [L <= 255] whose part before the first
    ['.'] is longer than 8 characters, [fat_dir_rename] computes
    [(L / 13) - 1] in a [u8], which is never the [ceil (L / 13) + 1] of
    the specification. *)
Theorem rename_entries_req_wrong (nm : string) (L : Z) :
  0 <= L <= 255 ->
  rename_name_length (Z.to_nat (u8 L)) nm 0 0 > 8 ->
  rename_entries_req nm L = u8 (L / 13 - 1)
  /\ rename_entries_req nm L <> entries_required_spec L.
Proof.
  intros HL Hlen. unfold rename_entries_req.
  apply Z.gt_lt, Z.gtb_lt in Hlen. rewrite Hlen.
  split.
  - rewrite (u8_small L) by lia. reflexivity.
  - apply entries_req_formula_differs. exact HL.
Qed.

Lemma rename_entries_req_wrong_witness :
  rename_entries_req "abcdefghi" 9 = u8 (9 / 13 - 1)
  /\ rename_entries_req "abcdefghi" 9 <> entries_required_spec 9.
Proof.
  apply (rename_entries_req_wrong "abcdefghi" 9).
  - lia.
  - vm_compute. reflexivity.
Defined.

(** A name of nine characters: 255 entries where the specification
    counts 2; and a name with a short part before its dot needs one
    entry whatever its length. *)
Example rename_entries_req_nine :
  rename_entries_req "abcdefghi" 9 = 255 /\ entries_required_spec 9 = 2.
Proof. split; reflexivity. Qed.

Example rename_entries_req_dotted :
  rename_entries_req "readme.txt" 10 = 1.
Proof. reflexivity. Qed.

(** ** C5: recognising FAT32 *)

(** On a FAT32 volume (no root entries, 512-byte sectors) the
    specification counts no root sector and [fat_search] counts one. *)
Lemma fat_search_root_sectors_fat32 (bpb : list Z) :
  fat_load16 bpb BPB_ROOT_ENT_CNT = 0 ->
  fat_load16 bpb BPB_SECTOR_SIZE = 512 ->
  root_sectors_spec bpb = 0 /\ fat_search_root_sectors bpb = 1.
Proof.
  intros Hr Hs. unfold root_sectors_spec, fat_search_root_sectors.
  rewrite Hr, Hs. split; reflexivity.
Qed.

(** C5: a BPB of a volume with exactly 65525 data clusters (66581
    sectors: 32 reserved, 2 FATs of 512, no root entries, one sector per
    cluster) has the signature, the string and
    [data_clusters = 65525] by the formula of the specification, and
    [fat_search] rejects it: it divides by [sector_size - 1] and so
    counts one root sector.  One sector more and it accepts. *)
Theorem fat_search_rejects_65525_clusters :
  List.length (bpb_demo 66581) = 512%nat
  /\ root_sectors_spec (bpb_demo 66581) = 0
  /\ data_clusters_spec (bpb_demo 66581) = 65525
  /\ fat32_accept_spec (bpb_demo 66581) = true
  /\ fat_search (bpb_demo 66581) = 0
  /\ fat_search (bpb_demo 66582) = 1.
Proof. vm_compute. repeat split; reflexivity. Qed.

(** ** C7: the sector cache *)

(** C7, as stated, fails when the write-back succeeds and the read of
    the requested sector fails: [fat_read] returns 0 and the dirty flag,
    a field of the cache, has gone from 1 to 0. *)
Lemma fat_read_failed_read_clears_dirty :
  let '(r, vol', dev') :=
    fat_read vol_dirty_5 (dev_demo 0 [false; true]) 7 in
  r = 0 /\ cache_state vol' <> cache_state vol_dirty_5
  /\ buffer_dirty vol_dirty_5 = 1 /\ buffer_dirty vol' = 0.
Proof.
  vm_compute. repeat split; try reflexivity. discriminate.
Qed.

(** C7 (amended): [fat_read] returns success without a transfer when
    [lba] is the cached sector.  Otherwise the outcome is fixed by the
    transfers.  With a clean buffer there is one transfer, the read: when
    it succeeds the result is 1, the buffer holds the requested sector
    and [buffer_lba] is [lba]; when it fails the result is 0 and the
    volume is unchanged.  With a dirty buffer the write-back comes
    first: when it fails the result is 0 and volume and medium are
    unchanged (the dirty flag stays set); when it succeeds the medium
    holds the buffer in its sector and the dirty flag is clear, and then
    the read decides as before, a failed read leaving buffer and
    [buffer_lba] as they were with the dirty flag cleared.  The
    geometry of the volume never changes, and the medium changes only by
    the write-back. *)
Theorem fat_read_outcomes (vol : volume_s) (dev : device) (lba : Z)
  (r : Z) (vol' : volume_s) (dev' : device) :
  fat_read vol dev lba = (r, vol', dev') ->
  (r = 1 \/ r = 0)
  /\ (lba = buffer_lba vol -> r = 1 /\ vol' = vol /\ dev' = dev)
  /\ (lba <> buffer_lba vol -> r = 1 ->
      buffer_lba vol' = lba /\ buffer_dirty vol' = 0
      /\ buffer vol' = sectors dev' lba
      /\ (buffer_dirty vol <> 0 ->
          sectors dev' (buffer_lba vol) = buffer vol))
  /\ (r = 0 ->
      buffer vol' = buffer vol /\ buffer_lba vol' = buffer_lba vol
      /\ (vol' = vol
          \/ (buffer_dirty vol <> 0 /\ buffer_dirty vol' = 0
              /\ sectors dev' (buffer_lba vol) = buffer vol)))
  /\ (lba <> buffer_lba vol -> buffer_dirty vol <> 0 ->
      hd false (faults dev) = true ->
      r = 0 /\ vol' = vol /\ sectors dev' = sectors dev)
  /\ same_geometry vol vol'
  /\ (lba <> buffer_lba vol -> buffer_dirty vol = 0 ->
      sectors dev' = sectors dev /\ faults dev' = tl (faults dev)
      /\ (hd false (faults dev) = false ->
          r = 1
          /\ cache_state vol' = (sectors dev lba, lba, 0))
      /\ (hd false (faults dev) = true -> r = 0 /\ vol' = vol))
  /\ (lba <> buffer_lba vol -> buffer_dirty vol <> 0 ->
      (hd false (faults dev) = true ->
       r = 0 /\ vol' = vol /\ sectors dev' = sectors dev
       /\ faults dev' = tl (faults dev))
      /\ (hd false (faults dev) = false ->
          sectors dev'
          = write_sector (sectors dev) (buffer_lba vol) (buffer vol)
          /\ faults dev' = tl (tl (faults dev))
          /\ (hd false (tl (faults dev)) = false ->
              r = 1
              /\ cache_state vol' = (sectors dev lba, lba, 0))
          /\ (hd false (tl (faults dev)) = true ->
              r = 0
              /\ cache_state vol'
                 = (buffer vol, buffer_lba vol, 0)))).
Proof.
  unfold fat_read, fat_flush, disk_write, disk_read, cache_state.
  destruct (buffer_lba vol =? lba) eqn:Hhit.
  - apply Z.eqb_eq in Hhit. intros H. inversion H; subst.
    repeat match goal with
           | |- _ /\ _ => split
           | |- _ -> _ => intro
           | |- same_geometry _ _ =>
               unfold same_geometry; repeat split; reflexivity
           end;
      auto; try congruence; try discriminate.
  - apply Z.eqb_neq in Hhit.
    assert (Hne : (lba =? buffer_lba vol) = false)
      by (apply Z.eqb_neq; congruence).
    destruct (buffer_dirty vol =? 0) eqn:Hd;
      [apply Z.eqb_eq in Hd | apply Z.eqb_neq in Hd];
      simpl; destruct (faults dev) as [|[|] [|[|] rest]] eqn:Hf; simpl;
      intros H; inversion H; subst; clear H; simpl;
      unfold write_sector; rewrite ?Z.eqb_refl, ?Hne;
      repeat match goal with
             | |- _ /\ _ => split
             | |- _ -> _ => intro
             | |- same_geometry _ _ =>
                 unfold same_geometry; simpl; repeat split; reflexivity
             end;
      try congruence; try discriminate; auto;
      try (right; repeat split; auto; congruence).
Qed.

Lemma fat_read_outcomes_witness :
  fat_read vol_dirty_5 (dev_demo 0 [true]) 7
  = (0, vol_dirty_5, dev_demo 0 [])
  /\ (7 <> buffer_lba vol_dirty_5 -> buffer_dirty vol_dirty_5 <> 0 ->
      hd false (faults (dev_demo 0 [true])) = true ->
      0 = 0 /\ vol_dirty_5 = vol_dirty_5
      /\ sectors (dev_demo 0 []) = sectors (dev_demo 0 [true])).
Proof.
  assert (Heq : fat_read vol_dirty_5 (dev_demo 0 [true]) 7
                = (0, vol_dirty_5, dev_demo 0 [])) by reflexivity.
  split; [exact Heq|].
  destruct (fat_read_outcomes _ _ _ _ _ _ Heq) as (_ & _ & _ & _ & Hw & _).
  exact Hw.
Defined.

(** ** C1: the cursor [fat_follow_path] starts from *)

Lemma put_volume_get (vols : list volume_s) (l : Z) :
  forall pos ptr vol,
    volume_get_from pos vols l = Some (ptr, vol) ->
    put_volume (ptr - pos) vol vols = vols.
Proof.
  induction vols as [|v rest IH]; intros pos ptr vol H; simpl in H.
  - discriminate.
  - destruct (letter v =? l).
    + inversion H; subst. rewrite Nat.sub_diag. reflexivity.
    + assert (Hle : exists k, (ptr - pos)%nat = S k /\ (ptr - S pos)%nat = k).
      { clear IH. revert pos H.
        induction rest as [|w r IHr]; intros pos H; simpl in H.
        - discriminate.
        - destruct (letter w =? l).
          + inversion H; subst. exists O. split; lia.
          + destruct (IHr _ H) as (k & Hk1 & Hk2).
            exists (S k). split; lia. }
      destruct Hle as (k & Hk1 & Hk2). rewrite Hk1. simpl.
      f_equal. rewrite <- Hk2. apply (IH (S pos)). exact H.
Qed.

(** The path ["L:/"] of a mounted volume: the function returns
    [FSTATUS_OK] with the cursor it has seeded, whose cluster is
    [fat_clust_to_sect] of the root sector. *)
Lemma fat_follow_path_root (char_signed : bool) (fuel : nat) (init : Z)
  (volume_base : list volume_s) (dev : device) (dir : Dir.t)
  (path : string) (ptr : nat) (vol : volume_s) :
  volume_get volume_base (char_at path 0) = Some (ptr, vol) ->
  char_at path 1 = 58 -> char_at path 2 = 47 -> char_at path 3 = 0 ->
  fat_follow_path char_signed (S fuel) init volume_base dev dir path
  = Some (Status FSTATUS_OK,
          Dir.mk ptr (root_lba vol) (root_lba vol)
            (fat_clust_to_sect vol (root_lba vol)) 0 (Dir.size dir),
          volume_base, dev).
Proof.
  intros Hget H1 H2 H3. unfold fat_follow_path.
  rewrite Hget, H1, H2. simpl.
  rewrite H2. simpl. change (2 + 1) with 3. rewrite H3. simpl.
  unfold volume_get in Hget.
  pose proof (put_volume_get _ _ _ _ _ Hget) as Hput.
  rewrite Nat.sub_0_r in Hput.
  rewrite ?H2. simpl. rewrite Hput. reflexivity.
Qed.

(** C1: on the volume of the mount scenario (root cluster 2, root sector
    4128, 8 sectors per cluster) the path ["C:/"] gives a cursor with
    [sector = start_sect = root_lba] and [rw_offset = 0], but with
    cluster 37136, which is [fat_clust_to_sect] applied to the root
    sector, where the root cluster is 2. *)
Theorem fat_follow_path_seeds_wrong_cluster :
  forall char_signed : bool,
  exists dir,
    fat_follow_path char_signed 1 0 [vol_C] (dev_demo 0 []) blank_dir "C:/"
    = Some (Status FSTATUS_OK, dir, [vol_C], dev_demo 0 [])
    /\ Dir.sector dir = root_lba vol_C
    /\ Dir.start_sect dir = root_lba vol_C
    /\ Dir.rw_offset dir = 0
    /\ Dir.cluster dir = 37136
    /\ fat_sect_to_clust vol_C (root_lba vol_C) = 2.
Proof.
  intros char_signed. eexists. split.
  - apply fat_follow_path_root; reflexivity.
  - repeat split; reflexivity.
Qed.

(** ** C9: the value [fat_get_cluster] returns *)

(** C9: whatever the transfers do, [fat_get_cluster] returns the literal
    0 or reaches its end, where the source has no [return]: it never
    returns a success value. *)
Theorem fat_get_cluster_never_returns_success (fuel : nat)
  (vol : volume_s) (dev : device) (r : retval) (c : option Z)
  (vol' : volume_s) (dev' : device) :
  fat_get_cluster fuel vol dev = Some (r, c, vol', dev') ->
  r = Literal 0 \/ r = NoValue.
Proof.
  unfold fat_get_cluster.
  destruct (fat_read vol dev (info_lba vol)) as [[r1 vol1] dev1].
  destruct (r1 =? 0).
  - intros H; inversion H; auto.
  - destruct (fat_get_cluster_loop _ _ _ _ _ _ _)
      as [[[[[[[|] vol2] dev2] s2] rw2] c2]|].
    + destruct (fat_read vol2 dev2 (info_lba vol2)) as [[r3 vol3] dev3].
      destruct (r3 =? 0).
      * intros H; inversion H; auto.
      * destruct (fat_flush _ _) as [[r5 vol5] dev5].
        intros H; inversion H; auto.
    + intros H; inversion H; auto.
    + discriminate.
Qed.

Lemma fat_get_cluster_never_returns_success_witness :
  (exists vol' dev',
      fat_get_cluster 8 vol_C (dev_demo 0 [])
      = Some (NoValue, Some 10, vol', dev'))
  /\ (NoValue = Literal 0 \/ NoValue = NoValue).
Proof.
  assert (H : exists vol' dev',
             fat_get_cluster 8 vol_C (dev_demo 0 [])
             = Some (NoValue, Some 10, vol', dev')).
  { eexists. eexists. vm_compute. reflexivity. }
  split; [exact H|].
  destruct H as (vol' & dev' & H).
  exact (fat_get_cluster_never_returns_success _ _ _ _ _ _ _ H).
Defined.

(** ** The cache when every transfer succeeds *)

Lemma same_geometry_refl (v : volume_s) : same_geometry v v.
Proof. unfold same_geometry. repeat split; reflexivity. Qed.

Lemma same_geometry_trans (u v w : volume_s) :
  same_geometry u v -> same_geometry v w -> same_geometry u w.
Proof.
  unfold same_geometry.
  intros (A1 & A2 & A3 & A4 & A5 & A6 & A7 & A8 & A9)
         (B1 & B2 & B3 & B4 & B5 & B6 & B7 & B8 & B9).
  repeat split; congruence.
Qed.

Lemma fat_clust_to_sect_geometry (v w : volume_s) (c : Z) :
  same_geometry v w -> fat_clust_to_sect w c = fat_clust_to_sect v c.
Proof.
  intros (_ & _ & _ & Hc & _ & _ & _ & Hd & _).
  unfold fat_clust_to_sect. rewrite Hc, Hd. reflexivity.
Qed.

Lemma shows_buffer (vol : volume_s) (dev : device) (L : Z -> list Z) :
  shows vol dev L -> buffer vol = L (buffer_lba vol).
Proof.
  intros (Hv & _). rewrite <- Hv. unfold view.
  rewrite Z.eqb_refl. reflexivity.
Qed.

Lemma shows_view (vol : volume_s) (dev : device) :
  coherent vol dev -> no_faults dev -> shows vol dev (view vol dev).
Proof. intros Hc Hf. split; [reflexivity | split; assumption]. Qed.

(** After a flush the medium holds what the driver sees. *)
Lemma fat_flush_shows (vol : volume_s) (dev : device) (L : Z -> list Z) :
  shows vol dev L ->
  exists vol' dev',
    fat_flush vol dev = (1, vol', dev')
    /\ same_geometry vol vol' /\ shows vol' dev' L
    /\ buffer_dirty vol' = 0
    /\ buffer_lba vol' = buffer_lba vol /\ buffer vol' = buffer vol
    /\ (forall l, sectors dev' l = L l).
Proof.
  intros (Hv & Hc & Hf). unfold no_faults in Hf.
  unfold fat_flush, disk_write. rewrite Hf.
  destruct (Z.eqb_spec (buffer_dirty vol) 0) as [Hd | Hd]; simpl.
  - exists vol, dev. repeat split; auto using same_geometry_refl.
    intros l. rewrite <- Hv. unfold view.
    destruct (Z.eqb_spec l (buffer_lba vol)) as [-> | Hne]; auto.
  - assert (Hm : forall l,
               write_sector (sectors dev) (buffer_lba vol) (buffer vol) l
               = L l).
    { intros l. rewrite <- Hv. unfold view, write_sector.
      destruct (l =? buffer_lba vol); reflexivity. }
    eexists. eexists. split; [reflexivity|].
    split; [unfold same_geometry; simpl; repeat split; reflexivity|].
    split; [split; [|split]|].
    + intros l. unfold view. simpl. rewrite <- Hm. unfold write_sector.
      destruct (l =? buffer_lba vol); reflexivity.
    + intros _. simpl. unfold write_sector. rewrite Z.eqb_refl.
      reflexivity.
    + reflexivity.
    + simpl. auto.
Qed.

(** A read through the cache succeeds, leaves what the driver sees as it
    is and puts the requested sector in the buffer. *)
Lemma fat_read_shows (vol : volume_s) (dev : device) (L : Z -> list Z)
  (lba : Z) :
  shows vol dev L ->
  exists vol' dev',
    fat_read vol dev lba = (1, vol', dev')
    /\ same_geometry vol vol' /\ shows vol' dev' L
    /\ buffer_lba vol' = lba /\ buffer vol' = L lba.
Proof.
  intros Hs. unfold fat_read.
  destruct (Z.eqb_spec (buffer_lba vol) lba) as [Hhit | Hmiss].
  - exists vol, dev. repeat split; auto using same_geometry_refl;
      try apply Hs.
    rewrite <- Hhit. apply (shows_buffer _ _ _ Hs).
  - destruct (fat_flush_shows _ _ _ Hs)
      as (vol1 & dev1 & Hfl & Hg & (Hv1 & Hc1 & Hf1) & Hd1 & Hl1 & Hb1 & Hm1).
    rewrite Hfl. simpl. unfold disk_read.
    unfold no_faults in Hf1. rewrite Hf1.
    eexists. eexists. split; [reflexivity|].
    assert (Hg' : same_geometry vol
                    (set_buffer_lba (set_buffer vol1 (sectors dev1 lba)) lba)).
    { apply (same_geometry_trans _ vol1); [exact Hg|].
      unfold same_geometry. simpl. repeat split; reflexivity. }
    split; [exact Hg'|].
    split; [split; [|split]|simpl; auto].
    + intros l. unfold view. simpl. rewrite <- Hm1.
      destruct (Z.eqb_spec l lba) as [-> | Hne]; reflexivity.
    + intros _. reflexivity.
    + exact Hf1.
Qed.

Lemma fat_table_get_shows (vol : volume_s) (dev : device)
  (L : Z -> list Z) (c : Z) :
  shows vol dev L ->
  exists vol' dev',
    fat_table_get vol dev c
    = (Some (fat_entry L (fat_lba vol) c), vol', dev')
    /\ same_geometry vol vol' /\ shows vol' dev' L.
Proof.
  intros Hs. unfold fat_table_get.
  destruct (fat_read_shows _ _ _ (u32 (fat_lba vol + c / 128)) Hs)
    as (vol1 & dev1 & Hr & Hg & Hs1 & Hl1 & Hb1).
  rewrite Hr. simpl. exists vol1, dev1.
  unfold fat_entry. rewrite Hb1. auto.
Qed.

(** ** C6: seeking in a file *)

Lemma fat_file_jump_loop_shows (n : nat) :
  forall (vol : volume_s) (dev : device) (L : Z -> list Z) (c : Z),
    shows vol dev L ->
    exists vol' dev',
      same_geometry vol vol' /\ shows vol' dev' L
      /\ match chain_walk L (fat_lba vol) n c with
         | Some c' => fat_file_jump_loop n vol dev c = (None, c', vol', dev')
         | None =>
             exists c',
               fat_file_jump_loop n vol dev c
               = (Some (Literal 0), c', vol', dev')
         end.
Proof.
  induction n as [|k IH]; intros vol dev L c Hs; simpl.
  - exists vol, dev. auto using same_geometry_refl.
  - destruct (fat_table_get_shows _ _ _ c Hs)
      as (vol1 & dev1 & Hget & Hg1 & Hs1).
    rewrite Hget.
    destruct (is_eoc (fat_entry L (fat_lba vol) c)) eqn:He.
    + exists vol1, dev1. repeat split; try apply Hg1; try apply Hs1.
      exists c. reflexivity.
    + destruct (IH _ _ _ (fat_entry L (fat_lba vol) c) Hs1)
        as (vol2 & dev2 & Hg2 & Hs2 & Hw).
      exists vol2, dev2.
      split; [apply (same_geometry_trans _ vol1); assumption|].
      split; [exact Hs2|].
      assert (Hfat : fat_lba vol1 = fat_lba vol) by apply Hg1.
      rewrite Hfat in Hw. exact Hw.
Qed.




(** A read through the cache changes the cache fields only. *)
Lemma fat_read_geometry (vol : volume_s) (dev : device) (lba : Z) :
  same_geometry vol (snd (fst (fat_read vol dev lba))).
Proof.
  unfold fat_read, fat_flush, disk_write, disk_read.
  destruct (buffer_lba vol =? lba); [apply same_geometry_refl|].
  destruct (buffer_dirty vol =? 0); simpl;
    destruct (faults dev) as [|[|] [|[|] rest]]; simpl;
    unfold same_geometry; simpl; repeat split; reflexivity.
Qed.

Lemma fat_file_jump_loop_geometry (n : nat) :
  forall (vol : volume_s) (dev : device) (c : Z),
    same_geometry vol (snd (fst (fat_file_jump_loop n vol dev c)))
    /\ (forall r, fst (fst (fst (fat_file_jump_loop n vol dev c))) = Some r ->
                  r <> Status FSTATUS_OK).
Proof.
  induction n as [|k IH]; intros vol dev c; cbn [fat_file_jump_loop].
  - split; [apply same_geometry_refl | discriminate].
  - unfold fat_table_get.
    pose proof (fat_read_geometry vol dev (u32 (fat_lba vol + c / 128)))
      as Hg.
    destruct (fat_read vol dev (u32 (fat_lba vol + c / 128)))
      as [[r1 vol1] dev1].
    cbn [fst snd] in Hg.
    destruct (r1 =? 0); cbn [fst snd].
    + split; [exact Hg|]. intros r H. inversion H. discriminate.
    + destruct (is_eoc _); cbn [fst snd].
      * split; [exact Hg|]. intros r H. inversion H. discriminate.
      * destruct (IH vol1 dev1
                    (fat_load32 (buffer vol1) (c mod 128 * 4))) as [Hg2 Hr].
        split; [|exact Hr].
        apply (same_geometry_trans _ vol1); assumption.
Qed.

(** Whatever the transfers do, a seek that returns [FSTATUS_OK] has set
    the three position fields from the cluster it reached. *)
Lemma fat_file_jump_ok_position (vol : volume_s) (dev : device)
  (file file' : File.t) (offset : Z) (vol' : volume_s) (dev' : device) :
  fat_file_jump vol dev file offset = (Status FSTATUS_OK, file', vol', dev') ->
  File.sector file'
  = u32 (fat_clust_to_sect vol (File.cluster file')
         + (offset / sector_size vol) mod cluster_size vol)
  /\ File.rw_offset file' = offset mod sector_size vol
  /\ File.glob_offset file' = offset.
Proof.
  unfold fat_file_jump.
  destruct (fat_file_jump_loop_geometry
              (Z.to_nat (offset / sector_size vol / cluster_size vol))
              vol dev (fat_sect_to_clust vol (File.start_sect file)))
    as [Hg Hr].
  destruct (fat_file_jump_loop _ vol dev _) as [[[[r|] c1] vol1] dev1];
    cbn [fst snd] in Hg, Hr; intros H; inversion H; subst; clear H.
  - exfalso. apply (Hr _ eq_refl). reflexivity.
  - cbn [File.sector File.cluster File.rw_offset File.glob_offset].
    rewrite (fat_clust_to_sect_geometry _ _ _ Hg).
    assert (Hsz : sector_size vol' = sector_size vol) by apply Hg.
    rewrite Hsz. auto.
Qed.


(** ** C10: the checksum of a long name *)

Lemma dir_next_geometry (v w : volume_s) (L : Z -> list Z) (d : Dir.t) :
  same_geometry v w -> dir_next w L d = dir_next v L d.
Proof.
  intros Hg. unfold dir_next, fat_clust_to_sect.
  destruct Hg as (_ & _ & Hs & Hc & _ & _ & Hf & Hd & _).
  rewrite Hs, Hc, Hf, Hd. reflexivity.
Qed.

Lemma dir_nth_geometry (n : nat) :
  forall (v w : volume_s) (L : Z -> list Z) (d : Dir.t),
    same_geometry v w -> dir_nth n w L d = dir_nth n v L d.
Proof.
  induction n as [|k IH]; intros v w L d Hg; simpl.
  - reflexivity.
  - rewrite (dir_next_geometry _ _ _ _ Hg). apply IH. exact Hg.
Qed.

(** [fat_dir_get_next] moves the cursor as [dir_next] does in the
    sectors the driver sees. *)
Lemma fat_dir_get_next_shows (vol : volume_s) (dev : device)
  (L : Z -> list Z) (dir : Dir.t) :
  shows vol dev L ->
  exists r vol' dev',
    fat_dir_get_next vol dev dir = (r, dir_next vol L dir, vol', dev')
    /\ same_geometry vol vol' /\ shows vol' dev' L.
Proof.
  intros Hs. unfold fat_dir_get_next, dir_next.
  destruct (u32 (Dir.rw_offset dir + 32) >=? sector_size vol).
  - destruct (u32 (Dir.sector dir + 1) >=?
              u32 (fat_clust_to_sect vol (Dir.cluster dir)
                   + cluster_size vol)).
    + destruct (fat_table_get_shows _ _ _ (Dir.cluster dir) Hs)
        as (vol1 & dev1 & Hget & Hg1 & Hs1).
      rewrite Hget.
      destruct (is_eoc (fat_entry L (fat_lba vol) (Dir.cluster dir))).
      * exists 0, vol1, dev1. auto.
      * exists 1, vol1, dev1.
        rewrite (fat_clust_to_sect_geometry _ _ _ Hg1). auto.
    + exists 1, vol, dev. auto using same_geometry_refl.
  - exists 1, vol, dev. auto using same_geometry_refl.
Qed.

Lemma fat_dir_read_loop_mismatch (k : nat) :
  forall (vol : volume_s) (dev : device) (L : Z -> list Z) (dir : Dir.t)
         (info : info_s) (crc0 nl : Z) (fuel : nat),
    shows vol dev L ->
    (forall i, (i < k)%nat ->
               lfn_slot (L (Dir.sector (dir_nth i vol L dir)))
                 (Dir.rw_offset (dir_nth i vol L dir))) ->
    sfn_record (L (Dir.sector (dir_nth k vol L dir)))
      (Dir.rw_offset (dir_nth k vol L dir)) ->
    match k with
    | O => crc0
    | S j =>
        byte_at (L (Dir.sector (dir_nth j vol L dir)))
          (Dir.rw_offset (dir_nth j vol L dir) + LFN_CRC)
    end <> 0 ->
    match k with
    | O => crc0
    | S j =>
        byte_at (L (Dir.sector (dir_nth j vol L dir)))
          (Dir.rw_offset (dir_nth j vol L dir) + LFN_CRC)
    end
    <> fat_dir_sfn_crc (L (Dir.sector (dir_nth k vol L dir)))
         (Dir.rw_offset (dir_nth k vol L dir)) ->
    exists info' vol' dev',
      fat_dir_read_loop (S k + fuel) vol dev dir info crc0 nl
      = Some (FSTATUS_ERROR, dir_nth k vol L dir, info', vol', dev').
Proof.
  induction k as [|k IH];
    intros vol dev L dir info crc0 nl fuel Hs Hlfn Hsfn Hnz Hne.
  - cbn [dir_nth] in *. cbn [Nat.add].
    destruct (fat_read_shows _ _ _ (Dir.sector dir) Hs)
      as (vol1 & dev1 & Hr & Hg1 & Hs1 & Hl1 & Hb1).
    cbn [fat_dir_read_loop].
    rewrite Hr. cbn [Z.eqb]. rewrite Hb1.
    destruct Hsfn as ((Hu0 & Hu229 & Hu5) & Hattr).
    apply Z.eqb_neq in Hu0, Hu229, Hu5, Hattr, Hnz, Hne.
    rewrite Hu0, Hu229, Hu5. cbn [negb andb]. rewrite Hattr, Hnz, Hne.
    cbn [negb andb].
    exists info, vol1, dev1. reflexivity.
  - pose proof (Hlfn O (Nat.lt_0_succ k)) as Hcur. cbn [dir_nth] in Hcur.
    destruct Hcur as ((Hu0 & Hu229 & Hu5) & Hattr).
    apply Z.eqb_neq in Hu0, Hu229, Hu5. apply Z.eqb_eq in Hattr.
    destruct (fat_read_shows _ _ _ (Dir.sector dir) Hs)
      as (vol1 & dev1 & Hr & Hg1 & Hs1 & Hl1 & Hb1).
    destruct (fat_dir_get_next_shows _ _ _ dir Hs1)
      as (r2 & vol2 & dev2 & Hnext & Hg2 & Hs2).
    rewrite (dir_next_geometry _ _ _ _ Hg1) in Hnext.
    assert (Hg : same_geometry vol vol2)
      by (apply (same_geometry_trans _ vol1); assumption).
    change (S (S k) + fuel)%nat with (S (S k + fuel)).
    cbn [fat_dir_read_loop].
    rewrite Hr. cbn [Z.eqb]. rewrite Hb1.
    rewrite Hu0, Hu229, Hu5. cbn [negb andb]. rewrite Hattr.
    destruct (lfn_copy_loop lfn_offsets 0 (L (Dir.sector dir))
                (Dir.rw_offset dir) _ (name info) nl) as [nm nl1].
    rewrite Hnext.
    destruct (IH vol2 dev2 L (dir_next vol L dir)
                (mk_info nm (name_length info) (attribute info)
                   (c_time_tenth info) (c_time info) (c_date info)
                   (w_time info) (w_date info) (a_date info) (size info))
                (byte_at (L (Dir.sector dir)) (Dir.rw_offset dir + LFN_CRC))
                nl1 fuel Hs2) as (info' & vol' & dev' & Hres).
    + intros i Hi. rewrite (dir_nth_geometry _ _ _ _ _ Hg).
      apply (Hlfn (S i)). lia.
    + rewrite (dir_nth_geometry _ _ _ _ _ Hg). exact Hsfn.
    + destruct k as [|j];
        [exact Hnz | rewrite (dir_nth_geometry _ _ _ _ _ Hg); exact Hnz].
    + destruct k as [|j];
        rewrite ?(dir_nth_geometry _ _ _ _ _ Hg); exact Hne.
    + rewrite (dir_nth_geometry _ _ _ _ _ Hg) in Hres.
      exists info', vol', dev'. exact Hres.
Qed.

(** The check that is made: when the cursor stands on a run of one or
    more LFN slots in use that is followed by a SFN record in use, and
    the checksum byte stored in the last slot of the run is not 0 and
    differs from [fat_dir_sfn_crc] of the record's 11-byte name, then
    [fat_dir_read] (all transfers succeeding) returns [FSTATUS_ERROR]
    with the cursor on that record, and delivers no info record. *)
Lemma fat_dir_read_checksum_mismatch (vol : volume_s) (dev : device)
  (dir : Dir.t) (info : info_s) (k fuel : nat) :
  coherent vol dev -> no_faults dev ->
  (forall i, (i <= k)%nat ->
             lfn_slot
               (view vol dev (Dir.sector (dir_nth i vol (view vol dev) dir)))
               (Dir.rw_offset (dir_nth i vol (view vol dev) dir))) ->
  sfn_record
    (view vol dev (Dir.sector (dir_nth (S k) vol (view vol dev) dir)))
    (Dir.rw_offset (dir_nth (S k) vol (view vol dev) dir)) ->
  byte_at (view vol dev (Dir.sector (dir_nth k vol (view vol dev) dir)))
    (Dir.rw_offset (dir_nth k vol (view vol dev) dir) + LFN_CRC) <> 0 ->
  byte_at (view vol dev (Dir.sector (dir_nth k vol (view vol dev) dir)))
    (Dir.rw_offset (dir_nth k vol (view vol dev) dir) + LFN_CRC)
  <> fat_dir_sfn_crc
       (view vol dev (Dir.sector (dir_nth (S k) vol (view vol dev) dir)))
       (Dir.rw_offset (dir_nth (S k) vol (view vol dev) dir)) ->
  (S k < fuel)%nat ->
  exists info' vol' dev',
    fat_dir_read fuel vol dev dir info
    = Some (FSTATUS_ERROR, dir_nth (S k) vol (view vol dev) dir,
            info', vol', dev').
Proof.
  intros Hc Hf Hlfn Hsfn Hnz Hne Hfuel.
  pose proof (shows_view _ _ Hc Hf) as Hs.
  unfold fat_dir_read.
  replace fuel with (S (S k) + (fuel - S (S k)))%nat by lia.
  apply (fat_dir_read_loop_mismatch (S k) vol dev (view vol dev) dir info
           0 0 (fuel - S (S k))%nat Hs).
  - intros i Hi. apply Hlfn. lia.
  - exact Hsfn.
  - exact Hnz.
  - exact Hne.
Qed.

Lemma fat_dir_read_checksum_mismatch_witness :
  lfn_slot (view vol_C (dev_demo 1 []) 4128) 0
  /\ sfn_record (view vol_C (dev_demo 1 []) 4128) 32
  /\ byte_at (view vol_C (dev_demo 1 []) 4128) (0 + LFN_CRC) = 1
  /\ fat_dir_sfn_crc (view vol_C (dev_demo 1 []) 4128) 32 = 128
  /\ exists info' vol' dev',
       fat_dir_read 2 vol_C (dev_demo 1 []) root_dir blank_info
       = Some (FSTATUS_ERROR, Dir.mk 0 4128 4128 2 32 0,
               info', vol', dev').
Proof.
  assert (Hl : lfn_slot (view vol_C (dev_demo 1 []) 4128) 0).
  { unfold lfn_slot, entry_in_use. vm_compute.
    repeat split; try reflexivity; intro H; discriminate H. }
  assert (Hr : sfn_record (view vol_C (dev_demo 1 []) 4128) 32).
  { unfold sfn_record, entry_in_use. vm_compute.
    repeat split; intro H; discriminate H. }
  split; [exact Hl|]. split; [exact Hr|].
  split; [reflexivity|]. split; [reflexivity|].
  apply (fat_dir_read_checksum_mismatch vol_C (dev_demo 1 []) root_dir
           blank_info 0 2).
  - intros _. reflexivity.
  - reflexivity.
  - intros i Hi. assert (i = O) by lia. subst i. exact Hl.
  - exact Hr.
  - vm_compute. intro H; discriminate H.
  - vm_compute. intro H; discriminate H.
  - lia.
Defined.

(** ** C2: reading a file *)

Lemma fat_read_no_faults (vol : volume_s) (dev : device) (lba : Z) :
  no_faults dev ->
  exists vol' dev',
    fat_read vol dev lba = (1, vol', dev') /\ no_faults dev'.
Proof.
  unfold no_faults. intros Hf.
  unfold fat_read, fat_flush, disk_write, disk_read. rewrite Hf.
  destruct (buffer_lba vol =? lba).
  - exists vol, dev. auto.
  - destruct (buffer_dirty vol =? 0); simpl; try rewrite Hf;
      eexists; eexists; (split; [reflexivity|]); auto.
Qed.

Lemma fat_file_addr_resolve_no_faults (vol : volume_s) (dev : device)
  (file : File.t) :
  no_faults dev ->
  exists r file' vol' dev',
    fat_file_addr_resolve vol dev file = (r, file', vol', dev')
    /\ no_faults dev'
    /\ File.glob_offset file' = File.glob_offset file
    /\ File.size file' = File.size file.
Proof.
  intros Hf. unfold fat_file_addr_resolve.
  destruct (File.rw_offset file >=? sector_size vol).
  - destruct (u32 (File.sector file + 1) >=? _).
    + unfold fat_table_get.
      destruct (fat_read_no_faults vol dev
                  (u32 (fat_lba vol + File.cluster file / 128)) Hf)
        as (vol1 & dev1 & Hr & Hf1).
      rewrite Hr. cbn [Z.eqb].
      destruct (is_eoc _); do 4 eexists; (split; [reflexivity|]); auto.
    + do 4 eexists. split; [reflexivity|]. auto.
  - do 4 eexists. split; [reflexivity|]. auto.
Qed.

(** One pass of the loop of [fat_file_read] delivers one byte. *)
Lemma fat_file_read_loop_step (k : nat) (sect_size file_size : Z)
  (vol : volume_s) (dev : device) (file : File.t) (out : list Z)
  (status : Z) :
  no_faults dev ->
  exists file1 vol1 dev1 b,
    no_faults dev1
    /\ File.glob_offset file1 = u32 (File.glob_offset file + 1)
    /\ File.size file1 = File.size file
    /\ fat_file_read_loop (S k) sect_size file_size vol dev file out status
       = if File.glob_offset file1 >=? file_size
         then (FSTATUS_OK, file1, out ++ [b], u32 (status + 1), vol1, dev1)
         else
           fat_file_read_loop k sect_size file_size vol1 dev1 file1
             (out ++ [b]) (u32 (status + 1)).
Proof.
  intros Hf. cbn [fat_file_read_loop].
  destruct (File.rw_offset file >=? sect_size).
  - destruct (fat_file_addr_resolve_no_faults vol dev file Hf)
      as (r & file1 & vol1 & dev1 & Hres & Hf1 & Hg1 & Hz1).
    rewrite Hres.
    destruct (fat_read_no_faults vol1 dev1 (File.sector file1) Hf1)
      as (vol2 & dev2 & Hr & Hf2).
    rewrite Hr. cbn [Z.eqb].
    do 4 eexists. split; [exact Hf2|].
    split; [|split; [|reflexivity]]; cbn; congruence.
  - cbn [Z.eqb].
    do 4 eexists. split; [exact Hf|].
    split; [|split; [|reflexivity]]; reflexivity.
Qed.

(** Before the end of the file the loop delivers
    [min n (size - glob_offset)] bytes. *)
Lemma fat_file_read_loop_count (n : nat) :
  forall (sect_size file_size : Z) (vol : volume_s) (dev : device)
         (file : File.t) (out : list Z) (status : Z),
    no_faults dev ->
    0 <= File.glob_offset file < file_size -> file_size < 2 ^ 32 ->
    0 <= status -> status + Z.of_nat n < 2 ^ 32 ->
    exists file' out' vol' dev',
      fat_file_read_loop n sect_size file_size vol dev file out status
      = (FSTATUS_OK, file', out',
         status + Z.min (Z.of_nat n) (file_size - File.glob_offset file),
         vol', dev')
      /\ Z.of_nat (List.length out')
         = Z.of_nat (List.length out)
           + Z.min (Z.of_nat n) (file_size - File.glob_offset file)
      /\ File.glob_offset file'
         = File.glob_offset file
           + Z.min (Z.of_nat n) (file_size - File.glob_offset file)
      /\ File.size file' = File.size file
      /\ no_faults dev'.
Proof.
  induction n as [|k IH];
    intros sect_size file_size vol dev file out status Hf Hg Hfs Hst Hn.
  - cbn [fat_file_read_loop]. exists file, out, vol, dev.
    rewrite Z.min_l by lia. rewrite !Z.add_0_r. auto.
  - change (2 ^ 32) with 4294967296 in *.
    destruct (fat_file_read_loop_step k sect_size file_size vol dev file
                out status Hf)
      as (file1 & vol1 & dev1 & b & Hf1 & Hg1 & Hz1 & Hstep).
    rewrite Hstep. rewrite u32_small in Hg1 by lia.
    rewrite (u32_small (status + 1)) by lia.
    destruct (Z.geb_spec (File.glob_offset file1) file_size) as [Hge | Hlt].
    + exists file1, (out ++ [b]), vol1, dev1.
      rewrite Z.min_r by lia.
      replace (file_size - File.glob_offset file) with 1 by lia.
      rewrite length_app. cbn [List.length].
      repeat split; auto; lia.
    + destruct (IH sect_size file_size vol1 dev1 file1 (out ++ [b])
                  (status + 1) Hf1) as
          (file' & out' & vol' & dev' & Hres & Hlen & Hglob & Hsz & Hf');
        try lia.
      exists file', out', vol', dev'. rewrite Hres.
      rewrite length_app in Hlen. cbn [List.length] in Hlen.
      assert (Hmin : Z.min (Z.of_nat (S k))
                       (file_size - File.glob_offset file)
                     = 1 + Z.min (Z.of_nat k)
                             (file_size - File.glob_offset file1)) by lia.
      rewrite Hmin.
      rewrite Z.add_assoc.
      repeat split; auto; try lia; try congruence.
Qed.

(** The part of C2 that the code keeps: a read that starts before the
    end of the file delivers [min count (size - glob_offset)] bytes,
    reports that count and stays within the file. *)
Lemma fat_file_read_before_eof (vol : volume_s) (dev : device)
  (file : File.t) (count : Z) :
  no_faults dev ->
  0 <= File.glob_offset file < File.size file ->
  File.size file < 2 ^ 32 -> 0 <= count < 2 ^ 32 ->
  exists file' out vol' dev',
    fat_file_read vol dev file count
    = (FSTATUS_OK, file', out,
       Z.min count (File.size file - File.glob_offset file), vol', dev')
    /\ Z.of_nat (List.length out)
       = Z.min count (File.size file - File.glob_offset file)
    /\ File.glob_offset file'
       = File.glob_offset file
         + Z.min count (File.size file - File.glob_offset file)
    /\ File.glob_offset file' <= File.size file'.
Proof.
  intros Hf Hg Hsz Hc. unfold fat_file_read.
  destruct (fat_read_no_faults vol dev (File.sector file) Hf)
    as (vol1 & dev1 & Hr & Hf1).
  rewrite Hr. cbn [Z.eqb].
  change (2 ^ 32) with 4294967296 in *.
  rewrite (u32_small count) by lia.
  destruct (fat_file_read_loop_count (Z.to_nat count)
              (u16 (sector_size vol)) (File.size file) vol1 dev1 file []
              0 Hf1 Hg) as
      (file' & out' & vol' & dev' & Hres & Hlen & Hglob & Hsize & _);
    try (change (2 ^ 32) with 4294967296; lia).
  rewrite Z2Nat.id in Hres, Hlen, Hglob by lia.
  exists file', out', vol', dev'. rewrite Hres.
  cbn [List.length Z.of_nat] in Hlen.
  repeat split; auto; lia.
Qed.

(** C2: a read of [count >= 1] bytes issued when [glob_offset] equals
    [size] (all transfers succeeding) delivers one byte, reports 1 and
    leaves [glob_offset = size + 1]: the test against the file size
    comes after the byte is copied. *)
Theorem fat_file_read_at_eof_delivers_one (vol : volume_s) (dev : device)
  (file : File.t) (count : Z) :
  no_faults dev ->
  File.glob_offset file = File.size file ->
  0 <= File.size file < 2 ^ 32 - 1 -> 1 <= count < 2 ^ 32 ->
  exists file' b vol' dev',
    fat_file_read vol dev file count
    = (FSTATUS_OK, file', [b], 1, vol', dev')
    /\ File.glob_offset file' = File.size file + 1
    /\ File.size file' = File.size file.
Proof.
  intros Hf Hg Hsz Hc. unfold fat_file_read.
  destruct (fat_read_no_faults vol dev (File.sector file) Hf)
    as (vol1 & dev1 & Hr & Hf1).
  rewrite Hr. cbn [Z.eqb].
  change (2 ^ 32) with 4294967296 in *.
  rewrite (u32_small count) by lia.
  destruct (Z.to_nat count) as [|k] eqn:Hk; [lia|].
  destruct (fat_file_read_loop_step k (u16 (sector_size vol))
              (File.size file) vol1 dev1 file [] 0 Hf1)
    as (file1 & vol2 & dev2 & b & Hf2 & Hg1 & Hz1 & Hstep).
  rewrite Hstep. rewrite Hg, u32_small in Hg1 by lia.
  destruct (Z.geb_spec (File.glob_offset file1) (File.size file))
    as [Hge | Hlt]; [|lia].
  exists file1, b, vol2, dev2. auto.
Qed.

Lemma fat_file_read_at_eof_delivers_one_witness :
  no_faults (dev_demo 0 [])
  /\ File.glob_offset file_at_eof = File.size file_at_eof
  /\ exists file' b vol' dev',
       fat_file_read vol_C (dev_demo 0 []) file_at_eof 200
       = (FSTATUS_OK, file', [b], 1, vol', dev')
       /\ File.glob_offset file' = 100 + 1
       /\ File.size file' = 100.
Proof.
  split; [reflexivity|]. split; [reflexivity|].
  apply (fat_file_read_at_eof_delivers_one vol_C (dev_demo 0 [])
           file_at_eof 200).
  - reflexivity.
  - reflexivity.
  - cbn. lia.
  - lia.
Defined.

(** ** Loads and stores *)

Lemma length_set_nth (n : nat) (x : Z) (m : list Z) :
  List.length (set_nth n x m) = List.length m.
Proof.
  revert n. induction m as [|h t IH]; intros [|n]; simpl; auto.
Qed.

Lemma nth_set_nth_same (n : nat) (x d : Z) (m : list Z) :
  (n < List.length m)%nat -> nth n (set_nth n x m) d = x.
Proof.
  revert n. induction m as [|h t IH]; intros [|n] H; simpl in *;
    try lia; auto. apply IH. lia.
Qed.

Lemma nth_set_nth_other (n k : nat) (x d : Z) (m : list Z) :
  n <> k -> nth n (set_nth k x m) d = nth n m d.
Proof.
  revert n k. induction m as [|h t IH]; intros [|n] [|k] H; simpl;
    try congruence; auto.
Qed.

Lemma length_set_byte (m : list Z) (i x : Z) :
  List.length (set_byte m i x) = List.length m.
Proof. apply length_set_nth. Qed.

Lemma byte_at_set_byte_same (m : list Z) (i x : Z) :
  0 <= i < Z.of_nat (List.length m) -> byte_at (set_byte m i x) i = u8 x.
Proof.
  intros H. unfold byte_at, set_byte.
  rewrite nth_set_nth_same by lia.
  unfold u8. apply Z.mod_mod. discriminate.
Qed.

Lemma byte_at_set_byte_other (m : list Z) (i j x : Z) :
  0 <= i -> 0 <= j -> i <> j -> byte_at (set_byte m i x) j = byte_at m j.
Proof.
  intros Hi Hj Hne. unfold byte_at, set_byte.
  rewrite nth_set_nth_other by lia. reflexivity.
Qed.

Lemma le_bytes_combine (w : Z) :
  Z.lor
    (Z.lor
       (Z.lor (Z.lor 0 (u8 w)) (Z.shiftl (u8 (Z.shiftr (u32 w) 8)) 8))
       (Z.shiftl (u8 (Z.shiftr (Z.shiftr (u32 w) 8) 8)) 16))
    (Z.shiftl (u8 (Z.shiftr (Z.shiftr (Z.shiftr (u32 w) 8) 8) 8)) 24)
  = u32 w.
Proof.
  unfold u8, u32. apply Z.bits_inj'. intros n Hn.
  rewrite !Z.lor_spec, Z.bits_0. cbn [orb].
  rewrite !Z.shiftl_spec by lia.
  rewrite !Z.testbit_mod_pow2 by lia.
  destruct (Z.ltb_spec n 8); [|destruct (Z.ltb_spec n 16);
    [|destruct (Z.ltb_spec n 24); [|destruct (Z.ltb_spec n 32)]]];
  repeat match goal with
  | |- context [Z.testbit _ (n - ?k)] =>
      first [ rewrite (Z.testbit_neg_r _ (n - k)) by lia
            | rewrite !Z.shiftr_spec by lia;
              rewrite !Z.testbit_mod_pow2 by lia ]
  | |- context [?a <? ?b] =>
      destruct (Z.ltb_spec a b); try lia
  end; cbn [andb orb]; rewrite ?andb_false_r, ?orb_false_r; cbn [andb orb];
  try reflexivity; try (f_equal; lia).
Qed.

Lemma length_fat_store32 (m : list Z) (off v : Z) :
  List.length (fat_store32 m off v) = List.length m.
Proof. unfold fat_store32. rewrite !length_set_byte. reflexivity. Qed.

(** A load gives back what was stored at the same place. *)
Lemma fat_load32_store32_same (m : list Z) (off v : Z) :
  0 <= off -> off + 3 < Z.of_nat (List.length m) ->
  fat_load32 (fat_store32 m off v) off = u32 v.
Proof.
  intros H0 Hlen. unfold fat_load32, fat_store32.
  rewrite (byte_at_set_byte_same _ (off + 3))
    by (rewrite !length_set_byte; lia).
  rewrite (byte_at_set_byte_other _ (off + 3) (off + 2)) by lia.
  rewrite (byte_at_set_byte_same _ (off + 2))
    by (rewrite !length_set_byte; lia).
  rewrite (byte_at_set_byte_other _ (off + 3) (off + 1)) by lia.
  rewrite (byte_at_set_byte_other _ (off + 2) (off + 1)) by lia.
  rewrite (byte_at_set_byte_same _ (off + 1))
    by (rewrite !length_set_byte; lia).
  rewrite (byte_at_set_byte_other _ (off + 3) off) by lia.
  rewrite (byte_at_set_byte_other _ (off + 2) off) by lia.
  rewrite (byte_at_set_byte_other _ (off + 1) off) by lia.
  rewrite (byte_at_set_byte_same _ off) by lia.
  rewrite le_bytes_combine. apply u32_idem.
Qed.

(** A load at another aligned place is not affected. *)
Lemma fat_load32_store32_other (m : list Z) (off off' v : Z) :
  0 <= off -> 0 <= off' -> off + 3 < off' \/ off' + 3 < off ->
  fat_load32 (fat_store32 m off v) off' = fat_load32 m off'.
Proof.
  intros H0 H0' Hdis. unfold fat_load32, fat_store32.
  rewrite !byte_at_set_byte_other by lia. reflexivity.
Qed.

(** ** C3: allocating a cluster *)

Lemma u32_add_inj (f a b : Z) :
  0 <= a < 2 ^ 32 -> 0 <= b < 2 ^ 32 -> u32 (f + a) = u32 (f + b) -> a = b.
Proof.
  unfold u32. change (2 ^ 32) with 4294967296. intros Ha Hb H.
  pose proof (Z.div_mod (f + a) 4294967296).
  pose proof (Z.div_mod (f + b) 4294967296).
  lia.
Qed.

(** The scan of [fat_get_cluster] moves from the entry of cluster [c] to
    the entry of cluster [c + 1]. *)
Lemma scan_advance (fat c : Z) :
  0 <= c ->
  (if u32 (c mod 128 * 4 + 4) >=? 512 then u32 (u32 (fat + c / 128) + 1)
   else u32 (fat + c / 128)) = u32 (fat + (c + 1) / 128)
  /\ (if u32 (c mod 128 * 4 + 4) >=? 512 then 0
      else u32 (c mod 128 * 4 + 4)) = (c + 1) mod 128 * 4.
Proof.
  intros Hc.
  assert (Hm : 0 <= c mod 128 < 128) by (apply Z.mod_pos_bound; lia).
  rewrite (u32_small (c mod 128 * 4 + 4)) by lia.
  pose proof (Z.div_mod c 128) as Hd.
  pose proof (Z.div_mod (c + 1) 128) as Hd1.
  assert (Hm1 : 0 <= (c + 1) mod 128 < 128)
    by (apply Z.mod_pos_bound; lia).
  destruct (Z.geb_spec (c mod 128 * 4 + 4) 512) as [Hge | Hlt].
  - rewrite u32_add_l.
    assert ((c + 1) / 128 = c / 128 + 1 /\ (c + 1) mod 128 = 0) as [-> ->]
      by lia.
    split; [f_equal; lia | reflexivity].
  - assert ((c + 1) / 128 = c / 128 /\ (c + 1) mod 128 = c mod 128 + 1)
      as [-> ->] by lia.
    split; [reflexivity | lia].
Qed.

(** The cluster number the scan computes for the entry it stands on. *)
Lemma scan_cluster_number (fat c : Z) :
  0 <= c < 2 ^ 32 ->
  u32 (u32 (128 * u32 (u32 (fat + c / 128) - fat)) + c mod 128 * 4 / 4) = c.
Proof.
  change (2 ^ 32) with 4294967296. intros Hc.
  assert (Hm : 0 <= c mod 128 < 128) by (apply Z.mod_pos_bound; lia).
  assert (Hq : 0 <= c / 128 <= c).
  { split; [apply Z.div_pos; lia|]. apply Z.div_le_upper_bound; lia. }
  pose proof (Z.div_mod c 128) as Hd.
  rewrite u32_sub_l.
  replace (fat + c / 128 - fat) with (c / 128) by ring.
  rewrite (u32_small (c / 128)) by lia.
  rewrite Z.div_mul by lia.
  rewrite (u32_small (128 * (c / 128))) by lia.
  rewrite u32_small by lia. lia.
Qed.

(** One pass of the loop over an entry that is not free. *)
Lemma scan_step_skip (vol : volume_s) (dev : device) (L : Z -> list Z)
  (c mf : Z) (cl : option Z) (fuel : nat) :
  shows vol dev L -> sector_size vol = 512 -> 0 <= c ->
  ~ entry_free (fat_entry L (fat_lba vol) c) ->
  exists vol' dev',
    same_geometry vol vol' /\ shows vol' dev' L
    /\ fat_get_cluster_loop (S fuel) vol dev (u32 (fat_lba vol + c / 128))
         (c mod 128 * 4) mf cl
       = fat_get_cluster_loop fuel vol' dev'
           (u32 (fat_lba vol + (c + 1) / 128)) ((c + 1) mod 128 * 4) mf cl.
Proof.
  intros Hs Hsz Hc Hnf.
  destruct (fat_read_shows _ _ _ (u32 (fat_lba vol + c / 128)) Hs)
    as (vol1 & dev1 & Hr & Hg1 & Hs1 & Hl1 & Hb1).
  exists vol1, dev1. split; [exact Hg1|]. split; [exact Hs1|].
  cbn [fat_get_cluster_loop]. rewrite Hr. cbn [Z.eqb]. rewrite Hb1.
  change (fat_load32 (L (u32 (fat_lba vol + c / 128))) (c mod 128 * 4))
    with (fat_entry L (fat_lba vol) c).
  apply Z.eqb_neq in Hnf. rewrite Hnf.
  assert (Hsz1 : sector_size vol1 = 512)
    by (rewrite <- Hsz; apply Hg1).
  rewrite Hsz1.
  destruct (scan_advance (fat_lba vol) c Hc) as [-> ->]. reflexivity.
Qed.

(** The scan passes over a run of entries that are not free. *)
Lemma scan_skip (n : nat) :
  forall (vol : volume_s) (dev : device) (L : Z -> list Z) (c mf : Z)
         (cl : option Z) (fuel : nat),
    shows vol dev L -> sector_size vol = 512 -> 0 <= c ->
    (forall i, 0 <= i < Z.of_nat n ->
               ~ entry_free (fat_entry L (fat_lba vol) (c + i))) ->
    exists vol' dev',
      same_geometry vol vol' /\ shows vol' dev' L
      /\ fat_get_cluster_loop (n + fuel) vol dev
           (u32 (fat_lba vol + c / 128)) (c mod 128 * 4) mf cl
         = fat_get_cluster_loop fuel vol' dev'
             (u32 (fat_lba vol + (c + Z.of_nat n) / 128))
             ((c + Z.of_nat n) mod 128 * 4) mf cl.
Proof.
  induction n as [|k IH]; intros vol dev L c mf cl fuel Hs Hsz Hc Hrun.
  - exists vol, dev. rewrite Z.add_0_r.
    auto using same_geometry_refl.
  - destruct (scan_step_skip vol dev L c mf cl (k + fuel) Hs Hsz Hc)
      as (vol1 & dev1 & Hg1 & Hs1 & Hstep).
    { rewrite <- (Z.add_0_r c). apply Hrun. lia. }
    assert (Hfat : fat_lba vol1 = fat_lba vol) by apply Hg1.
    assert (Hsz1 : sector_size vol1 = 512) by (rewrite <- Hsz; apply Hg1).
    destruct (IH vol1 dev1 L (c + 1) mf cl fuel Hs1 Hsz1)
      as (vol2 & dev2 & Hg2 & Hs2 & Hrest); [lia| |].
    { intros i Hi. rewrite Hfat.
      replace (c + 1 + i) with (c + (1 + i)) by ring. apply Hrun. lia. }
    exists vol2, dev2.
    split; [apply (same_geometry_trans _ vol1); assumption|].
    split; [exact Hs2|].
    change (S k + fuel)%nat with (S (k + fuel)).
    rewrite Hstep. rewrite Hfat in Hrest. rewrite Hrest.
    replace (c + 1 + Z.of_nat k) with (c + Z.of_nat (S k)) by lia.
    reflexivity.
Qed.

Lemma shows_store (vol : volume_s) (dev : device) (L : Z -> list Z)
  (b : list Z) :
  shows vol dev L ->
  shows (set_buffer_dirty (set_buffer vol b) 1) dev
    (write_sector L (buffer_lba vol) b).
Proof.
  intros (Hv & Hc & Hf). split; [|split].
  - intros l. unfold view, write_sector. simpl.
    specialize (Hv l). unfold view in Hv.
    destruct (l =? buffer_lba vol); [reflexivity | exact Hv].
  - intros H. simpl in H. discriminate H.
  - exact Hf.
Qed.

(** The pass of the loop over the first free entry. *)
Lemma scan_step_mark (vol : volume_s) (dev : device) (L : Z -> list Z)
  (c : Z) (cl : option Z) (fuel : nat) :
  shows vol dev L -> sector_size vol = 512 -> 0 <= c < 2 ^ 32 ->
  entry_free (fat_entry L (fat_lba vol) c) ->
  exists vol' dev',
    same_geometry vol vol'
    /\ shows vol' dev'
         (write_sector L (u32 (fat_lba vol + c / 128))
            (fat_store32 (L (u32 (fat_lba vol + c / 128))) (c mod 128 * 4)
               268435455))
    /\ fat_get_cluster_loop (S fuel) vol dev (u32 (fat_lba vol + c / 128))
         (c mod 128 * 4) 0 cl
       = fat_get_cluster_loop fuel vol' dev'
           (u32 (fat_lba vol + (c + 1) / 128)) ((c + 1) mod 128 * 4) 1
           (Some c).
Proof.
  intros Hs Hsz Hc Hfree.
  destruct (fat_read_shows _ _ _ (u32 (fat_lba vol + c / 128)) Hs)
    as (vol1 & dev1 & Hr & Hg1 & Hs1 & Hl1 & Hb1).
  pose proof (shows_store vol1 dev1 L
                (fat_store32 (buffer vol1) (c mod 128 * 4) 268435455) Hs1)
    as Hs2.
  rewrite Hl1, Hb1 in Hs2.
  eexists. exists dev1. split; [|split; [exact Hs2|]].
  - apply (same_geometry_trans _ vol1); [exact Hg1|].
    unfold same_geometry. simpl. repeat split; reflexivity.
  - cbn [fat_get_cluster_loop]. rewrite Hr. cbn [Z.eqb negb]. rewrite Hb1.
    change (fat_load32 (L (u32 (fat_lba vol + c / 128))) (c mod 128 * 4))
      with (fat_entry L (fat_lba vol) c).
    apply Z.eqb_eq in Hfree. rewrite Hfree.
    assert (Hsz1 : sector_size vol1 = 512) by (rewrite <- Hsz; apply Hg1).
    assert (Hfat : fat_lba vol1 = fat_lba vol) by apply Hg1.
    rewrite Hsz1, Hfat.
    destruct (scan_advance (fat_lba vol) c) as [-> ->]; [lia|].
    rewrite (scan_cluster_number (fat_lba vol) c Hc). reflexivity.
Qed.

(** The pass of the loop over the second free entry. *)
Lemma scan_step_break (vol : volume_s) (dev : device) (L : Z -> list Z)
  (c mf : Z) (cl : option Z) (fuel : nat) :
  shows vol dev L -> mf <> 0 ->
  entry_free (fat_entry L (fat_lba vol) c) ->
  exists vol' dev',
    same_geometry vol vol' /\ shows vol' dev' L
    /\ fat_get_cluster_loop (S fuel) vol dev (u32 (fat_lba vol + c / 128))
         (c mod 128 * 4) mf cl
       = Some (true, vol', dev', u32 (fat_lba vol + c / 128),
               c mod 128 * 4, cl).
Proof.
  intros Hs Hmf Hfree.
  destruct (fat_read_shows _ _ _ (u32 (fat_lba vol + c / 128)) Hs)
    as (vol1 & dev1 & Hr & Hg1 & Hs1 & Hl1 & Hb1).
  exists vol1, dev1. split; [exact Hg1|]. split; [exact Hs1|].
  cbn [fat_get_cluster_loop]. rewrite Hr. cbn [Z.eqb]. rewrite Hb1.
  change (fat_load32 (L (u32 (fat_lba vol + c / 128))) (c mod 128 * 4))
    with (fat_entry L (fat_lba vol) c).
  apply Z.eqb_eq in Hfree. rewrite Hfree.
  apply Z.eqb_neq in Hmf. rewrite Hmf. reflexivity.
Qed.

(** The FAT after the entry of cluster [c] is overwritten. *)
Lemma fat_entry_write_same (L : Z -> list Z) (fat c v : Z) :
  0 <= c ->
  List.length (L (u32 (fat + c / 128))) = 512%nat ->
  fat_entry
    (write_sector L (u32 (fat + c / 128))
       (fat_store32 (L (u32 (fat + c / 128))) (c mod 128 * 4) v)) fat c
  = u32 v.
Proof.
  intros Hc Hlen. unfold fat_entry, write_sector. rewrite Z.eqb_refl.
  assert (Hm : 0 <= c mod 128 < 128) by (apply Z.mod_pos_bound; lia).
  apply fat_load32_store32_same; [lia | rewrite Hlen; lia].
Qed.

Lemma fat_entry_write_other (L : Z -> list Z) (fat c c' v : Z) :
  0 <= c < 2 ^ 32 -> 0 <= c' < 2 ^ 32 -> c <> c' ->
  fat_entry
    (write_sector L (u32 (fat + c / 128))
       (fat_store32 (L (u32 (fat + c / 128))) (c mod 128 * 4) v)) fat c'
  = fat_entry L fat c'.
Proof.
  change (2 ^ 32) with 4294967296. intros Hc Hc' Hne.
  unfold fat_entry, write_sector.
  assert (Hm : 0 <= c mod 128 < 128) by (apply Z.mod_pos_bound; lia).
  assert (Hm' : 0 <= c' mod 128 < 128) by (apply Z.mod_pos_bound; lia).
  destruct (Z.eqb_spec (u32 (fat + c' / 128)) (u32 (fat + c / 128)))
    as [Heq | Hdiff]; [|reflexivity].
  assert (Hq : c' / 128 = c / 128).
  { assert (0 <= c / 128 <= c).
    { split; [apply Z.div_pos; lia|]. apply Z.div_le_upper_bound; lia. }
    assert (0 <= c' / 128 <= c').
    { split; [apply Z.div_pos; lia|]. apply Z.div_le_upper_bound; lia. }
    apply (u32_add_inj fat); change (2 ^ 32) with 4294967296; lia. }
  pose proof (Z.div_mod c 128). pose proof (Z.div_mod c' 128).
  rewrite Heq. apply fat_load32_store32_other; lia.
Qed.

(** The whole scan: from the entry of [nf] it marks the first free
    entry [c1] and stops on the second one [c2]. *)
Lemma fat_get_cluster_loop_finds (vol : volume_s) (dev : device)
  (L : Z -> list Z) (nf c1 c2 : Z) (fuel : nat) :
  shows vol dev L -> sector_size vol = 512 ->
  0 <= nf <= c1 -> c1 < c2 < 2 ^ 32 ->
  entry_free (fat_entry L (fat_lba vol) c1) ->
  entry_free (fat_entry L (fat_lba vol) c2) ->
  (forall c, nf <= c < c2 -> c <> c1 ->
             ~ entry_free (fat_entry L (fat_lba vol) c)) ->
  (Z.to_nat (c2 - nf) < fuel)%nat ->
  exists vol' dev',
    same_geometry vol vol'
    /\ shows vol' dev'
         (write_sector L (u32 (fat_lba vol + c1 / 128))
            (fat_store32 (L (u32 (fat_lba vol + c1 / 128)))
               (c1 mod 128 * 4) 268435455))
    /\ fat_get_cluster_loop fuel vol dev (u32 (fat_lba vol + nf / 128))
         (nf mod 128 * 4) 0 None
       = Some (true, vol', dev', u32 (fat_lba vol + c2 / 128),
               c2 mod 128 * 4, Some c1).
Proof.
  intros Hs Hsz Hnf Hc Hf1 Hf2 Hrest Hfuel.
  set (n1 := Z.to_nat (c1 - nf)).
  set (n2 := Z.to_nat (c2 - c1 - 1)).
  replace fuel
    with (n1 + S (n2 + S (fuel - (n1 + n2 + 2))))%nat by lia.
  set (extra := (fuel - (n1 + n2 + 2))%nat).
  (* the entries before [c1] *)
  destruct (scan_skip n1 vol dev L nf 0 None (S (n2 + S extra)) Hs Hsz)
    as (vol1 & dev1 & Hg1 & Hs1 & E1); [lia| |].
  { intros i Hi. apply Hrest; lia. }
  rewrite E1. clear E1.
  replace (nf + Z.of_nat n1) with c1 by lia.
  assert (Hfat1 : fat_lba vol1 = fat_lba vol) by apply Hg1.
  assert (Hsz1 : sector_size vol1 = 512) by (rewrite <- Hsz; apply Hg1).
  (* the entry of [c1] *)
  destruct (scan_step_mark vol1 dev1 L c1 None (n2 + S extra) Hs1 Hsz1)
    as (vol2 & dev2 & Hg2 & Hs2 & E2); [lia | rewrite Hfat1; exact Hf1 |].
  rewrite Hfat1 in Hs2, E2. rewrite E2. clear E2.
  assert (Hfat2 : fat_lba vol2 = fat_lba vol)
    by (rewrite <- Hfat1; apply Hg2).
  assert (Hsz2 : sector_size vol2 = 512) by (rewrite <- Hsz1; apply Hg2).
  (* the entries between [c1] and [c2] *)
  destruct (scan_skip n2 vol2 dev2 _ (c1 + 1) 1 (Some c1) (S extra) Hs2 Hsz2)
    as (vol3 & dev3 & Hg3 & Hs3 & E3); [lia| |].
  { intros i Hi. rewrite Hfat2.
    rewrite fat_entry_write_other by lia. apply Hrest; lia. }
  rewrite Hfat2 in E3. rewrite E3. clear E3.
  replace (c1 + 1 + Z.of_nat n2) with c2 by lia.
  assert (Hfat3 : fat_lba vol3 = fat_lba vol)
    by (rewrite <- Hfat2; apply Hg3).
  (* the entry of [c2] *)
  destruct (scan_step_break vol3 dev3 _ c2 1 (Some c1) extra Hs3)
    as (vol4 & dev4 & Hg4 & Hs4 & E4); [discriminate| |].
  { rewrite Hfat3. rewrite fat_entry_write_other by lia. exact Hf2. }
  rewrite Hfat3 in E4. rewrite E4.
  exists vol4, dev4. split; [|split; [exact Hs4 | reflexivity]].
  apply (same_geometry_trans _ vol3); [|exact Hg4].
  apply (same_geometry_trans _ vol2); [|exact Hg3].
  apply (same_geometry_trans _ vol1); assumption.
Qed.

Lemma fat_entry_ext (L1 L2 : Z -> list Z) (fat c : Z) :
  L1 (u32 (fat + c / 128)) = L2 (u32 (fat + c / 128)) ->
  fat_entry L1 fat c = fat_entry L2 fat c.
Proof. intros H. unfold fat_entry. rewrite H. reflexivity. Qed.

Lemma fat_load32_range (m : list Z) (off : Z) :
  0 <= fat_load32 m off < 2 ^ 32.
Proof. unfold fat_load32. apply u32_range. Qed.

(** C3: on a volume with 512-byte sectors whose transfers succeed, whose
    FSInfo sector lies before the FAT and holds [next_free] and
    [free_count], and whose FAT has a first free entry [c1] at or after
    [next_free] and a next free entry [c2] after it (free: low 7 bits
    zero), [fat_get_cluster] stores [c1] through its out-parameter and
    reaches its end with a clean cache; on the medium the entry of [c1]
    is [0x0FFFFFFF], FSInfo [next_free] is [c2] and [free_count] is one
    less (in [u32]), and every other FAT entry is as it was seen
    before. *)
Theorem fat_get_cluster_allocates (vol : volume_s) (dev : device)
  (c1 c2 : Z) (fuel : nat) :
  coherent vol dev -> no_faults dev -> sector_size vol = 512 ->
  (forall l, List.length (view vol dev l) = 512%nat) ->
  0 <= info_lba vol < fat_lba vol -> fat_lba vol + c2 / 128 < 2 ^ 32 ->
  fsinfo_next_free (view vol dev (info_lba vol)) <= c1 ->
  c1 < c2 < 2 ^ 32 ->
  entry_free (fat_entry (view vol dev) (fat_lba vol) c1) ->
  entry_free (fat_entry (view vol dev) (fat_lba vol) c2) ->
  (forall c, fsinfo_next_free (view vol dev (info_lba vol)) <= c < c2 ->
             c <> c1 ->
             ~ entry_free (fat_entry (view vol dev) (fat_lba vol) c)) ->
  (Z.to_nat (c2 - fsinfo_next_free (view vol dev (info_lba vol))) < fuel)%nat ->
  exists vol' dev',
    fat_get_cluster fuel vol dev = Some (NoValue, Some c1, vol', dev')
    /\ same_geometry vol vol'
    /\ buffer_dirty vol' = 0
    /\ fat_entry (sectors dev') (fat_lba vol) c1 = 268435455
    /\ fsinfo_next_free (sectors dev' (info_lba vol)) = c2
    /\ fsinfo_free_count (sectors dev' (info_lba vol))
       = u32 (fsinfo_free_count (view vol dev (info_lba vol)) - 1)
    /\ (forall c, 0 <= c < 2 ^ 32 -> c <> c1 ->
                  fat_lba vol + c / 128 < 2 ^ 32 ->
                  fat_entry (sectors dev') (fat_lba vol) c
                  = fat_entry (view vol dev) (fat_lba vol) c).
Proof.
  intros Hc Hf Hsz Hlen Hinfo Hfit Hnf Hc12 Hf1 Hf2 Hrest Hfuel.
  pose proof (shows_view _ _ Hc Hf) as Hs.
  set (L := view vol dev) in *.
  set (nf := fsinfo_next_free (L (info_lba vol))) in *.
  set (tf := fsinfo_free_count (L (info_lba vol))).
  assert (Hnfr : 0 <= nf < 2 ^ 32) by apply fat_load32_range.
  change (2 ^ 32) with 4294967296 in *.
  assert (Hq : forall c, 0 <= c -> 0 <= c / 128 <= c).
  { intros c H0. split; [apply Z.div_pos; lia|].
    apply Z.div_le_upper_bound; lia. }
  assert (Hsec : forall c, 0 <= c -> fat_lba vol + c / 128 < 4294967296 ->
                   u32 (fat_lba vol + c / 128) <> info_lba vol).
  { intros c H0 Hlt. specialize (Hq c H0).
    rewrite u32_small by lia. lia. }
  assert (Hmono : c1 / 128 <= c2 / 128) by (apply Z.div_le_mono; lia).
  (* reading FSInfo *)
  destruct (fat_read_shows _ _ _ (info_lba vol) Hs)
    as (vol1 & dev1 & Hr1 & Hg1 & Hs1 & Hl1 & Hb1).
  assert (Hfat1 : fat_lba vol1 = fat_lba vol) by apply Hg1.
  assert (Hsz1 : sector_size vol1 = 512) by (rewrite <- Hsz; apply Hg1).
  unfold fat_get_cluster. rewrite Hr1. cbn [Z.eqb]. rewrite Hb1, Hfat1.
  change (fat_load32 (L (info_lba vol)) INFO_CLUST_NEXT_FREE) with nf.
  change (fat_load32 (L (info_lba vol)) INFO_CLUST_CNT) with tf.
  assert (Hm : 0 <= nf mod 128 < 128) by (apply Z.mod_pos_bound; lia).
  rewrite (u32_small (nf mod 128 * 4)) by lia.
  (* the scan *)
  destruct (fat_get_cluster_loop_finds vol1 dev1 L nf c1 c2 fuel Hs1 Hsz1)
    as (vol2 & dev2 & Hg2 & Hs2 & E).
  { lia. }
  { change (2 ^ 32) with 4294967296. lia. }
  { rewrite Hfat1. exact Hf1. }
  { rewrite Hfat1. exact Hf2. }
  { intros c Hr Hne. rewrite Hfat1. apply Hrest; assumption. }
  { exact Hfuel. }
  rewrite Hfat1 in Hs2, E. rewrite E. clear E.
  set (s1 := u32 (fat_lba vol + c1 / 128)) in *.
  set (L' := write_sector L s1
               (fat_store32 (L s1) (c1 mod 128 * 4) 268435455)) in *.
  assert (Hg02 : same_geometry vol vol2)
    by (apply (same_geometry_trans _ vol1); assumption).
  assert (Hinfo2 : info_lba vol2 = info_lba vol) by apply Hg02.
  assert (Hfat2 : fat_lba vol2 = fat_lba vol) by apply Hg02.
  assert (Hs1i : s1 <> info_lba vol) by (apply Hsec; lia).
  assert (HLi : L' (info_lba vol) = L (info_lba vol)).
  { unfold L', write_sector.
    destruct (Z.eqb_spec (info_lba vol) s1); [congruence | reflexivity]. }
  (* writing FSInfo *)
  destruct (fat_read_shows _ _ _ (info_lba vol2) Hs2)
    as (vol3 & dev3 & Hr3 & Hg3 & Hs3 & Hl3 & Hb3).
  rewrite Hr3. cbn [Z.eqb].
  assert (Hfat3 : fat_lba vol3 = fat_lba vol)
    by (rewrite <- Hfat2; apply Hg3).
  rewrite Hfat3, (scan_cluster_number (fat_lba vol) c2) by lia.
  rewrite Hinfo2 in Hl3, Hb3. rewrite HLi in Hb3. rewrite Hb3.
  set (b2 := fat_store32
               (fat_store32 (L (info_lba vol)) INFO_CLUST_NEXT_FREE c2)
               INFO_CLUST_CNT (u32 (tf - 1))).
  pose proof (shows_store vol3 dev3 L' b2 Hs3) as Hs4. rewrite Hl3 in Hs4.
  destruct (fat_flush_shows _ _ _ Hs4)
    as (vol5 & dev5 & Hfl & Hg5 & Hs5 & Hd5 & _ & _ & Hm5).
  rewrite Hfl.
  exists vol5, dev5. split; [reflexivity|].
  assert (Hmi : sectors dev5 (info_lba vol) = b2).
  { rewrite Hm5. unfold write_sector. rewrite Z.eqb_refl. reflexivity. }
  assert (Hmo : forall l, l <> info_lba vol -> sectors dev5 l = L' l).
  { intros l Hl. rewrite Hm5. unfold write_sector.
    destruct (Z.eqb_spec l (info_lba vol)); [congruence | reflexivity]. }
  assert (Hli : List.length (L (info_lba vol)) = 512%nat) by apply Hlen.
  split; [|split; [exact Hd5|split; [|split; [|split]]]].
  - apply (same_geometry_trans _ vol2); [exact Hg02|].
    apply (same_geometry_trans _ vol3); [exact Hg3|].
    apply (same_geometry_trans _ (set_buffer_dirty (set_buffer vol3 b2) 1));
      [|exact Hg5].
    unfold same_geometry. simpl. repeat split; reflexivity.
  - rewrite (fat_entry_ext _ L') by (apply Hmo; exact Hs1i).
    unfold L', s1. rewrite fat_entry_write_same; [reflexivity | lia|].
    apply Hlen.
  - rewrite Hmi. unfold fsinfo_next_free, b2.
    unfold INFO_CLUST_NEXT_FREE, INFO_CLUST_CNT.
    rewrite fat_load32_store32_other by lia.
    rewrite fat_load32_store32_same by (rewrite ?Hli; lia).
    apply u32_small. lia.
  - rewrite Hmi. unfold fsinfo_free_count, b2.
    unfold INFO_CLUST_NEXT_FREE, INFO_CLUST_CNT.
    rewrite fat_load32_store32_same
      by (rewrite ?length_fat_store32, ?Hli; lia).
    apply u32_idem.
  - intros c Hcr Hne Hlt.
    rewrite (fat_entry_ext _ L') by (apply Hmo; apply Hsec; lia).
    unfold L', s1. apply fat_entry_write_other; lia.
Qed.

Lemma fat_get_cluster_allocates_witness :
  exists vol' dev',
    fat_get_cluster 8 vol_C (dev_demo 0 [])
    = Some (NoValue, Some 10, vol', dev')
    /\ same_geometry vol_C vol'
    /\ buffer_dirty vol' = 0
    /\ fat_entry (sectors dev') (fat_lba vol_C) 10 = 268435455
    /\ fsinfo_next_free (sectors dev' (info_lba vol_C)) = 17
    /\ fsinfo_free_count (sectors dev' (info_lba vol_C)) = 49
    /\ (forall c, 0 <= c < 2 ^ 32 -> c <> 10 ->
                  fat_lba vol_C + c / 128 < 2 ^ 32 ->
                  fat_entry (sectors dev') (fat_lba vol_C) c
                  = fat_entry (view vol_C (dev_demo 0 [])) (fat_lba vol_C) c).
Proof.
  assert (Hnf : fsinfo_next_free
                  (view vol_C (dev_demo 0 []) (info_lba vol_C)) = 10)
    by (vm_compute; reflexivity).
  apply (fat_get_cluster_allocates vol_C (dev_demo 0 []) 10 17 8).
  - intros _. reflexivity.
  - reflexivity.
  - reflexivity.
  - intros l. unfold view, dev_demo, medium_demo.
    cbn [buffer_lba buffer vol_C sectors].
    destruct (l =? 0); [reflexivity|].
    destruct (l =? 2049); [reflexivity|].
    destruct (l =? 2080); [reflexivity|].
    destruct (l =? 4128); reflexivity.
  - cbn. lia.
  - vm_compute. reflexivity.
  - rewrite Hnf. lia.
  - split; [lia | reflexivity].
  - vm_compute. reflexivity.
  - vm_compute. reflexivity.
  - rewrite Hnf. intros c Hr Hne Hfree.
    assert (Hcases : c = 11 \/ c = 12 \/ c = 13 \/ c = 14 \/ c = 15
                     \/ c = 16) by lia.
    destruct Hcases as [-> | [-> | [-> | [-> | [-> | ->]]]]];
      vm_compute in Hfree; discriminate Hfree.
  - rewrite Hnf. cbn. lia.
Defined.

(** * Further properties of the driver *)

(** ** The byte codec *)

Lemma lor_shiftl_add (a b n : Z) :
  0 <= n -> 0 <= a < 2 ^ n -> Z.lor a (Z.shiftl b n) = a + b * 2 ^ n.
Proof.
  intros Hn Ha.
  rewrite Z.shiftl_mul_pow2 by lia.
  rewrite <- Z.shiftl_mul_pow2 by lia.
  assert (Hland : Z.land a (Z.shiftl b n) = 0).
  { apply Z.bits_inj'. intros i Hi.
    rewrite Z.land_spec, Z.bits_0.
    destruct (Z.ltb_spec i n).
    - rewrite Z.shiftl_spec_low by lia. apply andb_false_r.
    - assert (Z.testbit a i = false) as ->; [|reflexivity].
      destruct (Z.eq_dec a 0) as [-> | Hnz]; [apply Z.bits_0|].
      apply Z.bits_above_log2; [lia|].
      apply Z.log2_lt_pow2; [lia|].
      apply Z.lt_le_trans with (2 ^ n); [lia|].
      apply Z.pow_le_mono_r; lia. }
  pose proof (Z.add_lor_land a (Z.shiftl b n)) as Hadd.
  rewrite Hland in Hadd. rewrite Z.shiftl_mul_pow2 in * by lia. lia.
Qed.

Lemma byte_at_range (m : list Z) (i : Z) : 0 <= byte_at m i < 256.
Proof. unfold byte_at. apply u8_range. Qed.

(** X1: [fat_load32] decodes four bytes in little-endian order: the
    value is [b0 + 256 b1 + 65536 b2 + 16777216 b3]. *)
Theorem fat_load32_little_endian (m : list Z) (off : Z) :
  fat_load32 m off
  = byte_at m off + 256 * byte_at m (off + 1)
    + 65536 * byte_at m (off + 2) + 16777216 * byte_at m (off + 3).
Proof.
  pose proof (byte_at_range m off) as H0.
  pose proof (byte_at_range m (off + 1)) as H1.
  pose proof (byte_at_range m (off + 2)) as H2.
  pose proof (byte_at_range m (off + 3)) as H3.
  unfold fat_load32. rewrite Z.lor_0_l.
  rewrite (lor_shiftl_add (byte_at m off)) by (change (2 ^ 8) with 256; lia).
  change (2 ^ 8) with 256.
  rewrite (lor_shiftl_add (byte_at m off + byte_at m (off + 1) * 256))
    by (change (2 ^ 16) with 65536; lia).
  change (2 ^ 16) with 65536.
  rewrite lor_shiftl_add by (change (2 ^ 24) with 16777216; lia).
  change (2 ^ 24) with 16777216.
  rewrite u32_small by lia. ring.
Qed.

(** X2: a 32-bit store followed by a load at the same place gives the
    value back (as a [u32]); the block keeps its length and every byte
    outside the four written ones. *)
Theorem fat_store32_load32_roundtrip (m : list Z) (off v : Z) :
  0 <= off -> off + 3 < Z.of_nat (List.length m) ->
  fat_load32 (fat_store32 m off v) off = u32 v
  /\ List.length (fat_store32 m off v) = List.length m
  /\ (forall j, 0 <= j -> j < off \/ off + 3 < j ->
                byte_at (fat_store32 m off v) j = byte_at m j).
Proof.
  intros H0 Hlen. split; [|split].
  - apply fat_load32_store32_same; assumption.
  - apply length_fat_store32.
  - intros j Hj Hout. unfold fat_store32.
    rewrite !byte_at_set_byte_other by lia. reflexivity.
Qed.

Lemma fat_store32_load32_roundtrip_witness :
  fat_load32 (fat_store32 zero_sector 492 305419896) 492 = u32 305419896
  /\ List.length (fat_store32 zero_sector 492 305419896)
     = List.length zero_sector
  /\ (forall j, 0 <= j -> j < 492 \/ 492 + 3 < j ->
                byte_at (fat_store32 zero_sector 492 305419896) j
                = byte_at zero_sector j).
Proof.
  apply (fat_store32_load32_roundtrip zero_sector 492 305419896).
  - lia.
  - vm_compute. reflexivity.
Defined.

Lemma le_bytes_combine16 (w : Z) :
  Z.lor (Z.lor 0 (u8 w)) (Z.shiftl (u8 (Z.shiftr (u16 w) 8)) 8) = u16 w.
Proof.
  unfold u8, u16. apply Z.bits_inj'. intros n Hn.
  rewrite !Z.lor_spec, Z.bits_0. cbn [orb].
  rewrite !Z.testbit_mod_pow2 by lia.
  destruct (Z.ltb_spec n 8); [|destruct (Z.ltb_spec n 16)].
  - rewrite Z.shiftl_spec_low by lia.
    destruct (Z.ltb_spec n 16); [|lia]. rewrite orb_false_r. reflexivity.
  - rewrite Z.shiftl_spec by lia.
    rewrite Z.testbit_mod_pow2 by lia.
    rewrite Z.shiftr_spec by lia.
    rewrite Z.testbit_mod_pow2 by lia.
    destruct (Z.ltb_spec (n - 8) 8); [|lia].
    destruct (Z.ltb_spec (n - 8 + 8) 16); [|lia].
    cbn [andb orb]. f_equal. lia.
  - rewrite Z.shiftl_spec by lia.
    rewrite Z.testbit_mod_pow2 by lia.
    destruct (Z.ltb_spec (n - 8) 8); [lia|]. reflexivity.
Qed.

(** X3: a 16-bit store followed by a load at the same place gives the
    value back (as a [u16]) and leaves the bytes outside the two written
    ones as they were. *)
Theorem fat_store16_load16_roundtrip (m : list Z) (off v : Z) :
  0 <= off -> off + 1 < Z.of_nat (List.length m) ->
  fat_load16 (fat_store16 m off v) off = u16 v
  /\ List.length (fat_store16 m off v) = List.length m
  /\ (forall j, 0 <= j -> j < off \/ off + 1 < j ->
                byte_at (fat_store16 m off v) j = byte_at m j).
Proof.
  intros H0 Hlen. split; [|split].
  - unfold fat_load16, fat_store16.
    rewrite (byte_at_set_byte_same _ (off + 1))
      by (rewrite !length_set_byte; lia).
    rewrite (byte_at_set_byte_other _ (off + 1) off) by lia.
    rewrite (byte_at_set_byte_same _ off) by lia.
    rewrite le_bytes_combine16.
    unfold u16. apply Z.mod_mod. discriminate.
  - unfold fat_store16. rewrite !length_set_byte. reflexivity.
  - intros j Hj Hout. unfold fat_store16.
    rewrite !byte_at_set_byte_other by lia. reflexivity.
Qed.

Lemma fat_store16_load16_roundtrip_witness :
  fat_load16 (fat_store16 zero_sector 510 43605) 510 = u16 43605
  /\ List.length (fat_store16 zero_sector 510 43605)
     = List.length zero_sector
  /\ (forall j, 0 <= j -> j < 510 \/ 510 + 1 < j ->
                byte_at (fat_store16 zero_sector 510 43605) j
                = byte_at zero_sector j).
Proof.
  apply (fat_store16_load16_roundtrip zero_sector 510 43605).
  - lia.
  - vm_compute. reflexivity.
Defined.

Lemma fat_memcmp_loop_spec (n : nat) :
  forall (s1 : list Z) (o1 : Z) (s2 : list Z) (o2 : Z),
    (fat_memcmp_loop n s1 o1 s2 o2 = 1
     <-> forall i, 0 <= i < Z.of_nat n ->
                   byte_at s1 (o1 + i) = byte_at s2 (o2 + i))
    /\ (fat_memcmp_loop n s1 o1 s2 o2 = 0
        \/ fat_memcmp_loop n s1 o1 s2 o2 = 1).
Proof.
  induction n as [|k IH]; intros s1 o1 s2 o2; cbn [fat_memcmp_loop].
  - split; [|auto]. split; [intros _ i Hi; lia | reflexivity].
  - destruct (Z.eqb_spec (byte_at s1 o1) (byte_at s2 o2)) as [He | Hne];
      cbn [negb].
    + destruct (IH s1 (o1 + 1) s2 (o2 + 1)) as [Hiff Hbool].
      split; [|exact Hbool].
      rewrite Hiff. split.
      * intros H i Hi. destruct (Z.eq_dec i 0) as [-> | Hnz].
        -- rewrite !Z.add_0_r. exact He.
        -- replace (o1 + i) with (o1 + 1 + (i - 1)) by ring.
           replace (o2 + i) with (o2 + 1 + (i - 1)) by ring.
           apply H. lia.
      * intros H i Hi.
        replace (o1 + 1 + i) with (o1 + (i + 1)) by ring.
        replace (o2 + 1 + i) with (o2 + (i + 1)) by ring.
        apply H. lia.
    + split; [|auto]. split; [discriminate|].
      intros H. exfalso. apply Hne.
      specialize (H 0). rewrite !Z.add_0_r in H. apply H. lia.
Qed.

(** X4: [fat_memcmp] returns 1 exactly when the [count] bytes of the two
    blocks agree, and 0 otherwise; for [count] 0 it returns 1. *)
Theorem fat_memcmp_equal_iff (s1 : list Z) (o1 : Z) (s2 : list Z)
  (o2 count : Z) :
  0 <= count ->
  (fat_memcmp s1 o1 s2 o2 count = 1
   <-> forall i, 0 <= i < count ->
                 byte_at s1 (o1 + i) = byte_at s2 (o2 + i))
  /\ (fat_memcmp s1 o1 s2 o2 count = 0 \/ fat_memcmp s1 o1 s2 o2 count = 1).
Proof.
  intros Hc. unfold fat_memcmp.
  destruct (Z.eqb_spec count 0) as [-> | Hnz].
  - split; [|auto]. split; [intros _ i Hi; lia | reflexivity].
  - destruct (fat_memcmp_loop_spec (Z.to_nat count) s1 o1 s2 o2)
      as [Hiff Hbool].
    rewrite Z2Nat.id in Hiff by lia. split; assumption.
Qed.

Lemma fat_memcmp_equal_iff_witness :
  (fat_memcmp (bpb_demo 66581) BPB_32_FSTYPE FAT_literal 0 3 = 1
   <-> forall i, 0 <= i < 3 ->
                 byte_at (bpb_demo 66581) (BPB_32_FSTYPE + i)
                 = byte_at FAT_literal (0 + i))
  /\ (fat_memcmp (bpb_demo 66581) BPB_32_FSTYPE FAT_literal 0 3 = 0
      \/ fat_memcmp (bpb_demo 66581) BPB_32_FSTYPE FAT_literal 0 3 = 1).
Proof.
  apply (fat_memcmp_equal_iff (bpb_demo 66581) BPB_32_FSTYPE FAT_literal 0 3).
  lia.
Defined.

Lemma u8_byte_at (m : list Z) (i : Z) : u8 (byte_at m i) = byte_at m i.
Proof. apply u8_small. apply byte_at_range. Qed.

Lemma fat_memcpy_loop_spec (n : nat) :
  forall (src : list Z) (soff : Z) (dest : list Z) (doff : Z),
    0 <= doff -> doff + Z.of_nat n <= Z.of_nat (List.length dest) ->
    (forall i, 0 <= i < Z.of_nat n ->
               byte_at (fat_memcpy_loop n src soff dest doff) (doff + i)
               = byte_at src (soff + i))
    /\ (forall j, 0 <= j -> j < doff \/ doff + Z.of_nat n <= j ->
                  byte_at (fat_memcpy_loop n src soff dest doff) j
                  = byte_at dest j)
    /\ List.length (fat_memcpy_loop n src soff dest doff)
       = List.length dest.
Proof.
  induction n as [|k IH]; intros src soff dest doff Hd Hfit;
    cbn [fat_memcpy_loop].
  - repeat split; auto. intros i Hi. lia.
  - destruct (IH src (soff + 1) (set_byte dest doff (byte_at src soff))
                (doff + 1)) as (Hcopy & Hframe & Hlen);
      [lia | rewrite length_set_byte; lia |].
    rewrite length_set_byte in Hlen.
    split; [|split; [|exact Hlen]].
    + intros i Hi. destruct (Z.eq_dec i 0) as [-> | Hnz].
      * rewrite !Z.add_0_r. rewrite Hframe by lia.
        rewrite byte_at_set_byte_same by lia. apply u8_byte_at.
      * replace (doff + i) with (doff + 1 + (i - 1)) by ring.
        replace (soff + i) with (soff + 1 + (i - 1)) by ring.
        apply Hcopy. lia.
    + intros j Hj Hout. rewrite Hframe by lia.
      apply byte_at_set_byte_other; lia.
Qed.

(** X5: for [1 <= count] that fits in the destination, [fat_memcpy]
    makes the [count] destination bytes equal to the source bytes and
    leaves every other byte and the length of the destination alone. *)
Theorem fat_memcpy_copies (src : list Z) (soff : Z) (dest : list Z)
  (doff count : Z) :
  1 <= count < 2 ^ 32 -> 0 <= doff ->
  doff + count <= Z.of_nat (List.length dest) ->
  (forall i, 0 <= i < count ->
             byte_at (fat_memcpy src soff dest doff count) (doff + i)
             = byte_at src (soff + i))
  /\ (forall j, 0 <= j -> j < doff \/ doff + count <= j ->
                byte_at (fat_memcpy src soff dest doff count) j
                = byte_at dest j)
  /\ List.length (fat_memcpy src soff dest doff count) = List.length dest.
Proof.
  change (2 ^ 32) with 4294967296. intros Hc Hd Hfit. unfold fat_memcpy.
  rewrite (u32_small count) by lia.
  destruct (Z.eqb_spec count 0) as [Hz | _]; [lia|].
  pose proof (fat_memcpy_loop_spec (Z.to_nat count) src soff dest doff Hd)
    as H.
  rewrite Z2Nat.id in H by lia. apply H. exact Hfit.
Qed.

Lemma fat_memcpy_copies_witness :
  (forall i, 0 <= i < 11 ->
             byte_at (fat_memcpy sfn_demo 0 zero_sector 32 11) (32 + i)
             = byte_at sfn_demo (0 + i))
  /\ (forall j, 0 <= j -> j < 32 \/ 32 + 11 <= j ->
                byte_at (fat_memcpy sfn_demo 0 zero_sector 32 11) j
                = byte_at zero_sector j)
  /\ List.length (fat_memcpy sfn_demo 0 zero_sector 32 11)
     = List.length zero_sector.
Proof.
  apply (fat_memcpy_copies sfn_demo 0 zero_sector 32 11).
  - split; [lia | reflexivity].
  - lia.
  - vm_compute. discriminate.
Defined.

(** ** The cache and the FAT, continued *)

(** X6: what the buffer holds, dirty or not, is served again after the
    buffer was used for another sector: a read of [lba2] followed by a
    read of the sector cached before gives the old buffer back (all
    transfers succeeding). *)
Theorem fat_read_serves_evicted_sector (vol : volume_s) (dev : device)
  (lba2 : Z) :
  coherent vol dev -> no_faults dev ->
  exists vol1 dev1 vol2 dev2,
    fat_read vol dev lba2 = (1, vol1, dev1)
    /\ buffer_lba vol1 = lba2
    /\ fat_read vol1 dev1 (buffer_lba vol) = (1, vol2, dev2)
    /\ buffer_lba vol2 = buffer_lba vol
    /\ buffer vol2 = buffer vol.
Proof.
  intros Hc Hf.
  pose proof (shows_view _ _ Hc Hf) as Hs.
  destruct (fat_read_shows _ _ _ lba2 Hs)
    as (vol1 & dev1 & Hr1 & _ & Hs1 & Hl1 & _).
  destruct (fat_read_shows _ _ _ (buffer_lba vol) Hs1)
    as (vol2 & dev2 & Hr2 & _ & _ & Hl2 & Hb2).
  exists vol1, dev1, vol2, dev2.
  repeat split; auto.
  rewrite Hb2. unfold view. rewrite Z.eqb_refl. reflexivity.
Qed.

Lemma fat_read_serves_evicted_sector_witness :
  coherent vol_dirty_5 (dev_demo 0 []) /\ no_faults (dev_demo 0 [])
  /\ exists vol1 dev1 vol2 dev2,
       fat_read vol_dirty_5 (dev_demo 0 []) 2080 = (1, vol1, dev1)
       /\ buffer_lba vol1 = 2080
       /\ fat_read vol1 dev1 (buffer_lba vol_dirty_5) = (1, vol2, dev2)
       /\ buffer_lba vol2 = buffer_lba vol_dirty_5
       /\ buffer vol2 = buffer vol_dirty_5.
Proof.
  assert (Hc : coherent vol_dirty_5 (dev_demo 0 []))
    by (intros H; discriminate H).
  assert (Hf : no_faults (dev_demo 0 [])) by reflexivity.
  split; [exact Hc|]. split; [exact Hf|].
  apply (fat_read_serves_evicted_sector vol_dirty_5 (dev_demo 0 []) 2080
           Hc Hf).
Defined.

(** X7: [fat_file_close] on a coherent cache either returns
    [FSTATUS_OK], and then the buffer is clean and the medium holds every
    sector as the driver saw it, or returns [FSTATUS_ERROR], and then the
    buffer was dirty, its write-back failed, and volume and medium are
    as before. *)
Theorem fat_file_close_outcomes (vol : volume_s) (dev : device)
  (r : fstatus) (vol' : volume_s) (dev' : device) :
  coherent vol dev ->
  fat_file_close vol dev = (r, vol', dev') ->
  (r = FSTATUS_OK /\ buffer_dirty vol' = 0
   /\ (forall l, sectors dev' l = view vol dev l))
  \/ (r = FSTATUS_ERROR /\ vol' = vol /\ sectors dev' = sectors dev
      /\ buffer_dirty vol <> 0 /\ hd false (faults dev) = true).
Proof.
  intros Hc. unfold fat_file_close, fat_flush, disk_write.
  assert (Hclean : buffer_dirty vol = 0 ->
                   forall l, sectors dev l = view vol dev l).
  { intros Hd l. unfold view.
    destruct (Z.eqb_spec l (buffer_lba vol)) as [-> | _];
      [apply Hc; exact Hd | reflexivity]. }
  assert (Hwr : forall l,
             write_sector (sectors dev) (buffer_lba vol) (buffer vol) l
             = view vol dev l).
  { intros l. unfold view, write_sector.
    destruct (l =? buffer_lba vol); reflexivity. }
  destruct (Z.eqb_spec (buffer_dirty vol) 0) as [Hd | Hd]; cbn [negb].
  - cbn [Z.eqb]. intros H. inversion H; subst. left. auto.
  - destruct (faults dev) as [|[|] rest] eqn:Hfl; cbn [Z.eqb];
      intros H; inversion H; subst; clear H.
    + left. auto.
    + right. auto.
    + left. auto.
Qed.

Lemma fat_file_close_outcomes_witness :
  coherent vol_dirty_5 (dev_demo 0 [true])
  /\ fat_file_close vol_dirty_5 (dev_demo 0 [true])
     = (FSTATUS_ERROR, vol_dirty_5, dev_demo 0 [])
  /\ ((FSTATUS_ERROR = FSTATUS_OK /\ buffer_dirty vol_dirty_5 = 0
       /\ (forall l, sectors (dev_demo 0 []) l
                     = view vol_dirty_5 (dev_demo 0 [true]) l))
      \/ (FSTATUS_ERROR = FSTATUS_ERROR /\ vol_dirty_5 = vol_dirty_5
          /\ sectors (dev_demo 0 []) = sectors (dev_demo 0 [true])
          /\ buffer_dirty vol_dirty_5 <> 0
          /\ hd false (faults (dev_demo 0 [true])) = true)).
Proof.
  assert (Hc : coherent vol_dirty_5 (dev_demo 0 [true]))
    by (intros H; discriminate H).
  assert (He : fat_file_close vol_dirty_5 (dev_demo 0 [true])
               = (FSTATUS_ERROR, vol_dirty_5, dev_demo 0 []))
    by reflexivity.
  split; [exact Hc|]. split; [exact He|].
  exact (fat_file_close_outcomes _ _ _ _ _ Hc He).
Defined.

(** X8: [fat_table_set] writes through and [fat_table_get] reads back:
    after setting the entry of cluster [c] to [e] (all transfers
    succeeding) the buffer is clean, the medium holds [e] (as a [u32]) in
    the entry of [c], and a lookup gives [e] for [c] and the entry seen
    before for every other cluster. *)
Theorem fat_table_set_then_get (vol : volume_s) (dev : device)
  (c e c' : Z) :
  coherent vol dev -> no_faults dev ->
  0 <= c < 2 ^ 32 -> 0 <= c' < 2 ^ 32 ->
  List.length (view vol dev (u32 (fat_lba vol + c / 128))) = 512%nat ->
  exists vol1 dev1 vol2 dev2,
    fat_table_set vol dev c e = (1, vol1, dev1)
    /\ buffer_dirty vol1 = 0
    /\ fat_entry (sectors dev1) (fat_lba vol) c = u32 e
    /\ fat_table_get vol1 dev1 c'
       = (Some (if c' =? c then u32 e
                else fat_entry (view vol dev) (fat_lba vol) c'),
          vol2, dev2).
Proof.
  intros Hc Hf Hcr Hcr' Hlen.
  pose proof (shows_view _ _ Hc Hf) as Hs.
  set (L := view vol dev) in *.
  set (s := u32 (fat_lba vol + c / 128)) in *.
  destruct (fat_read_shows _ _ _ s Hs)
    as (vol1 & dev1 & Hr & Hg1 & Hs1 & Hl1 & Hb1).
  set (b := fat_store32 (L s) (c mod 128 * 4) e).
  pose proof (shows_store vol1 dev1 L b Hs1) as Hs3. rewrite Hl1 in Hs3.
  destruct (fat_flush_shows _ _ _ Hs3)
    as (vol4 & dev4 & Hfl & Hg4 & Hs4 & Hd4 & _ & _ & Hm4).
  assert (Hfat4 : fat_lba vol4 = fat_lba vol).
  { assert (H1 : fat_lba vol1 = fat_lba vol) by apply Hg1.
    rewrite <- H1. apply Hg4. }
  destruct (fat_table_get_shows _ _ _ c' Hs4)
    as (vol5 & dev5 & Hget & _ & _).
  exists vol4, dev4, vol5, dev5.
  split; [|split; [exact Hd4|split]].
  - unfold fat_table_set. fold s. rewrite Hr. cbn [Z.eqb]. rewrite Hb1.
    replace (4 * (c mod 128)) with (c mod 128 * 4) by ring. fold b.
    rewrite Hfl. reflexivity.
  - rewrite (fat_entry_ext _ (write_sector L s b)) by apply Hm4.
    unfold b, s. apply fat_entry_write_same; [lia | exact Hlen].
  - rewrite Hget, Hfat4. f_equal. f_equal. f_equal.
    destruct (Z.eqb_spec c' c) as [-> | Hne].
    + unfold b, s. apply fat_entry_write_same; [lia | exact Hlen].
    + unfold b, s. apply fat_entry_write_other; lia.
Qed.

Lemma fat_table_set_then_get_witness :
  exists vol1 dev1 vol2 dev2,
    fat_table_set vol_C (dev_demo 0 []) 33 0 = (1, vol1, dev1)
    /\ buffer_dirty vol1 = 0
    /\ fat_entry (sectors dev1) (fat_lba vol_C) 33 = u32 0
    /\ fat_table_get vol1 dev1 5
       = (Some (if 5 =? 33 then u32 0
                else fat_entry (view vol_C (dev_demo 0 [])) (fat_lba vol_C) 5),
          vol2, dev2).
Proof.
  apply (fat_table_set_then_get vol_C (dev_demo 0 []) 33 0 5).
  - intros _. reflexivity.
  - reflexivity.
  - split; [lia | reflexivity].
  - split; [lia | reflexivity].
  - vm_compute. reflexivity.
Defined.

(** X9: [fat_table_set] does not look at the result of its flush: when
    the FAT sector is the cached one and the write-back fails, it still
    returns 1; the new entry is in the buffer only, which stays dirty,
    and the medium is unchanged. *)
Theorem fat_table_set_hides_write_failure (vol : volume_s) (dev : device)
  (c e : Z) (rest : list bool) :
  buffer_lba vol = u32 (fat_lba vol + c / 128) ->
  faults dev = true :: rest ->
  exists vol',
    fat_table_set vol dev c e = (1, vol', mk_device (sectors dev) rest)
    /\ buffer_dirty vol' = 1
    /\ buffer vol' = fat_store32 (buffer vol) (4 * (c mod 128)) e
    /\ buffer_lba vol' = buffer_lba vol.
Proof.
  intros Hhit Hfl. unfold fat_table_set, fat_read.
  rewrite Hhit, Z.eqb_refl. cbn [Z.eqb].
  unfold fat_flush, disk_write. cbn [buffer_dirty set_buffer_dirty
    set_buffer Z.eqb negb]. rewrite Hfl.
  eexists. split; [reflexivity|]. cbn. auto.
Qed.

Lemma fat_table_set_hides_write_failure_witness :
  exists vol',
    fat_table_set (set_buffer_lba vol_C 2080) (dev_demo 0 [true]) 33 0
    = (1, vol', mk_device (sectors (dev_demo 0 [true])) [])
    /\ buffer_dirty vol' = 1
    /\ buffer vol'
       = fat_store32 (buffer (set_buffer_lba vol_C 2080)) (4 * (33 mod 128)) 0
    /\ buffer_lba vol' = buffer_lba (set_buffer_lba vol_C 2080).
Proof.
  apply (fat_table_set_hides_write_failure (set_buffer_lba vol_C 2080)
           (dev_demo 0 [true]) 33 0 []).
  - reflexivity.
  - reflexivity.
Defined.

(** ** Walking a directory *)

(** X10: [fat_dir_get_next] keeps the offset part of the cursor
    invariant, whatever it returns and whatever the transfers do: with a
    sector size that is a multiple of 32, an offset below the sector size
    and a multiple of 32 stays so; the start sector, the volume pointer
    and the size of the cursor are not touched. *)
Theorem fat_dir_get_next_offset_invariant (vol : volume_s) (dev : device)
  (dir dir' : Dir.t) (r : Z) (vol' : volume_s) (dev' : device) :
  fat_dir_get_next vol dev dir = (r, dir', vol', dev') ->
  sector_size vol < 2 ^ 32 -> sector_size vol mod 32 = 0 ->
  0 <= Dir.rw_offset dir < sector_size vol ->
  Dir.rw_offset dir mod 32 = 0 ->
  0 <= Dir.rw_offset dir' < sector_size vol
  /\ Dir.rw_offset dir' mod 32 = 0
  /\ Dir.start_sect dir' = Dir.start_sect dir
  /\ Dir.vol dir' = Dir.vol dir /\ Dir.size dir' = Dir.size dir.
Proof.
  change (2 ^ 32) with 4294967296.
  intros H Hss Hsm Hrw Hrm.
  pose proof (Z.div_mod (sector_size vol) 32) as Hd1.
  pose proof (Z.div_mod (Dir.rw_offset dir) 32) as Hd2.
  rewrite Hsm in Hd1. rewrite Hrm in Hd2.
  assert (Hle : Dir.rw_offset dir + 32 <= sector_size vol) by lia.
  unfold fat_dir_get_next in H.
  rewrite (u32_small (Dir.rw_offset dir + 32)) in H by lia.
  destruct (Z.geb_spec (Dir.rw_offset dir + 32) (sector_size vol))
    as [Hge | Hlt].
  - assert (Hz : u32 (Dir.rw_offset dir + 32 - sector_size vol) = 0).
    { replace (Dir.rw_offset dir + 32 - sector_size vol) with 0 by lia.
      reflexivity. }
    rewrite Hz in H.
    destruct (u32 (Dir.sector dir + 1) >=? _).
    + destruct (fat_table_get vol dev (Dir.cluster dir))
        as [[[e|] vol1] dev1].
      * destruct (is_eoc e); inversion H; subst; cbn;
          repeat split; auto; lia.
      * inversion H; subst; cbn; repeat split; auto; lia.
    + inversion H; subst; cbn; repeat split; auto; lia.
  - inversion H; subst; cbn. repeat split; auto; try lia.
    rewrite <- Zplus_mod_idemp_l. rewrite Hrm. reflexivity.
Qed.

Lemma fat_dir_get_next_offset_invariant_witness :
  fat_dir_get_next vol_C (dev_demo 0 []) (Dir.mk 0 4128 4128 2 480 0)
  = (1, Dir.mk 0 4128 4129 2 0 0, vol_C, dev_demo 0 [])
  /\ 0 <= Dir.rw_offset (Dir.mk 0 4128 4129 2 0 0) < sector_size vol_C
  /\ Dir.rw_offset (Dir.mk 0 4128 4129 2 0 0) mod 32 = 0
  /\ Dir.start_sect (Dir.mk 0 4128 4129 2 0 0) = 4128
  /\ Dir.vol (Dir.mk 0 4128 4129 2 0 0) = O
  /\ Dir.size (Dir.mk 0 4128 4129 2 0 0) = 0.
Proof.
  assert (H : fat_dir_get_next vol_C (dev_demo 0 [])
                (Dir.mk 0 4128 4128 2 480 0)
              = (1, Dir.mk 0 4128 4129 2 0 0, vol_C, dev_demo 0 []))
    by reflexivity.
  split; [exact H|].
  apply (fat_dir_get_next_offset_invariant _ _ _ _ _ _ _ H).
  - reflexivity.
  - reflexivity.
  - cbn. lia.
  - reflexivity.
Defined.

Lemma fat_table_get_geometry (vol : volume_s) (dev : device) (c : Z) :
  same_geometry vol (snd (fst (fat_table_get vol dev c))).
Proof.
  unfold fat_table_get.
  pose proof (fat_read_geometry vol dev (u32 (fat_lba vol + c / 128))) as Hg.
  destruct (fat_read vol dev (u32 (fat_lba vol + c / 128)))
    as [[r vol1] dev1].
  cbn [fst snd] in Hg. destruct (r =? 0); exact Hg.
Qed.

(** X11: when [fat_dir_get_next] returns 1 the sector of the cursor is
    again a sector of the cluster of the cursor (clusters that end within
    the 32-bit sector range, nonzero cluster size), whatever the
    transfers do. *)
Theorem fat_dir_get_next_in_cluster (vol : volume_s) (dev : device)
  (dir dir' : Dir.t) (vol' : volume_s) (dev' : device) :
  fat_dir_get_next vol dev dir = (1, dir', vol', dev') ->
  0 < cluster_size vol -> 0 <= Dir.sector dir ->
  fat_clust_to_sect vol (Dir.cluster dir) + cluster_size vol <= 2 ^ 32 ->
  in_cluster vol dir ->
  in_cluster vol dir'.
Proof.
  change (2 ^ 32) with 4294967296.
  intros H Hcs Hs0 Hfit [Hlo Hhi]. unfold in_cluster.
  pose proof (u32_range (fat_clust_to_sect vol (Dir.cluster dir)
                         + cluster_size vol)) as Hr.
  unfold fat_dir_get_next in H.
  destruct (u32 (Dir.rw_offset dir + 32) >=? sector_size vol).
  - destruct (Z.geb_spec (u32 (Dir.sector dir + 1))
                (u32 (fat_clust_to_sect vol (Dir.cluster dir)
                      + cluster_size vol))) as [Hge | Hlt].
    + pose proof (fat_table_get_geometry vol dev (Dir.cluster dir)) as Hg.
      destruct (fat_table_get vol dev (Dir.cluster dir))
        as [[[e|] vol1] dev1]; cbn [fst snd] in Hg.
      * destruct (is_eoc e); inversion H; subst; cbn.
        rewrite (fat_clust_to_sect_geometry _ _ _ Hg). lia.
      * inversion H.
    + assert (Hne : fat_clust_to_sect vol (Dir.cluster dir)
                    + cluster_size vol <> 4294967296).
      { intros E. rewrite E in Hlt. change (u32 4294967296) with 0 in Hlt.
        pose proof (u32_range (Dir.sector dir + 1)). lia. }
      assert (Hpos : 0 <= fat_clust_to_sect vol (Dir.cluster dir))
        by (unfold fat_clust_to_sect; apply u32_range).
      rewrite (u32_small (fat_clust_to_sect vol (Dir.cluster dir)
                          + cluster_size vol)) in Hlt by lia.
      rewrite (u32_small (Dir.sector dir + 1)) in * by lia.
      inversion H; subst; cbn. lia.
  - inversion H; subst; cbn. lia.
Qed.

Lemma fat_dir_get_next_in_cluster_witness :
  fat_dir_get_next vol_C (dev_demo 0 []) (Dir.mk 0 4128 4135 2 480 0)
  = (1, Dir.mk 0 4128 4152 5 0 0,
     set_buffer_lba (set_buffer vol_C fat_demo) 2080, dev_demo 0 [])
  /\ in_cluster vol_C (Dir.mk 0 4128 4135 2 480 0)
  /\ in_cluster vol_C (Dir.mk 0 4128 4152 5 0 0).
Proof.
  assert (H : fat_dir_get_next vol_C (dev_demo 0 [])
                (Dir.mk 0 4128 4135 2 480 0)
              = (1, Dir.mk 0 4128 4152 5 0 0,
                 set_buffer_lba (set_buffer vol_C fat_demo) 2080,
                 dev_demo 0 [])) by reflexivity.
  assert (Hin : in_cluster vol_C (Dir.mk 0 4128 4135 2 480 0))
    by (unfold in_cluster; cbn; lia).
  split; [exact H|]. split; [exact Hin|].
  apply (fat_dir_get_next_in_cluster _ _ _ _ _ _ H).
  - reflexivity.
  - cbn. lia.
  - cbn. lia.
  - exact Hin.
Defined.

(** ** Reading directory records *)

(** [fat_dir_read] passes over deleted records. *)
Lemma fat_dir_read_loop_skip_deleted (n : nat) :
  forall (vol : volume_s) (dev : device) (L : Z -> list Z) (dir : Dir.t)
         (info : info_s) (crc nl : Z) (fuel : nat),
    shows vol dev L ->
    (forall i, (i < n)%nat ->
               deleted_record (L (Dir.sector (dir_nth i vol L dir)))
                 (Dir.rw_offset (dir_nth i vol L dir))) ->
    exists vol' dev',
      same_geometry vol vol' /\ shows vol' dev' L
      /\ fat_dir_read_loop (n + fuel) vol dev dir info crc nl
         = fat_dir_read_loop fuel vol' dev' (dir_nth n vol L dir) info
             crc nl.
Proof.
  induction n as [|k IH]; intros vol dev L dir info crc nl fuel Hs Hdel.
  - exists vol, dev. auto using same_geometry_refl.
  - pose proof (Hdel O (Nat.lt_0_succ k)) as Hcur. cbn [dir_nth] in Hcur.
    destruct (fat_read_shows _ _ _ (Dir.sector dir) Hs)
      as (vol1 & dev1 & Hr & Hg1 & Hs1 & Hl1 & Hb1).
    destruct (fat_dir_get_next_shows _ _ _ dir Hs1)
      as (r2 & vol2 & dev2 & Hnext & Hg2 & Hs2).
    rewrite (dir_next_geometry _ _ _ _ Hg1) in Hnext.
    assert (Hg : same_geometry vol vol2)
      by (apply (same_geometry_trans _ vol1); assumption).
    destruct (IH vol2 dev2 L (dir_next vol L dir) info crc nl fuel Hs2)
      as (vol3 & dev3 & Hg3 & Hs3 & Hrest).
    { intros i Hi. rewrite (dir_nth_geometry _ _ _ _ _ Hg).
      apply (Hdel (S i)). lia. }
    exists vol3, dev3.
    split; [apply (same_geometry_trans _ vol2); assumption|].
    split; [exact Hs3|].
    rewrite (dir_nth_geometry _ _ _ _ _ Hg) in Hrest.
    change (S k + fuel)%nat with (S (k + fuel)).
    cbn [fat_dir_read_loop dir_nth].
    rewrite Hr. cbn [Z.eqb]. rewrite Hb1.
    assert (Hchk : (byte_at (L (Dir.sector dir)) (Dir.rw_offset dir) =? 0)
                   = false
                   /\ negb (byte_at (L (Dir.sector dir)) (Dir.rw_offset dir)
                            =? 229)
                      && negb (byte_at (L (Dir.sector dir))
                                 (Dir.rw_offset dir) =? 5) = false).
    { destruct Hcur as [-> | ->]; split; reflexivity. }
    destruct Hchk as [-> ->].
    rewrite Hnext. exact Hrest.
Qed.

(** X12: a directory read that meets only deleted records before the
    end mark (first byte 0) returns [FSTATUS_EOF] with the cursor on the
    end mark and the info record untouched (all transfers
    succeeding). *)
Theorem fat_dir_read_end_of_directory (vol : volume_s) (dev : device)
  (dir : Dir.t) (info : info_s) (n fuel : nat) :
  coherent vol dev -> no_faults dev ->
  (forall i, (i < n)%nat ->
             deleted_record
               (view vol dev (Dir.sector (dir_nth i vol (view vol dev) dir)))
               (Dir.rw_offset (dir_nth i vol (view vol dev) dir))) ->
  byte_at (view vol dev (Dir.sector (dir_nth n vol (view vol dev) dir)))
    (Dir.rw_offset (dir_nth n vol (view vol dev) dir)) = 0 ->
  (n < fuel)%nat ->
  exists vol' dev',
    fat_dir_read fuel vol dev dir info
    = Some (FSTATUS_EOF, dir_nth n vol (view vol dev) dir, info, vol', dev').
Proof.
  intros Hc Hf Hdel Hend Hfuel.
  pose proof (shows_view _ _ Hc Hf) as Hs.
  set (L := view vol dev) in *.
  unfold fat_dir_read.
  replace fuel with (n + S (fuel - S n))%nat by lia.
  destruct (fat_dir_read_loop_skip_deleted n vol dev L dir info 0 0
              (S (fuel - S n)) Hs Hdel)
    as (vol1 & dev1 & Hg1 & Hs1 & Hskip).
  rewrite Hskip.
  destruct (fat_read_shows _ _ _ (Dir.sector (dir_nth n vol L dir)) Hs1)
    as (vol2 & dev2 & Hr & _ & _ & _ & Hb2).
  cbn [fat_dir_read_loop]. rewrite Hr. cbn [Z.eqb]. rewrite Hb2, Hend.
  cbn [Z.eqb]. exists vol2, dev2. reflexivity.
Qed.

Lemma fat_dir_read_end_of_directory_witness :
  exists vol' dev',
    fat_dir_read 1 vol_C (dev_demo 0 []) (Dir.mk 0 4128 4128 2 64 0)
      blank_info
    = Some (FSTATUS_EOF,
            dir_nth 0 vol_C (view vol_C (dev_demo 0 []))
              (Dir.mk 0 4128 4128 2 64 0),
            blank_info, vol', dev').
Proof.
  apply (fat_dir_read_end_of_directory vol_C (dev_demo 0 [])
           (Dir.mk 0 4128 4128 2 64 0) blank_info 0 1).
  - intros _. reflexivity.
  - reflexivity.
  - intros i Hi. lia.
  - vm_compute. reflexivity.
  - lia.
Defined.

Lemma sfn_copy_loop_spec (n : nat) :
  forall (i : Z) (entry : list Z) (off : Z) (nm : list Z) (nl : Z),
    0 <= i -> i + Z.of_nat n <= Z.of_nat (List.length nm) ->
    0 <= nl < 256 ->
    (forall j, i <= j < i + Z.of_nat n ->
               byte_at (fst (sfn_copy_loop n i entry off nm nl)) j
               = byte_at entry (off + j))
    /\ (forall j, 0 <= j < i ->
                  byte_at (fst (sfn_copy_loop n i entry off nm nl)) j
                  = byte_at nm j)
    /\ snd (sfn_copy_loop n i entry off nm nl) = u8 (nl + Z.of_nat n).
Proof.
  induction n as [|k IH]; intros i entry off nm nl Hi Hfit Hnl;
    cbn [sfn_copy_loop fst snd].
  - split; [intros j Hj; lia|]. split; [reflexivity|].
    rewrite Z.add_0_r. symmetry. apply u8_small. exact Hnl.
  - destruct (IH (i + 1) entry off
                (set_byte nm i (byte_at entry (off + i))) (u8 (nl + 1)))
      as (Hcopy & Hframe & Hlen);
      [lia | rewrite length_set_byte; lia | apply u8_range |].
    split; [|split].
    + intros j Hj. destruct (Z.eq_dec j i) as [-> | Hne].
      * rewrite Hframe by lia.
        rewrite byte_at_set_byte_same by lia. apply u8_byte_at.
      * apply Hcopy. lia.
    + intros j Hj. rewrite Hframe by lia.
      apply byte_at_set_byte_other; lia.
    + rewrite Hlen. unfold u8. rewrite Zplus_mod_idemp_l.
      f_equal. lia.
Qed.

(** X13: a directory read that meets, after deleted records only, a
    short-name record in use delivers that record: it returns
    [FSTATUS_OK], the name is the 11 bytes of the record, the name length
    is 11, and attribute, creation time with its tenths, creation date,
    write time, write date, access date and size are the fields of the
    record; the cursor stands one record further (all transfers
    succeeding, a name array of at least 11 bytes). *)
Theorem fat_dir_read_short_name (vol : volume_s) (dev : device)
  (dir : Dir.t) (info : info_s) (n fuel : nat) :
  coherent vol dev -> no_faults dev ->
  (forall i, (i < n)%nat ->
             deleted_record
               (view vol dev (Dir.sector (dir_nth i vol (view vol dev) dir)))
               (Dir.rw_offset (dir_nth i vol (view vol dev) dir))) ->
  sfn_record
    (view vol dev (Dir.sector (dir_nth n vol (view vol dev) dir)))
    (Dir.rw_offset (dir_nth n vol (view vol dev) dir)) ->
  (11 <= List.length (name info))%nat ->
  (n < fuel)%nat ->
  exists info' vol' dev',
    fat_dir_read fuel vol dev dir info
    = Some (FSTATUS_OK, dir_nth (S n) vol (view vol dev) dir, info',
            vol', dev')
    /\ name_length info' = 11
    /\ (forall j, 0 <= j < 11 ->
                  byte_at (name info') j
                  = byte_at
                      (view vol dev
                         (Dir.sector (dir_nth n vol (view vol dev) dir)))
                      (Dir.rw_offset (dir_nth n vol (view vol dev) dir) + j))
    /\ attribute info'
       = byte_at
           (view vol dev (Dir.sector (dir_nth n vol (view vol dev) dir)))
           (Dir.rw_offset (dir_nth n vol (view vol dev) dir) + SFN_ATTR)
    /\ size info'
       = fat_load32
           (view vol dev (Dir.sector (dir_nth n vol (view vol dev) dir)))
           (Dir.rw_offset (dir_nth n vol (view vol dev) dir)
            + SFN_FILE_SIZE)
    /\ w_time info'
       = fat_load16
           (view vol dev (Dir.sector (dir_nth n vol (view vol dev) dir)))
           (Dir.rw_offset (dir_nth n vol (view vol dev) dir) + SFN_WTIME)
    /\ w_date info'
       = fat_load16
           (view vol dev (Dir.sector (dir_nth n vol (view vol dev) dir)))
           (Dir.rw_offset (dir_nth n vol (view vol dev) dir) + SFN_WDATE)
    /\ c_time_tenth info'
       = byte_at
           (view vol dev (Dir.sector (dir_nth n vol (view vol dev) dir)))
           (Dir.rw_offset (dir_nth n vol (view vol dev) dir)
            + SFN_CTIME_TH)
    /\ c_time info'
       = fat_load16
           (view vol dev (Dir.sector (dir_nth n vol (view vol dev) dir)))
           (Dir.rw_offset (dir_nth n vol (view vol dev) dir) + SFN_CTIME)
    /\ c_date info'
       = fat_load16
           (view vol dev (Dir.sector (dir_nth n vol (view vol dev) dir)))
           (Dir.rw_offset (dir_nth n vol (view vol dev) dir) + SFN_CDATE)
    /\ a_date info'
       = fat_load16
           (view vol dev (Dir.sector (dir_nth n vol (view vol dev) dir)))
           (Dir.rw_offset (dir_nth n vol (view vol dev) dir) + SFN_ADATE).
Proof.
  intros Hc Hf Hdel Hsfn Hname Hfuel.
  pose proof (shows_view _ _ Hc Hf) as Hs.
  set (L := view vol dev) in *.
  set (d := dir_nth n vol L dir) in *.
  unfold fat_dir_read.
  replace fuel with (n + S (fuel - S n))%nat by lia.
  destruct (fat_dir_read_loop_skip_deleted n vol dev L dir info 0 0
              (S (fuel - S n)) Hs Hdel)
    as (vol1 & dev1 & Hg1 & Hs1 & Hskip).
  rewrite Hskip. fold d.
  destruct (fat_read_shows _ _ _ (Dir.sector d) Hs1)
    as (vol2 & dev2 & Hr & Hg2 & Hs2 & _ & Hb2).
  destruct (fat_dir_get_next_shows _ _ _ d Hs2)
    as (r3 & vol3 & dev3 & Hnext & _ & _).
  assert (Hg : same_geometry vol vol2)
    by (apply (same_geometry_trans _ vol1); assumption).
  rewrite (dir_next_geometry _ _ _ _ Hg) in Hnext.
  destruct Hsfn as ((Hu0 & Hu229 & Hu5) & Hattr).
  apply Z.eqb_neq in Hu0, Hu229, Hu5, Hattr.
  destruct (sfn_copy_loop_spec 11 0 (L (Dir.sector d)) (Dir.rw_offset d)
              (name info) 0) as (Hcopy & _ & Hlen); try lia.
  cbn [fat_dir_read_loop]. rewrite Hr. cbn [Z.eqb]. rewrite Hb2.
  rewrite Hu0, Hu229, Hu5. cbn [negb andb]. rewrite Hattr.
  cbn [negb andb Z.eqb].
  destruct (sfn_copy_loop 11 0 (L (Dir.sector d)) (Dir.rw_offset d)
              (name info) 0) as [nm nl] eqn:Hloop.
  cbn [fst snd] in Hcopy, Hlen.
  rewrite Hnext.
  eexists. exists vol3, dev3. split.
  - f_equal. f_equal. f_equal. f_equal. f_equal.
    unfold d. clear. revert dir.
    induction n as [|k IH]; intros dir; cbn [dir_nth];
      [reflexivity | apply IH].
  - cbn [name_length name attribute size w_time w_date c_time_tenth
         c_time c_date a_date].
    split; [rewrite Hlen; reflexivity|].
    split; [intros j Hj; apply Hcopy; lia|].
    repeat split; reflexivity.
Qed.

Lemma fat_dir_read_short_name_witness :
  exists info' vol' dev',
    fat_dir_read 1 vol_C (dev_demo 0 []) (Dir.mk 0 4128 4128 2 32 0)
      blank_info
    = Some (FSTATUS_OK,
            dir_nth 1 vol_C (view vol_C (dev_demo 0 []))
              (Dir.mk 0 4128 4128 2 32 0),
            info', vol', dev')
    /\ name_length info' = 11
    /\ (forall j, 0 <= j < 11 ->
                  byte_at (name info') j
                  = byte_at (view vol_C (dev_demo 0 []) 4128) (32 + j))
    /\ attribute info'
       = byte_at (view vol_C (dev_demo 0 []) 4128) (32 + SFN_ATTR)
    /\ size info'
       = fat_load32 (view vol_C (dev_demo 0 []) 4128) (32 + SFN_FILE_SIZE)
    /\ w_time info'
       = fat_load16 (view vol_C (dev_demo 0 []) 4128) (32 + SFN_WTIME)
    /\ w_date info'
       = fat_load16 (view vol_C (dev_demo 0 []) 4128) (32 + SFN_WDATE)
    /\ c_time_tenth info'
       = byte_at (view vol_C (dev_demo 0 []) 4128) (32 + SFN_CTIME_TH)
    /\ c_time info'
       = fat_load16 (view vol_C (dev_demo 0 []) 4128) (32 + SFN_CTIME)
    /\ c_date info'
       = fat_load16 (view vol_C (dev_demo 0 []) 4128) (32 + SFN_CDATE)
    /\ a_date info'
       = fat_load16 (view vol_C (dev_demo 0 []) 4128) (32 + SFN_ADATE).
Proof.
  apply (fat_dir_read_short_name vol_C (dev_demo 0 [])
           (Dir.mk 0 4128 4128 2 32 0) blank_info 0 1).
  - intros _. reflexivity.
  - reflexivity.
  - intros i Hi. lia.
  - unfold sfn_record, entry_in_use. vm_compute.
    repeat split; intro H; discriminate H.
  - vm_compute. lia.
  - lia.
Defined.

(** ** Short names *)

Lemma rot_right_8_add (c : Z) :
  0 <= c < 256 ->
  Z.shiftl (Z.land c 1) 7 + Z.shiftr c 1 = rot_right_8 c.
Proof.
  intros Hc. unfold rot_right_8.
  rewrite Z.lor_comm.
  rewrite lor_shiftl_add; [rewrite Z.shiftl_mul_pow2 by lia; ring | lia |].
  rewrite Z.shiftr_div_pow2 by lia. change (2 ^ 1) with 2.
  change (2 ^ 7) with 128.
  split; [apply Z.div_pos; lia | apply Z.div_lt_upper_bound; lia].
Qed.

Lemma fat_dir_sfn_crc_loop_fold (n : nat) :
  forall (m : list Z) (off crc : Z),
    0 <= crc < 256 ->
    fat_dir_sfn_crc_loop n m off crc
    = fold_left (fun c b => u8 (rot_right_8 c + b)) (bytes_from n m off) crc.
Proof.
  induction n as [|k IH]; intros m off crc Hc;
    cbn [fat_dir_sfn_crc_loop bytes_from fold_left].
  - reflexivity.
  - rewrite rot_right_8_add by exact Hc. apply IH. apply u8_range.
Qed.

Lemma fold_crc_range (bytes : list Z) :
  forall c, 0 <= c < 256 ->
            0 <= fold_left (fun c b => u8 (rot_right_8 c + b)) bytes c < 256.
Proof.
  induction bytes as [|b t IH]; intros c Hc; cbn [fold_left].
  - exact Hc.
  - apply IH. apply u8_range.
Qed.

(** X14: [fat_dir_sfn_crc] is the rotate-right-and-add checksum of the
    11 name bytes: from 0, for each byte, the 8-bit checksum is rotated
    right by one, the byte is added and the sum is cut to 8 bits.  It
    depends on these 11 bytes only and is an 8-bit value. *)
Theorem fat_dir_sfn_crc_is_rotate_add (m : list Z) (off : Z) :
  fat_dir_sfn_crc m off = sfn_crc_spec (bytes_from 11 m off)
  /\ 0 <= fat_dir_sfn_crc m off < 256.
Proof.
  assert (H : fat_dir_sfn_crc m off = sfn_crc_spec (bytes_from 11 m off)).
  { unfold fat_dir_sfn_crc, sfn_crc_spec.
    apply fat_dir_sfn_crc_loop_fold. lia. }
  split; [exact H|]. rewrite H. unfold sfn_crc_spec.
  apply fold_crc_range. lia.
Qed.

Lemma char_at_range (nm : string) (i : Z) : 0 <= char_at nm i < 256.
Proof.
  unfold char_at. destruct (String.get (Z.to_nat i) nm) as [a|]; [|lia].
  pose proof (N_ascii_bounded a) as Hb. lia.
Qed.

Lemma fat_dir_sfn_cmp_loop_spec (n : nat) :
  forall (sfn : list Z) (soff : Z) (nm : string) (noff : Z),
    fat_dir_sfn_cmp_loop n sfn soff nm noff = 1
    <-> forall i, 0 <= i < Z.of_nat n ->
                  upper_char (char_at nm (noff + i)) = byte_at sfn (soff + i).
Proof.
  induction n as [|k IH]; intros sfn soff nm noff;
    cbn [fat_dir_sfn_cmp_loop].
  - split; [intros _ i Hi; lia | reflexivity].
  - assert (Hup : (if (char_at nm noff >=? 97) && (char_at nm noff <=? 122)
                   then u8 (char_at nm noff - 32) else char_at nm noff)
                  = upper_char (char_at nm noff)).
    { unfold upper_char.
      destruct (Z.geb_spec (char_at nm noff) 97);
        destruct (Z.leb_spec (char_at nm noff) 122); cbn [andb];
        try reflexivity.
      apply u8_small. lia. }
    rewrite Hup.
    destruct (Z.eqb_spec (upper_char (char_at nm noff)) (byte_at sfn soff))
      as [He | Hne]; cbn [negb].
    + rewrite IH. split.
      * intros H i Hi. destruct (Z.eq_dec i 0) as [-> | Hnz].
        -- rewrite !Z.add_0_r. exact He.
        -- replace (noff + i) with (noff + 1 + (i - 1)) by ring.
           replace (soff + i) with (soff + 1 + (i - 1)) by ring.
           apply H. lia.
      * intros H i Hi.
        replace (noff + 1 + i) with (noff + (i + 1)) by ring.
        replace (soff + 1 + i) with (soff + (i + 1)) by ring.
        apply H. lia.
    + split; [discriminate|]. intros H. exfalso. apply Hne.
      specialize (H 0). rewrite !Z.add_0_r in H. apply H. lia.
Qed.

(** X15: the short-name comparison is case-insensitive and looks at no
    more than 8 characters: for a size from 1 to 255, [fat_dir_sfn_cmp]
    returns 1 exactly when each of the first [min size 8] characters of
    the name, lower-case letters taken as capitals, equals the byte of
    the record at its place. *)
Theorem fat_dir_sfn_cmp_iff (sfn : list Z) (soff : Z) (nm : string)
  (noff size : Z) :
  1 <= size < 256 ->
  fat_dir_sfn_cmp sfn soff nm noff size = 1
  <-> forall i, 0 <= i < Z.min size 8 ->
                upper_char (char_at nm (noff + i)) = byte_at sfn (soff + i).
Proof.
  intros Hs. unfold fat_dir_sfn_cmp. rewrite (u8_small size) by lia.
  destruct (Z.gtb_spec size 8) as [Hgt | Hle].
  - cbn [Z.eqb]. rewrite fat_dir_sfn_cmp_loop_spec.
    rewrite Z.min_r by lia. reflexivity.
  - destruct (Z.eqb_spec size 0) as [Hz | _]; [lia|].
    rewrite fat_dir_sfn_cmp_loop_spec.
    rewrite Z2Nat.id by lia. rewrite Z.min_l by lia. reflexivity.
Qed.

Lemma fat_dir_sfn_cmp_iff_witness :
  fat_dir_sfn_cmp sfn_demo 0 "a/" 0 1 = 1
  <-> forall i, 0 <= i < Z.min 1 8 ->
                upper_char (char_at "a/" (0 + i)) = byte_at sfn_demo (0 + i).
Proof.
  apply (fat_dir_sfn_cmp_iff sfn_demo 0 "a/" 0 1). lia.
Defined.

(** ** Files, continued *)

Lemma u16_range (x : Z) : 0 <= u16 x < 65536.
Proof. unfold u16. apply Z.mod_pos_bound. reflexivity. Qed.

Lemma fat_file_read_loop_in_sector (n : nat) :
  forall (sect_size file_size : Z) (vol : volume_s) (dev : device)
         (file : File.t) (out : list Z) (status : Z),
    0 <= File.rw_offset file ->
    File.rw_offset file + Z.of_nat n <= sect_size -> sect_size < 2 ^ 32 ->
    0 <= File.glob_offset file ->
    File.glob_offset file + Z.of_nat n <= file_size -> file_size < 2 ^ 32 ->
    0 <= status -> status + Z.of_nat n < 2 ^ 32 ->
    fat_file_read_loop n sect_size file_size vol dev file out status
    = (FSTATUS_OK,
       File.mk (File.vol file) (File.start_sect file) (File.sector file)
         (File.cluster file) (File.rw_offset file + Z.of_nat n)
         (File.glob_offset file + Z.of_nat n) (File.size file),
       out ++ bytes_from n (buffer vol) (File.rw_offset file),
       status + Z.of_nat n, vol, dev).
Proof.
  change (2 ^ 32) with 4294967296.
  induction n as [|k IH];
    intros sect_size file_size vol dev file out status
           Hrw Hfit Hss Hg Hgfit Hfs Hst Hstfit.
  - cbn [fat_file_read_loop bytes_from Z.of_nat].
    rewrite !Z.add_0_r, app_nil_r. destruct file; reflexivity.
  - cbn [fat_file_read_loop bytes_from].
    destruct (Z.geb_spec (File.rw_offset file) sect_size) as [Hge | _];
      [lia|].
    cbn [Z.eqb].
    rewrite (u32_small (File.rw_offset file + 1)) by lia.
    rewrite (u32_small (File.glob_offset file + 1)) by lia.
    rewrite (u32_small (status + 1)) by lia.
    cbn [File.glob_offset File.rw_offset File.vol File.start_sect
         File.sector File.cluster File.size].
    destruct (Z.geb_spec (File.glob_offset file + 1) file_size)
      as [Hend | Hmore].
    + assert (k = O) by lia. subst k. cbn [bytes_from]. reflexivity.
    + rewrite IH; cbn [File.glob_offset File.rw_offset File.vol
                       File.start_sect File.sector File.cluster File.size];
        try lia.
      rewrite <- app_assoc. cbn [app].
      replace (File.rw_offset file + 1 + Z.of_nat k)
        with (File.rw_offset file + Z.of_nat (S k)) by lia.
      replace (File.glob_offset file + 1 + Z.of_nat k)
        with (File.glob_offset file + Z.of_nat (S k)) by lia.
      replace (status + 1 + Z.of_nat k) with (status + Z.of_nat (S k))
        by lia.
      reflexivity.
Qed.

(** X16: a read that stays within the sector of the cursor and within
    the file delivers exactly the bytes of that sector, as the driver
    sees it, from [rw_offset] on; it reports [count], advances
    [rw_offset] and [glob_offset] by [count] and keeps sector and
    cluster (all transfers succeeding). *)
Theorem fat_file_read_in_sector (vol : volume_s) (dev : device)
  (file : File.t) (count : Z) :
  coherent vol dev -> no_faults dev ->
  0 <= count ->
  0 <= File.rw_offset file ->
  File.rw_offset file + count <= u16 (sector_size vol) ->
  0 <= File.glob_offset file ->
  File.glob_offset file + count <= File.size file ->
  File.size file < 2 ^ 32 ->
  exists vol' dev',
    fat_file_read vol dev file count
    = (FSTATUS_OK,
       File.mk (File.vol file) (File.start_sect file) (File.sector file)
         (File.cluster file) (File.rw_offset file + count)
         (File.glob_offset file + count) (File.size file),
       bytes_from (Z.to_nat count) (view vol dev (File.sector file))
         (File.rw_offset file),
       count, vol', dev')
    /\ shows vol' dev' (view vol dev).
Proof.
  change (2 ^ 32) with 4294967296.
  intros Hc Hf Hcnt Hrw Hfit Hg Hgfit Hfs.
  pose proof (shows_view _ _ Hc Hf) as Hs.
  destruct (fat_read_shows _ _ _ (File.sector file) Hs)
    as (vol1 & dev1 & Hr & _ & Hs1 & _ & Hb1).
  exists vol1, dev1. split; [|exact Hs1].
  unfold fat_file_read. rewrite Hr. cbn [Z.eqb].
  rewrite (u32_small count) by lia.
  pose proof (u16_range (sector_size vol)) as Hu.
  rewrite (fat_file_read_loop_in_sector (Z.to_nat count)
             (u16 (sector_size vol)) (File.size file) vol1 dev1 file [] 0);
    rewrite ?Z2Nat.id by lia;
    try (change (2 ^ 32) with 4294967296); try lia.
  rewrite Hb1. reflexivity.
Qed.

Lemma fat_file_read_in_sector_witness :
  exists vol' dev',
    fat_file_read vol_C (dev_demo 0 []) (File.mk 0 2049 2049 0 488 0 100) 8
    = (FSTATUS_OK, File.mk 0 2049 2049 0 (488 + 8) (0 + 8) 100,
       bytes_from (Z.to_nat 8) (view vol_C (dev_demo 0 []) 2049) 488,
       8, vol', dev')
    /\ shows vol' dev' (view vol_C (dev_demo 0 [])).
Proof.
  apply (fat_file_read_in_sector vol_C (dev_demo 0 [])
           (File.mk 0 2049 2049 0 488 0 100) 8).
  - intros _. reflexivity.
  - reflexivity.
  - lia.
  - cbn. lia.
  - vm_compute. discriminate.
  - cbn. lia.
  - cbn. lia.
  - reflexivity.
Defined.

(** X17: a seek to an offset inside the file whose chain walk meets no
    end-of-chain entry, followed by a read of [count] bytes, delivers
    [min count (size - offset)] bytes, reports that count and leaves
    [glob_offset = offset + min count (size - offset)] (all transfers
    succeeding, nonzero sector and cluster size). *)
Theorem fat_file_jump_then_read (vol : volume_s) (dev : device)
  (file : File.t) (offset count c : Z) :
  coherent vol dev -> no_faults dev ->
  0 < sector_size vol -> 0 < cluster_size vol ->
  chain_walk (view vol dev) (fat_lba vol)
    (Z.to_nat (offset / sector_size vol / cluster_size vol))
    (fat_sect_to_clust vol (File.start_sect file)) = Some c ->
  0 <= offset < File.size file -> File.size file < 2 ^ 32 ->
  0 <= count < 2 ^ 32 ->
  exists file1 vol1 dev1 file2 out vol2 dev2,
    fat_file_jump vol dev file offset = (Status FSTATUS_OK, file1, vol1, dev1)
    /\ File.cluster file1 = c
    /\ fat_file_read vol1 dev1 file1 count
       = (FSTATUS_OK, file2, out, Z.min count (File.size file - offset),
          vol2, dev2)
    /\ Z.of_nat (List.length out) = Z.min count (File.size file - offset)
    /\ File.glob_offset file2
       = offset + Z.min count (File.size file - offset).
Proof.
  intros Hc Hf _ _ Hwalk Hoff Hsz Hcnt.
  pose proof (shows_view _ _ Hc Hf) as Hs.
  destruct (fat_file_jump_loop_shows
              (Z.to_nat (offset / sector_size vol / cluster_size vol))
              _ _ _ (fat_sect_to_clust vol (File.start_sect file)) Hs)
    as (vol1 & dev1 & Hg & (_ & _ & Hf1) & Hw).
  rewrite Hwalk in Hw.
  set (file1 :=
         File.mk (File.vol file) (File.start_sect file)
           (u32 (fat_clust_to_sect vol1 c
                 + (offset / sector_size vol) mod cluster_size vol))
           c (offset mod sector_size vol1) offset (File.size file)).
  assert (Hjump : fat_file_jump vol dev file offset
                  = (Status FSTATUS_OK, file1, vol1, dev1)).
  { unfold fat_file_jump. rewrite Hw. reflexivity. }
  destruct (fat_file_read_before_eof vol1 dev1 file1 count Hf1)
    as (file2 & out & vol2 & dev2 & Hread & Hlen & Hglob & _);
    try (unfold file1; cbn; assumption).
  exists file1, vol1, dev1, file2, out, vol2, dev2.
  unfold file1 in *. cbn in Hread, Hlen, Hglob.
  repeat split; assumption.
Qed.

Lemma fat_file_jump_then_read_witness :
  exists file1 vol1 dev1 file2 out vol2 dev2,
    fat_file_jump vol_C (dev_demo 0 []) file_demo 6000
    = (Status FSTATUS_OK, file1, vol1, dev1)
    /\ File.cluster file1 = 5
    /\ fat_file_read vol1 dev1 file1 4
       = (FSTATUS_OK, file2, out,
          Z.min 4 (File.size file_demo - 6000), vol2, dev2)
    /\ Z.of_nat (List.length out) = Z.min 4 (File.size file_demo - 6000)
    /\ File.glob_offset file2
       = 6000 + Z.min 4 (File.size file_demo - 6000).
Proof.
  apply (fat_file_jump_then_read vol_C (dev_demo 0 []) file_demo 6000 4 5).
  - intros _. reflexivity.
  - reflexivity.
  - reflexivity.
  - reflexivity.
  - vm_compute. reflexivity.
  - cbn. lia.
  - reflexivity.
  - split; [lia | reflexivity].
Defined.

(** X18: [fat_file_open] never stores to [glob_offset]: the offset of
    the file object is after the call what it was before.  When the call
    returns [FSTATUS_OK] the cursor is at the start of the file
    ([start_sect = sector], [rw_offset = 0]); with every other result the
    file object is untouched. *)
Theorem fat_file_open_leaves_glob_offset (char_signed : bool)
  (fuel : nat) (lfn_match_init frag_size_init ok_code : Z)
  (dir_init : Dir.t) (volume_base : list volume_s) (dev : device)
  (file : File.t) (path : string) (length : Z) (r : retval)
  (file' : File.t) (vols' : list volume_s) (dev' : device) :
  fat_file_open char_signed fuel lfn_match_init frag_size_init ok_code
    dir_init volume_base dev file path length
  = Some (r, file', vols', dev') ->
  File.glob_offset file' = File.glob_offset file
  /\ (r = Status FSTATUS_OK ->
      File.start_sect file' = File.sector file'
      /\ File.rw_offset file' = 0)
  /\ (r <> Status FSTATUS_OK -> file' = file).
Proof.
  unfold fat_file_open.
  destruct (fat_follow_path char_signed fuel lfn_match_init volume_base dev
              dir_init path) as [[[[status dir] vols1] dev1]|]; [|discriminate].
  assert (Hdone : forall v d,
             Some (status, file, v, d) = Some (r, file', vols', dev') ->
             status <> Status FSTATUS_OK ->
             File.glob_offset file' = File.glob_offset file
             /\ (r = Status FSTATUS_OK ->
                 File.start_sect file' = File.sector file'
                 /\ File.rw_offset file' = 0)
             /\ (r <> Status FSTATUS_OK -> file' = file)).
  { intros v d H Hne. inversion H; subst.
    split; [reflexivity|]. split; [intros E; contradiction | reflexivity]. }
  assert (Herr : forall v d,
             Some (Status FSTATUS_PATH_ERR, file, v, d)
             = Some (r, file', vols', dev') ->
             File.glob_offset file' = File.glob_offset file
             /\ (r = Status FSTATUS_OK ->
                 File.start_sect file' = File.sector file'
                 /\ File.rw_offset file' = 0)
             /\ (r <> Status FSTATUS_OK -> file' = file)).
  { intros v d H. inversion H; subst.
    split; [reflexivity|]. split; [discriminate | reflexivity]. }
  destruct status as [[| | | |]|z|].
  - destruct (char_before path (u16 length - 1) =? 0); [apply Herr|].
    destruct (back_to_slash _ path _ frag_size_init) as [p fs].
    destruct (char_before path p =? 0); [apply Herr|].
    destruct (nth_error vols1 (Dir.vol dir)) as [vol|]; [|discriminate].
    destruct (fat_dir_search char_signed fuel lfn_match_init vol dev1 dir
                path (p + 1) fs)
      as [[[[rs dir2] vol2] dev2]|]; [|discriminate].
    destruct (rs =? 0); [apply Herr|].
    intros H. inversion H; subst. cbn.
    split; [reflexivity|]. split; [auto | intros E; contradiction].
  - intros H. apply (Hdone _ _ H). discriminate.
  - intros H. apply (Hdone _ _ H). discriminate.
  - intros H. apply (Hdone _ _ H). discriminate.
  - intros H. apply (Hdone _ _ H). discriminate.
  - destruct (z =? ok_code); cbn [negb].
    + destruct (char_before path (u16 length - 1) =? 0); [apply Herr|].
      destruct (back_to_slash _ path _ frag_size_init) as [p fs].
      destruct (char_before path p =? 0); [apply Herr|].
      destruct (nth_error vols1 (Dir.vol dir)) as [vol|]; [|discriminate].
      destruct (fat_dir_search char_signed fuel lfn_match_init vol dev1 dir
                  path (p + 1) fs) as [[[[rs dir2] vol2] dev2]|]; [|discriminate].
      destruct (rs =? 0); [apply Herr|].
      intros H. inversion H; subst. cbn.
      split; [reflexivity|]. split; [auto | intros E; contradiction].
    + intros H. apply (Hdone _ _ H). discriminate.
  - intros H. apply (Hdone _ _ H). discriminate.
Qed.

Lemma fat_file_open_leaves_glob_offset_witness :
  (exists vols' dev',
      fat_file_open false 5 0 255 0 blank_dir [vol_C] (dev_demo 0 [])
        (File.mk 9 9 9 9 9 77 9) "C:/A." 5
      = Some (Status FSTATUS_OK, File.mk 0 4136 4136 3 0 77 0, vols', dev'))
  /\ File.glob_offset (File.mk 0 4136 4136 3 0 77 0)
     = File.glob_offset (File.mk 9 9 9 9 9 77 9).
Proof.
  assert (H : exists vols' dev',
             fat_file_open false 5 0 255 0 blank_dir [vol_C]
               (dev_demo 0 []) (File.mk 9 9 9 9 9 77 9) "C:/A." 5
             = Some (Status FSTATUS_OK, File.mk 0 4136 4136 3 0 77 0,
                     vols', dev')).
  { eexists. eexists. vm_compute. reflexivity. }
  split; [exact H|].
  destruct H as (vols' & dev' & H).
  exact (proj1 (fat_file_open_leaves_glob_offset _ _ _ _ _ _ _ _ _ _ _ _ _ _
                  _ H)).
Defined.

(** ** The list of volumes and their letters *)

Lemma letter_bit_value (i : Z) : 0 <= i < 32 -> u32 (Z.shiftl 1 i) = 2 ^ i.
Proof.
  intros Hi. rewrite Z.shiftl_1_l. apply u32_small.
  split; [apply Z.pow_nonneg; lia|].
  change 4294967296 with (2 ^ 32). apply Z.pow_lt_mono_r; lia.
Qed.

Lemma land_pow2_eqb (m i : Z) :
  0 <= i -> (Z.land m (2 ^ i) =? 0) = negb (Z.testbit m i).
Proof.
  intros Hi. destruct (Z.testbit m i) eqn:Hb; cbn [negb].
  - apply Z.eqb_neq. intros H0.
    assert (Hbit : Z.testbit (Z.land m (2 ^ i)) i = true).
    { rewrite Z.land_spec, Hb, Z.pow2_bits_true by lia. reflexivity. }
    rewrite H0, Z.bits_0 in Hbit. discriminate.
  - apply Z.eqb_eq. apply Z.bits_inj'. intros k Hk.
    rewrite Z.land_spec, Z.bits_0, Z.pow2_bits_eqb by lia.
    destruct (Z.eqb_spec i k) as [-> | _];
      [rewrite Hb; reflexivity | apply andb_false_r].
Qed.

Lemma testbit_letter_set (m i k : Z) :
  0 <= i -> 0 <= k < 32 ->
  Z.testbit (u32 (Z.lor m (2 ^ i))) k = Z.testbit m k || (i =? k).
Proof.
  intros Hi Hk. unfold u32. rewrite Z.testbit_mod_pow2 by lia.
  destruct (Z.ltb_spec k 32); [|lia]. cbn [andb].
  rewrite Z.lor_spec, Z.pow2_bits_eqb by lia. reflexivity.
Qed.

Lemma testbit_letter_clear (m i k : Z) :
  0 <= i -> 0 <= k < 32 ->
  Z.testbit (u32 (Z.land m (Z.lnot (Z.shiftl 1 i)))) k
  = Z.testbit m k && negb (i =? k).
Proof.
  intros Hi Hk. unfold u32. rewrite Z.testbit_mod_pow2 by lia.
  destruct (Z.ltb_spec k 32); [|lia]. cbn [andb].
  rewrite Z.land_spec, Z.lnot_spec, Z.shiftl_1_l, Z.pow2_bits_eqb by lia.
  reflexivity.
Qed.

Lemma assign_letter_lowest (n : nat) :
  forall (i mask : Z) (vol : volume_s),
    0 <= i -> i + Z.of_nat n <= 32 ->
    (exists j, i <= j < i + Z.of_nat n /\ Z.testbit mask j = false) ->
    exists j,
      i <= j < i + Z.of_nat n /\ Z.testbit mask j = false
      /\ (forall k, i <= k < j -> Z.testbit mask k = true)
      /\ assign_letter n i mask vol
         = (u32 (Z.lor mask (2 ^ j)), set_letter vol (67 + j)).
Proof.
  induction n as [|k IH]; intros i mask vol Hi Hfit (j & Hj & Hclr).
  - lia.
  - cbn [assign_letter]. rewrite letter_bit_value by lia.
    rewrite land_pow2_eqb by lia.
    destruct (Z.testbit mask i) eqn:Hb; cbn [negb].
    + rewrite (u8_small (i + 1)) by lia.
      destruct (IH (i + 1) mask vol) as (j' & Hj' & Hclr' & Hlow & Heq);
        [lia | lia | |].
      { exists j. split; [|exact Hclr].
        assert (j <> i) by (intros ->; congruence). lia. }
      exists j'. split; [lia|]. split; [exact Hclr'|].
      split; [|exact Heq].
      intros k0 Hk0. destruct (Z.eq_dec k0 i) as [-> | Hne];
        [exact Hb | apply Hlow; lia].
    + exists i. split; [lia|]. split; [exact Hb|].
      split; [intros k0 Hk0; lia | reflexivity].
Qed.

Lemma NoDup_snoc (l : list Z) (x : Z) :
  NoDup l -> ~ In x l -> NoDup (l ++ [x]).
Proof.
  induction l as [|a t IH]; intros Hnd Hnin; cbn [app].
  - constructor; [intros [] | constructor].
  - inversion Hnd; subst. constructor.
    + rewrite in_app_iff. intros [H | [H | []]];
        [contradiction | subst; apply Hnin; left; reflexivity].
    + apply IH; [assumption|]. intros H. apply Hnin. right. exact H.
Qed.

Lemma volume_get_from_none (vols : list volume_s) (l : Z) :
  forall pos,
    volume_get_from pos vols l = None <-> ~ In l (map letter vols).
Proof.
  induction vols as [|v rest IH]; intros pos; cbn [volume_get_from map In].
  - split; [intros _ [] | reflexivity].
  - destruct (Z.eqb_spec (letter v) l) as [He | Hne].
    + split; [discriminate | intros H; exfalso; apply H; left; exact He].
    + rewrite IH. split; [intros H [E | E]; contradiction | tauto].
Qed.

Lemma volume_get_from_snoc (vols : list volume_s) (v : volume_s) (l : Z) :
  forall pos,
    ~ In l (map letter vols) -> letter v = l ->
    volume_get_from pos (vols ++ [v]) l
    = Some ((pos + List.length vols)%nat, v).
Proof.
  induction vols as [|a rest IH]; intros pos Hnin Hl;
    cbn [app volume_get_from List.length].
  - rewrite Hl, Z.eqb_refl. rewrite Nat.add_0_r. reflexivity.
  - cbn [map In] in Hnin.
    destruct (Z.eqb_spec (letter a) l) as [He | Hne]; [tauto|].
    rewrite IH by tauto. f_equal. f_equal. lia.
Qed.

(** X19: on a list of volumes whose letters agree with the bitmask and
    with a free bit among the 32, [fat_volume_add] links the volume
    behind the others and gives it the letter ['C' + j] of the lowest
    clear bit [j]; a lookup of that letter finds the new volume, and
    letters and bitmask agree again. *)
Theorem fat_volume_add_assigns_lowest_letter (reg : registry)
  (vol : volume_s) :
  registry_ok reg ->
  (exists j, 0 <= j < 32 /\ Z.testbit (volume_bitmask reg) j = false) ->
  exists j reg',
    0 <= j < 32 /\ Z.testbit (volume_bitmask reg) j = false
    /\ (forall k, 0 <= k < j -> Z.testbit (volume_bitmask reg) k = true)
    /\ fat_volume_add reg vol = (1, reg')
    /\ volume_base reg' = volume_base reg ++ [set_letter vol (67 + j)]
    /\ volume_get (volume_base reg') (67 + j)
       = Some (List.length (volume_base reg), set_letter vol (67 + j))
    /\ registry_ok reg'.
Proof.
  intros (Hrange & Hnd & Hset & Hused) (j0 & Hj0 & Hclr0).
  destruct (assign_letter_lowest 32 0 (volume_bitmask reg) vol)
    as (j & Hj & Hclr & Hlow & Heq); [lia | lia | |].
  { exists j0. split; [cbn; lia | exact Hclr0]. }
  change (0 + Z.of_nat 32) with 32 in Hj.
  assert (Hfree : ~ In (67 + j) (map letter (volume_base reg))).
  { intros Hin. apply in_map_iff in Hin. destruct Hin as (v & Hv & Hin).
    destruct (Hset v Hin) as [_ Hb]. rewrite Hv in Hb.
    replace (67 + j - 67) with j in Hb by ring. congruence. }
  exists j. eexists.
  split; [exact Hj|]. split; [exact Hclr|]. split; [exact Hlow|].
  unfold fat_volume_add. rewrite Heq.
  split; [reflexivity|]. cbn [volume_base volume_bitmask].
  split; [reflexivity|]. split.
  - unfold volume_get. rewrite volume_get_from_snoc by (auto; reflexivity).
    reflexivity.
  - unfold registry_ok. cbn [volume_base volume_bitmask].
    split; [apply u32_range|]. split; [|split].
    + rewrite map_app. cbn [map]. apply NoDup_snoc; assumption.
    + intros v Hin. apply in_app_iff in Hin. destruct Hin as [Hin | [<- | []]].
      * destruct (Hset v Hin) as [Hl Hb]. split; [exact Hl|].
        rewrite testbit_letter_set by lia. rewrite Hb. reflexivity.
      * cbn [letter set_letter]. split; [lia|].
        rewrite testbit_letter_set by lia.
        replace (67 + j - 67) with j by ring.
        rewrite Z.eqb_refl. apply orb_true_r.
    + intros i Hi Hb. rewrite testbit_letter_set in Hb by lia.
      rewrite map_app, in_app_iff. cbn [map In letter set_letter].
      apply orb_true_iff in Hb. destruct Hb as [Hb | Hb].
      * left. apply Hused; assumption.
      * apply Z.eqb_eq in Hb. subst. right. left. reflexivity.
Qed.

Lemma registry_ok_empty : registry_ok (mk_registry [] 0).
Proof.
  unfold registry_ok. cbn [volume_base volume_bitmask map].
  split; [split; [lia | reflexivity]|].
  split; [constructor|].
  split; [intros v []|].
  intros i Hi Hb. rewrite Z.bits_0 in Hb. discriminate.
Qed.

Lemma fat_volume_add_assigns_lowest_letter_witness :
  exists j reg',
    0 <= j < 32 /\ Z.testbit (volume_bitmask (mk_registry [] 0)) j = false
    /\ (forall k, 0 <= k < j ->
                  Z.testbit (volume_bitmask (mk_registry [] 0)) k = true)
    /\ fat_volume_add (mk_registry [] 0) vol_C = (1, reg')
    /\ volume_base reg'
       = volume_base (mk_registry [] 0) ++ [set_letter vol_C (67 + j)]
    /\ volume_get (volume_base reg') (67 + j)
       = Some (List.length (volume_base (mk_registry [] 0)),
               set_letter vol_C (67 + j))
    /\ registry_ok reg'.
Proof.
  apply (fat_volume_add_assigns_lowest_letter (mk_registry [] 0) vol_C).
  - exact registry_ok_empty.
  - exists 0. split; [lia | reflexivity].
Defined.

Lemma volume_get_from_pos (vols : list volume_s) (l : Z) :
  forall pos pos',
    option_map snd (volume_get_from pos vols l)
    = option_map snd (volume_get_from pos' vols l).
Proof.
  induction vols as [|v rest IH]; intros pos pos'; cbn [volume_get_from].
  - reflexivity.
  - destruct (letter v =? l); [reflexivity | apply IH].
Qed.

Lemma unlink_volume_get (vols : list volume_s) (l : Z) :
  forall pos,
    match volume_get_from pos vols l with
    | None => unlink_volume l vols = None
    | Some (_, v) => exists rest, unlink_volume l vols = Some (v, rest)
    end.
Proof.
  induction vols as [|a t IH]; intros pos;
    cbn [volume_get_from unlink_volume].
  - reflexivity.
  - destruct (letter a =? l); [exists t; reflexivity|].
    specialize (IH (S pos)).
    destruct (volume_get_from (S pos) t l) as [[p v]|].
    + destruct IH as (rest & ->). eexists. reflexivity.
    + rewrite IH. reflexivity.
Qed.

Lemma unlink_volume_spec (l : Z) (vols : list volume_s) :
  forall v rest,
    unlink_volume l vols = Some (v, rest) ->
    letter v = l
    /\ (forall w, In w rest -> In w vols)
    /\ (forall x, In x (map letter vols) -> x <> l ->
                  In x (map letter rest))
    /\ (NoDup (map letter vols) ->
        NoDup (map letter rest) /\ ~ In l (map letter rest))
    /\ (forall l' pos, l' <> l ->
                       option_map snd (volume_get_from pos rest l')
                       = option_map snd (volume_get_from pos vols l')).
Proof.
  induction vols as [|a t IH]; intros v rest H; cbn [unlink_volume] in H.
  - discriminate.
  - destruct (Z.eqb_spec (letter a) l) as [He | Hne].
    + inversion H; subst. split; [reflexivity|].
      split; [intros w Hw; right; exact Hw|].
      split; [intros x [Hx | Hx] Hxl; [congruence | exact Hx]|].
      split.
      * intros Hnd. cbn [map] in Hnd. inversion Hnd; subst. auto.
      * intros l' pos Hl'. cbn [volume_get_from].
        destruct (Z.eqb_spec (letter v) l') as [E | _]; [congruence|].
        apply volume_get_from_pos.
    + destruct (unlink_volume l t) as [[c r]|] eqn:Hu; [|discriminate].
      inversion H; subst. clear H.
      destruct (IH _ _ eq_refl) as (Hl & Hsub & Hkeep & Hnd & Hget).
      split; [exact Hl|].
      split; [intros w [Hw | Hw]; [left; exact Hw | right; auto]|].
      split.
      { intros x [Hx | Hx] Hxl; cbn [map In]; [left; exact Hx|].
        right. apply Hkeep; assumption. }
      split.
      * intros Hnd'. cbn [map] in Hnd'. inversion Hnd'; subst.
        destruct (Hnd H2) as [Hnd1 Hnin].
        split.
        -- cbn [map]. constructor; [|exact Hnd1].
           intros Hin. apply H1. apply in_map_iff in Hin.
           destruct Hin as (w & Hw & Hin). apply in_map_iff.
           exists w. split; [exact Hw | apply Hsub; exact Hin].
        -- cbn [map In]. intros [E | E]; [congruence | contradiction].
      * intros l' pos Hl'. cbn [volume_get_from].
        destruct (letter a =? l'); [reflexivity|]. apply Hget. exact Hl'.
Qed.

(** X20: [fat_volume_remove] of a letter no volume has returns 0 and
    changes nothing.  On a list whose letters agree with the bitmask,
    removing the letter of a volume returns 1; afterwards no volume has
    that letter, its bit is clear, every other letter finds the volume
    it found before, and letters and bitmask agree again. *)
Theorem fat_volume_remove_unlinks (reg : registry) (l : Z) :
  registry_ok reg ->
  match volume_get (volume_base reg) l with
  | None => fat_volume_remove reg l = (0, reg)
  | Some (_, v) =>
      exists reg',
        fat_volume_remove reg l = (1, reg')
        /\ volume_get (volume_base reg') l = None
        /\ Z.testbit (volume_bitmask reg') (l - 67) = false
        /\ (forall l', l' <> l ->
                       option_map snd (volume_get (volume_base reg') l')
                       = option_map snd (volume_get (volume_base reg) l'))
        /\ registry_ok reg'
  end.
Proof.
  intros (Hrange & Hnd & Hset & Hused).
  unfold volume_get, fat_volume_remove.
  pose proof (unlink_volume_get (volume_base reg) l O) as Hu.
  destruct (volume_get_from 0 (volume_base reg) l) as [[p v]|].
  - destruct Hu as (rest & Hu). rewrite Hu.
    destruct (unlink_volume_spec _ _ _ _ Hu)
      as (Hl & Hsub & Hkeep & Hnd' & Hget).
    destruct (Hnd' Hnd) as [Hnd1 Hnin].
    assert (Hin : In v (volume_base reg)).
    { clear - Hu. revert v rest Hu.
      induction (volume_base reg) as [|a t IH]; intros v rest Hu;
        cbn [unlink_volume] in Hu; [discriminate|].
      destruct (letter a =? l).
      - inversion Hu; subst. left. reflexivity.
      - destruct (unlink_volume l t) as [[c r]|] eqn:E; [|discriminate].
        inversion Hu; subst. right. apply (IH _ _ eq_refl). }
    destruct (Hset v Hin) as [Hlv _]. rewrite Hl in Hlv.
    rewrite Hl. rewrite (u8_small (l - 67)) by lia.
    eexists. split; [reflexivity|]. cbn [volume_base volume_bitmask].
    split; [apply volume_get_from_none; exact Hnin|].
    split.
    { rewrite testbit_letter_clear by lia. rewrite Z.eqb_refl.
      apply andb_false_r. }
    split; [intros l' Hl'; apply Hget; exact Hl'|].
    unfold registry_ok. cbn [volume_base volume_bitmask].
    split; [apply u32_range|]. split; [exact Hnd1|]. split.
    + intros w Hw. destruct (Hset w (Hsub w Hw)) as [Hlw Hb].
      split; [exact Hlw|].
      rewrite testbit_letter_clear by lia. rewrite Hb. cbn [andb].
      destruct (Z.eqb_spec (l - 67) (letter w - 67)) as [E | _];
        [|reflexivity].
      exfalso. apply Hnin. apply in_map_iff. exists w.
      split; [lia | exact Hw].
    + intros i Hi Hb. rewrite testbit_letter_clear in Hb by lia.
      apply andb_true_iff in Hb. destruct Hb as [Hb Hne].
      apply Hkeep; [apply Hused; assumption|].
      destruct (Z.eqb_spec (l - 67) i); [discriminate | lia].
  - rewrite Hu. reflexivity.
Qed.

Lemma fat_volume_remove_unlinks_witness :
  exists reg',
    fat_volume_remove (mk_registry [vol_C] 1) 67 = (1, reg')
    /\ volume_get (volume_base reg') 67 = None
    /\ Z.testbit (volume_bitmask reg') (67 - 67) = false
    /\ (forall l', l' <> 67 ->
                   option_map snd (volume_get (volume_base reg') l')
                   = option_map snd
                       (volume_get (volume_base (mk_registry [vol_C] 1)) l'))
    /\ registry_ok reg'.
Proof.
  assert (Hok : registry_ok (mk_registry [vol_C] 1)).
  { unfold registry_ok. cbn [volume_base volume_bitmask map letter vol_C].
    split; [split; [lia | reflexivity]|].
    split; [constructor; [intros [] | constructor]|].
    split.
    - intros v [<- | []]. cbn. split; [lia | reflexivity].
    - intros i Hi Hb. left.
      destruct (Z.eq_dec i 0) as [-> | Hne]; [reflexivity|].
      rewrite Z.bits_above_log2 in Hb; [discriminate | lia | cbn; lia]. }
  exact (fat_volume_remove_unlinks (mk_registry [vol_C] 1) 67 Hok).
Defined.

Lemma unlink_volume_snoc (vols : list volume_s) (v : volume_s) (l : Z) :
  ~ In l (map letter vols) -> letter v = l ->
  unlink_volume l (vols ++ [v]) = Some (v, vols).
Proof.
  induction vols as [|a t IH]; intros Hnin Hl; cbn [app unlink_volume].
  - rewrite Hl, Z.eqb_refl. reflexivity.
  - cbn [map In] in Hnin.
    destruct (Z.eqb_spec (letter a) l) as [He | _]; [tauto|].
    rewrite IH by tauto. reflexivity.
Qed.

Lemma letter_bit_roundtrip (m j : Z) :
  0 <= m < 2 ^ 32 -> 0 <= j < 32 -> Z.testbit m j = false ->
  u32 (Z.land (u32 (Z.lor m (2 ^ j))) (Z.lnot (Z.shiftl 1 j))) = m.
Proof.
  intros Hm Hj Hclr.
  rewrite <- (u32_small m) at 2 by (change 4294967296 with (2 ^ 32); lia).
  unfold u32 at 1 3. apply Z.bits_inj'. intros k Hk.
  rewrite !Z.testbit_mod_pow2 by lia.
  destruct (Z.ltb_spec k 32); [|reflexivity]. cbn [andb].
  rewrite Z.land_spec, Z.lnot_spec, Z.shiftl_1_l, Z.pow2_bits_eqb by lia.
  rewrite testbit_letter_set by lia.
  destruct (Z.eqb_spec j k) as [-> | _]; cbn [negb];
    [rewrite Hclr; reflexivity|].
  rewrite orb_false_r, andb_true_r. reflexivity.
Qed.

(** X21: adding a volume and then removing the letter it was given
    brings back the list of volumes and the bitmask as they were: the
    letter is free for the next volume. *)
Theorem fat_volume_add_remove_roundtrip (reg : registry) (vol : volume_s) :
  registry_ok reg ->
  (exists j, 0 <= j < 32 /\ Z.testbit (volume_bitmask reg) j = false) ->
  exists reg1 v1,
    fat_volume_add reg vol = (1, reg1)
    /\ volume_base reg1 = volume_base reg ++ [v1]
    /\ fat_volume_remove reg1 (letter v1) = (1, reg).
Proof.
  intros Hok Hfree0.
  pose proof Hok as (Hrange & Hnd & Hset & Hused).
  destruct Hfree0 as (j0 & Hj0 & Hclr0).
  destruct (assign_letter_lowest 32 0 (volume_bitmask reg) vol)
    as (j & Hj & Hclr & Hlow & Heq); [lia | lia | |].
  { exists j0. split; [cbn; lia | exact Hclr0]. }
  change (0 + Z.of_nat 32) with 32 in Hj.
  assert (Hfree : ~ In (67 + j) (map letter (volume_base reg))).
  { intros Hin. apply in_map_iff in Hin. destruct Hin as (v & Hv & Hin).
    destruct (Hset v Hin) as [_ Hb]. rewrite Hv in Hb.
    replace (67 + j - 67) with j in Hb by ring. congruence. }
  unfold fat_volume_add. rewrite Heq.
  eexists. exists (set_letter vol (67 + j)).
  split; [reflexivity|]. cbn [volume_base volume_bitmask].
  split; [reflexivity|].
  unfold fat_volume_remove. cbn [volume_base volume_bitmask letter set_letter].
  rewrite unlink_volume_snoc by (auto; reflexivity).
  cbn [letter set_letter].
  replace (67 + j - 67) with j by ring.
  rewrite (u8_small j) by lia.
  rewrite letter_bit_roundtrip by assumption.
  destruct reg; reflexivity.
Qed.

Lemma fat_volume_add_remove_roundtrip_witness :
  exists reg1 v1,
    fat_volume_add (mk_registry [] 0) vol_C = (1, reg1)
    /\ volume_base reg1 = volume_base (mk_registry [] 0) ++ [v1]
    /\ fat_volume_remove reg1 (letter v1) = (1, mk_registry [] 0).
Proof.
  apply (fat_volume_add_remove_roundtrip (mk_registry [] 0) vol_C).
  - exact registry_ok_empty.
  - exists 0. split; [lia | reflexivity].
Defined.

(** ** The volume label *)

Lemma set_label_loop_spec (n : nat) :
  forall (i : Z) (b : list Z) (off : Z) (nm : string) (len : Z),
    0 <= off + i -> off + i + Z.of_nat n <= Z.of_nat (List.length b) ->
    (forall j, i <= j < i + Z.of_nat n ->
               byte_at (set_label_loop n i b off nm len) (off + j)
               = if j <? len then char_at nm j else 32)
    /\ (forall k, 0 <= k -> k < off + i \/ off + i + Z.of_nat n <= k ->
                  byte_at (set_label_loop n i b off nm len) k
                  = byte_at b k)
    /\ List.length (set_label_loop n i b off nm len) = List.length b.
Proof.
  induction n as [|k IH]; intros i b off nm len Hlo Hfit;
    cbn [set_label_loop].
  - repeat split; auto. intros j Hj. lia.
  - destruct (IH (i + 1)
                (set_byte b (off + i)
                   (if i >=? len then 32 else char_at nm i))
                off nm len) as (Hset & Hframe & Hlen);
      [lia | rewrite length_set_byte; lia |].
    rewrite length_set_byte in Hlen.
    split; [|split; [|exact Hlen]].
    + intros j Hj. destruct (Z.eq_dec j i) as [-> | Hne].
      * rewrite Hframe by lia.
        rewrite byte_at_set_byte_same by lia.
        destruct (Z.geb_spec i len) as [Hge | Hlt];
          destruct (Z.ltb_spec i len) as [Hlt' | Hge']; try lia.
        -- reflexivity.
        -- rewrite u8_small by apply char_at_range. reflexivity.
      * apply Hset. lia.
    + intros j Hj Hout. rewrite Hframe by lia.
      apply byte_at_set_byte_other; lia.
Qed.

(** X22: on a coherent cache with working transfers, when the first
    record of the root directory is the label record,
    [volume_set_label] returns 1 and a following [fat_get_vol_label]
    returns 1 with the name padded with spaces to 11 characters; the
    medium holds the new label and the attribute byte of the record is
    as before. *)
Theorem volume_set_label_then_get (vol : volume_s) (dev : device)
  (nm : string) (length : Z) (label : list Z) :
  coherent vol dev -> no_faults dev ->
  32 <= Z.of_nat (List.length (view vol dev (root_lba vol))) ->
  is_label_attribute (byte_at (view vol dev (root_lba vol)) SFN_ATTR)
  = true ->
  0 <= length < 256 -> length <= Z.of_nat (String.length nm) ->
  11 <= Z.of_nat (List.length label) ->
  exists vol1 dev1 vol2 dev2 label',
    volume_set_label vol dev nm length = Returns (Literal 1, vol1, dev1)
    /\ fat_get_vol_label vol1 dev1 label
       = Returns (Literal 1, label', vol2, dev2)
    /\ (forall i, 0 <= i < 11 ->
                  byte_at label' i
                  = if i <? length then char_at nm i else 32)
    /\ (forall i, 0 <= i < 11 ->
                  byte_at (sectors dev1 (root_lba vol)) i
                  = if i <? length then char_at nm i else 32)
    /\ byte_at (sectors dev1 (root_lba vol)) SFN_ATTR
       = byte_at (view vol dev (root_lba vol)) SFN_ATTR.
Proof.
  intros Hc Hf Hlen Hattr Hl Hnm Hlab.
  pose proof (shows_view vol dev Hc Hf) as Hs.
  set (L := view vol dev) in *.
  destruct (fat_read_shows vol dev L (root_lba vol) Hs)
    as (va & da & Hrd & Hga & Hsa & Hlba & Hbuf).
  unfold volume_set_label. rewrite Hrd. cbn [Z.eqb].
  rewrite Hbuf. rewrite Z.add_0_l. rewrite Hattr.
  rewrite (u8_small length) by lia.
  set (b := set_label_loop 11 0 (L (root_lba vol)) 0 nm length).
  destruct (set_label_loop_spec 11 0 (L (root_lba vol)) 0 nm length)
    as (Hset & Hframe & Hblen);
    [lia | change (Z.of_nat 11) with 11; lia |].
  fold b in Hset, Hframe, Hblen.
  change (Z.of_nat 11) with 11 in Hset, Hframe.
  pose proof (shows_store va da L b Hsa) as Hsb.
  rewrite Hlba in Hsb.
  destruct (fat_flush_shows _ _ _ Hsb)
    as (vb & db & Hfl & Hgb & Hsb' & _ & _ & _ & Hmed).
  rewrite Hfl.
  assert (Hroot : root_lba vb = root_lba vol).
  { destruct Hga as (_ & _ & _ & _ & _ & _ & _ & _ & Hr1).
    destruct Hgb as (_ & _ & _ & _ & _ & _ & _ & _ & Hr2).
    cbn in Hr2. congruence. }
  assert (Hnew : write_sector L (root_lba vol) b (root_lba vol) = b).
  { unfold write_sector. rewrite Z.eqb_refl. reflexivity. }
  destruct (fat_read_shows vb db _ (root_lba vol) Hsb')
    as (vc & dc & Hrd2 & _ & _ & _ & Hbuf2).
  rewrite Hnew in Hbuf2.
  assert (Hattr' : byte_at b SFN_ATTR = byte_at (L (root_lba vol)) SFN_ATTR).
  { apply Hframe; unfold SFN_ATTR; lia. }
  destruct (fat_memcpy_loop_spec 11 b 0 label 0)
    as (Hcopy & _ & _); [lia | change (Z.of_nat 11) with 11; lia |].
  change (Z.of_nat 11) with 11 in Hcopy.
  exists vb, db, vc, dc, (fat_memcpy_loop 11 b 0 label 0).
  split; [reflexivity|].
  split.
  { unfold fat_get_vol_label. rewrite Hroot, Hrd2. cbn [Z.eqb].
    rewrite Hbuf2. rewrite Z.add_0_l. rewrite Hattr', Hattr.
    reflexivity. }
  split.
  { intros i Hi. specialize (Hcopy i Hi). rewrite !Z.add_0_l in Hcopy.
    rewrite Hcopy. specialize (Hset i). rewrite Z.add_0_l in Hset.
    apply Hset. lia. }
  rewrite Hmed, Hnew. split.
  - intros i Hi. specialize (Hset i). rewrite Z.add_0_l in Hset.
    apply Hset. lia.
  - exact Hattr'.
Qed.

Lemma volume_set_label_then_get_witness :
  exists vol1 dev1 vol2 dev2 label',
    volume_set_label vol_C dev_label "DATA" 4
    = Returns (Literal 1, vol1, dev1)
    /\ fat_get_vol_label vol1 dev1 (repeat 0 11)
       = Returns (Literal 1, label', vol2, dev2)
    /\ (forall i, 0 <= i < 11 ->
                  byte_at label' i
                  = if i <? 4 then char_at "DATA" i else 32)
    /\ (forall i, 0 <= i < 11 ->
                  byte_at (sectors dev1 (root_lba vol_C)) i
                  = if i <? 4 then char_at "DATA" i else 32)
    /\ byte_at (sectors dev1 (root_lba vol_C)) SFN_ATTR
       = byte_at (view vol_C dev_label (root_lba vol_C)) SFN_ATTR.
Proof.
  apply (volume_set_label_then_get vol_C dev_label "DATA" 4 (repeat 0 11)).
  - intros _. reflexivity.
  - reflexivity.
  - vm_compute. discriminate.
  - reflexivity.
  - lia.
  - vm_compute. discriminate.
  - vm_compute. discriminate.
Defined.

(** X23: [fat_get_vol_label] looks at the first record of the root
    directory only.  On a coherent cache with working transfers it
    returns 1 with the first 11 bytes of that record when the record is
    the label record, and otherwise steps its cursor through the [vol]
    pointer that was never set; [volume_set_label] does the same
    then. *)
Theorem fat_get_vol_label_first_record_only (vol : volume_s)
  (dev : device) (label : list Z) (nm : string) (length : Z) :
  coherent vol dev -> no_faults dev ->
  11 <= Z.of_nat (List.length label) ->
  exists vol1 dev1,
    same_geometry vol vol1
    /\ (is_label_attribute
          (byte_at (view vol dev (root_lba vol)) SFN_ATTR) = true ->
        exists label',
          fat_get_vol_label vol dev label
          = Returns (Literal 1, label', vol1, dev1)
          /\ (forall i, 0 <= i < 11 ->
                        byte_at label' i
                        = byte_at (view vol dev (root_lba vol)) i)
          /\ (forall j, 11 <= j -> byte_at label' j = byte_at label j))
    /\ (is_label_attribute
          (byte_at (view vol dev (root_lba vol)) SFN_ATTR) = false ->
        fat_get_vol_label vol dev label = WildPointer vol1 dev1
        /\ volume_set_label vol dev nm length = WildPointer vol1 dev1).
Proof.
  intros Hc Hf Hlab.
  pose proof (shows_view vol dev Hc Hf) as Hs.
  set (L := view vol dev) in *.
  destruct (fat_read_shows vol dev L (root_lba vol) Hs)
    as (va & da & Hrd & Hga & Hsa & Hlba & Hbuf).
  exists va, da. split; [exact Hga|].
  unfold fat_get_vol_label, volume_set_label. rewrite Hrd. cbn [Z.eqb].
  rewrite Hbuf. rewrite Z.add_0_l. split.
  - intros Hattr. rewrite Hattr.
    destruct (fat_memcpy_loop_spec 11 (L (root_lba vol)) 0 label 0)
      as (Hcopy & Hframe & _);
      [lia | change (Z.of_nat 11) with 11; lia |].
    change (Z.of_nat 11) with 11 in Hcopy, Hframe.
    eexists. split; [reflexivity|]. split.
    + intros i Hi. specialize (Hcopy i Hi). rewrite !Z.add_0_l in Hcopy.
      exact Hcopy.
    + intros j Hj. apply Hframe; lia.
  - intros Hattr. rewrite Hattr. split; reflexivity.
Qed.

Lemma fat_get_vol_label_first_record_only_witness :
  exists vol1 dev1,
    same_geometry vol_C vol1
    /\ (is_label_attribute
          (byte_at (view vol_C (dev_demo 0 []) (root_lba vol_C)) SFN_ATTR)
        = true ->
        exists label',
          fat_get_vol_label vol_C (dev_demo 0 []) (repeat 0 11)
          = Returns (Literal 1, label', vol1, dev1)
          /\ (forall i, 0 <= i < 11 ->
                        byte_at label' i
                        = byte_at
                            (view vol_C (dev_demo 0 []) (root_lba vol_C)) i)
          /\ (forall j, 11 <= j ->
                        byte_at label' j = byte_at (repeat 0 11) j))
    /\ (is_label_attribute
          (byte_at (view vol_C (dev_demo 0 []) (root_lba vol_C)) SFN_ATTR)
        = false ->
        fat_get_vol_label vol_C (dev_demo 0 []) (repeat 0 11)
        = WildPointer vol1 dev1
        /\ volume_set_label vol_C (dev_demo 0 []) "DATA" 4
           = WildPointer vol1 dev1).
Proof.
  apply (fat_get_vol_label_first_record_only vol_C (dev_demo 0 [])
           (repeat 0 11) "DATA" 4).
  - intros _. reflexivity.
  - reflexivity.
  - vm_compute. discriminate.
Defined.

(** ** Recognising a FAT32 partition *)

Lemma fat_load16_range (m : list Z) (off : Z) :
  0 <= fat_load16 m off < 65536.
Proof. unfold fat_load16. apply u16_range. Qed.

(** X24: for a BPB laid out as FAT32 (no root entries, the 16-bit FAT
    size and sector count zero, sectors of two bytes or more, a cluster
    size that is not zero, and the reserved sectors, the FATs and one
    more sector within the total), [fat_search] returns 1 exactly when
    the signature is [0xAA55], the three bytes [FAT] stand at offset 82
    or at offset 54, and the sectors left after the reserved ones, the
    FATs and one more make 65525 clusters or more; it returns 0
    otherwise. *)
Theorem fat_search_fat32_iff (bpb : list Z) :
  fat_load16 bpb BPB_ROOT_ENT_CNT = 0 ->
  2 <= fat_load16 bpb BPB_SECTOR_SIZE ->
  fat_load16 bpb BPB_FAT_SIZE_16 = 0 ->
  fat_load16 bpb BPB_TOT_SECT_16 = 0 ->
  0 < byte_at bpb BPB_CLUSTER_SIZE ->
  fat_load16 bpb BPB_RSVD_CNT
  + byte_at bpb BPB_NUM_FATS * fat_load32 bpb BPB_32_FAT_SIZE + 1
  <= fat_load32 bpb BPB_TOT_SECT_32 ->
  (fat_search bpb = 1
   <-> fat_load16 bpb 510 = 43605
       /\ ((forall i, 0 <= i < 3 ->
                      byte_at bpb (BPB_32_FSTYPE + i)
                      = byte_at FAT_literal i)
           \/ (forall i, 0 <= i < 3 ->
                         byte_at bpb (BPB_16_FSTYPE + i)
                         = byte_at FAT_literal i))
       /\ 65525
          <= (fat_load32 bpb BPB_TOT_SECT_32
              - (fat_load16 bpb BPB_RSVD_CNT
                 + byte_at bpb BPB_NUM_FATS
                   * fat_load32 bpb BPB_32_FAT_SIZE + 1))
             / byte_at bpb BPB_CLUSTER_SIZE)
  /\ (fat_search bpb = 0 \/ fat_search bpb = 1).
Proof.
  intros Hroot Hss Hf16 Ht16 Hcs Hfit.
  pose proof (fat_load16_range bpb BPB_RSVD_CNT) as Hr.
  pose proof (byte_at_range bpb BPB_NUM_FATS) as Hn.
  pose proof (fat_load32_range bpb BPB_32_FAT_SIZE) as Hfs.
  pose proof (fat_load32_range bpb BPB_TOT_SECT_32) as Htot.
  change (2 ^ 32) with 4294967296 in Hfs, Htot.
  assert (Hprod : 0 <= byte_at bpb BPB_NUM_FATS
                       * fat_load32 bpb BPB_32_FAT_SIZE) by nia.
  assert (Hrs : fat_search_root_sectors bpb = 1).
  { unfold fat_search_root_sectors. rewrite Hroot.
    rewrite Z.mul_0_l, Z.add_0_l.
    rewrite Z.quot_same by lia. reflexivity. }
  destruct (fat_memcmp_loop_spec 3 bpb BPB_32_FSTYPE FAT_literal 0)
    as [H32 B32].
  destruct (fat_memcmp_loop_spec 3 bpb BPB_16_FSTYPE FAT_literal 0)
    as [H16 B16].
  change (Z.of_nat 3) with 3 in H32, H16.
  unfold fat_search, fat_memcmp. cbn [Z.eqb].
  change (Z.to_nat 3) with 3%nat.
  rewrite Hrs, Hf16, Ht16. cbn [Z.eqb negb].
  rewrite (u32_small (byte_at bpb BPB_NUM_FATS
                      * fat_load32 bpb BPB_32_FAT_SIZE)) by lia.
  rewrite (u32_small (fat_load16 bpb BPB_RSVD_CNT
                      + byte_at bpb BPB_NUM_FATS
                        * fat_load32 bpb BPB_32_FAT_SIZE + 1)) by lia.
  rewrite u32_small by lia.
  destruct (Z.eqb_spec (fat_load16 bpb 510) 43605) as [Hsig | Hsig];
    cbn [negb].
  2: { split; [|auto]. split; [discriminate | intros (H & _); tauto]. }
  destruct (Z.eqb_spec (fat_memcmp_loop 3 bpb BPB_32_FSTYPE FAT_literal 0)
              0) as [E32 | E32];
    destruct (Z.eqb_spec
                (fat_memcmp_loop 3 bpb BPB_16_FSTYPE FAT_literal 0) 0)
      as [E16 | E16]; cbn [andb].
  1: { split; [|auto]. split; [discriminate|].
       intros (_ & [H | H] & _).
       - apply H32 in H. congruence.
       - apply H16 in H. congruence. }
  all: match goal with
       | |- context [?a <? 65525] =>
           destruct (Z.ltb_spec a 65525) as [Hlt | Hge]
       end;
    (split; [|auto]); split;
    try discriminate; try (intros (_ & _ & H); lia); intros _;
    (split; [exact Hsig|]); (split; [|exact Hge]).
  - right. apply H16. destruct B16; congruence.
  - left. apply H32. destruct B32; congruence.
  - left. apply H32. destruct B32; congruence.
Qed.

Lemma fat_search_fat32_iff_witness :
  (fat_search (bpb_demo 66582) = 1
   <-> fat_load16 (bpb_demo 66582) 510 = 43605
       /\ ((forall i, 0 <= i < 3 ->
                      byte_at (bpb_demo 66582) (BPB_32_FSTYPE + i)
                      = byte_at FAT_literal i)
           \/ (forall i, 0 <= i < 3 ->
                         byte_at (bpb_demo 66582) (BPB_16_FSTYPE + i)
                         = byte_at FAT_literal i))
       /\ 65525
          <= (fat_load32 (bpb_demo 66582) BPB_TOT_SECT_32
              - (fat_load16 (bpb_demo 66582) BPB_RSVD_CNT
                 + byte_at (bpb_demo 66582) BPB_NUM_FATS
                   * fat_load32 (bpb_demo 66582) BPB_32_FAT_SIZE + 1))
             / byte_at (bpb_demo 66582) BPB_CLUSTER_SIZE)
  /\ (fat_search (bpb_demo 66582) = 0 \/ fat_search (bpb_demo 66582) = 1).
Proof.
  apply (fat_search_fat32_iff (bpb_demo 66582)).
  - reflexivity.
  - vm_compute. discriminate.
  - reflexivity.
  - reflexivity.
  - reflexivity.
  - vm_compute. discriminate.
Defined.

(** ** Following a path *)

Lemma string_get_some_lt (s : string) :
  forall (n : nat) (a : ascii),
    String.get n s = Some a -> (n < String.length s)%nat.
Proof.
  induction s as [|c s IH]; intros n a H; simpl in H.
  - discriminate.
  - destruct n as [|m]; simpl.
    + lia.
    + apply IH in H. lia.
Qed.

Lemma char_at_nonzero_lt (path : string) (i : Z) :
  char_at path i <> 0 -> (Z.to_nat i < String.length path)%nat.
Proof.
  unfold char_at. intros H.
  destruct (String.get (Z.to_nat i) path) as [a|] eqn:Hget.
  - apply (string_get_some_lt _ _ _ Hget).
  - contradiction H. reflexivity.
Qed.

Lemma skip_to_slash_at_slash (n : nat) (path : string) (p : Z) :
  char_at path p = 47 -> skip_to_slash (S n) path p = p.
Proof. intros H. cbn [skip_to_slash]. rewrite H. reflexivity. Qed.

Lemma measure_fragment_dot (n : nat) :
  forall (path : string) (p fs : Z) (k : nat),
    (k < n)%nat ->
    char_at path (p + Z.of_nat k) = 46 ->
    (forall j, (j < k)%nat ->
               char_at path (p + Z.of_nat j) <> 0
               /\ char_at path (p + Z.of_nat j) <> 47
               /\ char_at path (p + Z.of_nat j) <> 46) ->
    fst (measure_fragment n path p fs) = true.
Proof.
  induction n as [|m IH]; intros path p fs k Hk Hdot Hbefore; [lia|].
  cbn [measure_fragment].
  destruct k as [|k'].
  - change (Z.of_nat 0) with 0 in Hdot. rewrite Z.add_0_r in Hdot.
    rewrite Hdot. reflexivity.
  - destruct (Hbefore O (Nat.lt_0_succ k')) as (H0 & H47 & H46).
    change (Z.of_nat 0) with 0 in H0, H47, H46.
    rewrite Z.add_0_r in H0, H47, H46.
    destruct (Z.eqb_spec (char_at path p) 0) as [E | _]; [contradiction|].
    destruct (Z.eqb_spec (char_at path p) 47) as [E | _]; [contradiction|].
    destruct (Z.eqb_spec (char_at path p) 46) as [E | _]; [contradiction|].
    cbn [negb andb].
    apply (IH path (p + 1) _ k'); [lia | |].
    + replace (p + 1 + Z.of_nat k') with (p + Z.of_nat (S k')) by lia.
      exact Hdot.
    + intros j Hj.
      replace (p + 1 + Z.of_nat j) with (p + Z.of_nat (S j)) by lia.
      apply Hbefore. lia.
Qed.

(** X25: a path [L:/...] on a mounted volume whose first name after the
    root has a ['.'] before any ['/'] is resolved to the root directory:
    [fat_follow_path] returns [FSTATUS_OK] with the cursor as it seeded
    it, and no sector is read or written, whether the name is a file or
    a directory with a dot in its name. *)
Theorem fat_follow_path_stops_at_dot (char_signed : bool) (fuel : nat)
  (init : Z)
  (volume_base : list volume_s) (dev : device) (dir : Dir.t)
  (path : string) (ptr : nat) (vol : volume_s) (k : nat) :
  volume_get volume_base (char_at path 0) = Some (ptr, vol) ->
  char_at path 1 = 58 -> char_at path 2 = 47 ->
  char_at path (3 + Z.of_nat k) = 46 ->
  (forall j, (j < k)%nat ->
             char_at path (3 + Z.of_nat j) <> 0
             /\ char_at path (3 + Z.of_nat j) <> 47
             /\ char_at path (3 + Z.of_nat j) <> 46) ->
  fat_follow_path char_signed (S fuel) init volume_base dev dir path
  = Some (Status FSTATUS_OK,
          Dir.mk ptr (root_lba vol) (root_lba vol)
            (fat_clust_to_sect vol (root_lba vol)) 0 (Dir.size dir),
          volume_base, dev).
Proof.
  intros Hget H1 H2 Hdot Hbefore.
  assert (Hlen : (3 + k < String.length path)%nat).
  { assert (Hnz : char_at path (3 + Z.of_nat k) <> 0)
      by (rewrite Hdot; discriminate).
    apply char_at_nonzero_lt in Hnz. lia. }
  assert (H3 : char_at path 3 <> 0).
  { destruct k as [|k'].
    - change (3 + Z.of_nat 0) with 3 in Hdot. rewrite Hdot. discriminate.
    - destruct (Hbefore O (Nat.lt_0_succ k')) as (H0 & _).
      exact H0. }
  pose proof (measure_fragment_dot (S (String.length path)) path 3 0 k)
    as Hm.
  unfold fat_follow_path. rewrite Hget, H1, H2. cbn [Z.eqb negb].
  cbn [fat_follow_path_loop].
  rewrite (skip_to_slash_at_slash _ _ _ H2). rewrite H2. cbn [Z.eqb].
  change (2 + 1) with 3.
  destruct (Z.eqb_spec (char_at path 3) 0) as [E | _]; [contradiction|].
  destruct (measure_fragment (S (String.length path)) path 3 0)
    as [[|] fs] eqn:Hmf.
  - unfold volume_get in Hget.
    pose proof (put_volume_get _ _ _ _ _ Hget) as Hput.
    rewrite Nat.sub_0_r in Hput. rewrite Hput. reflexivity.
  - cbn [fst] in Hm. discriminate Hm; [lia | exact Hdot | exact Hbefore].
Qed.

Lemma fat_follow_path_stops_at_dot_witness :
  fat_follow_path false 1 0 [vol_C] (dev_demo 0 []) blank_dir
    "C:/v1.2/notes"
  = Some (Status FSTATUS_OK,
          Dir.mk 0 (root_lba vol_C) (root_lba vol_C)
            (fat_clust_to_sect vol_C (root_lba vol_C)) 0
            (Dir.size blank_dir),
          [vol_C], dev_demo 0 []).
Proof.
  apply (fat_follow_path_stops_at_dot false 0 0 [vol_C] (dev_demo 0 [])
           blank_dir "C:/v1.2/notes" 0%nat vol_C 2).
  - reflexivity.
  - reflexivity.
  - reflexivity.
  - reflexivity.
  - intros j Hj.
    destruct j as [|[|j]]; [vm_compute | vm_compute | lia];
      repeat split; discriminate.
Defined.

(** ** Searching a directory *)

(** The cursor [n] records further in its sector. *)
Lemma fat_dir_search_loop_pass (char_signed : bool) (vol : volume_s)
  (dev : device)
  (L : Z -> list Z) (dir : Dir.t) (name : string) (noff size : Z)
  (lfn_match : Z) (fuel : nat) :
  shows vol dev L ->
  0 <= Dir.rw_offset dir ->
  Dir.rw_offset dir + 32 < sector_size vol ->
  sector_size vol < 2 ^ 32 ->
  deleted_record (L (Dir.sector dir)) (Dir.rw_offset dir)
  \/ (sfn_record (L (Dir.sector dir)) (Dir.rw_offset dir)
      /\ fat_dir_sfn_cmp (L (Dir.sector dir)) (Dir.rw_offset dir) name noff
           size = 0) ->
  exists vol' dev' lfn_match',
    same_geometry vol vol' /\ shows vol' dev' L
    /\ fat_dir_search_loop char_signed (S fuel) vol dev dir name noff size 0
         lfn_match 0
       = fat_dir_search_loop char_signed fuel vol' dev'
           (Dir.mk (Dir.vol dir) (Dir.start_sect dir) (Dir.sector dir)
              (Dir.cluster dir) (Dir.rw_offset dir + 32) (Dir.size dir))
           name noff size 0 lfn_match' 0.
Proof.
  change (2 ^ 32) with 4294967296.
  intros Hs Hlo Hhi Hss Hrec.
  destruct (fat_read_shows _ _ _ (Dir.sector dir) Hs)
    as (vol1 & dev1 & Hr & Hg1 & Hs1 & Hl1 & Hb1).
  assert (Hsz : sector_size vol1 = sector_size vol)
    by (destruct Hg1 as (_ & _ & H & _); exact H).
  assert (Hnext : fat_dir_get_next vol1 dev1 dir
                  = (1,
                     Dir.mk (Dir.vol dir) (Dir.start_sect dir)
                       (Dir.sector dir) (Dir.cluster dir)
                       (Dir.rw_offset dir + 32) (Dir.size dir),
                     vol1, dev1)).
  { unfold fat_dir_get_next. rewrite Hsz.
    rewrite (u32_small (Dir.rw_offset dir + 32)) by lia.
    destruct (Z.geb_spec (Dir.rw_offset dir + 32) (sector_size vol));
      [lia | reflexivity]. }
  cbn [fat_dir_search_loop]. rewrite Hr. cbn [Z.eqb]. rewrite Hb1.
  destruct Hrec as [Hdel | [[(Hn0 & Hn229 & Hn5) Hattr] Hcmp]].
  - exists vol1, dev1, lfn_match.
    split; [exact Hg1|]. split; [exact Hs1|].
    assert (Hchk : (byte_at (L (Dir.sector dir)) (Dir.rw_offset dir) =? 0)
                   = false
                   /\ negb
                        ((byte_at (L (Dir.sector dir)) (Dir.rw_offset dir)
                          =? 0)
                         || (byte_at (L (Dir.sector dir)) (Dir.rw_offset dir)
                             =? 5)
                         || (byte_at (L (Dir.sector dir)) (Dir.rw_offset dir)
                             =? 229)) = false).
    { destruct Hdel as [-> | ->]; split; reflexivity. }
    destruct Hchk as [-> ->].
    rewrite Hnext. reflexivity.
  - exists vol1, dev1, 1.
    split; [exact Hg1|]. split; [exact Hs1|].
    destruct (Z.eqb_spec (byte_at (L (Dir.sector dir)) (Dir.rw_offset dir))
                0) as [E | _]; [contradiction|].
    destruct (Z.eqb_spec (byte_at (L (Dir.sector dir)) (Dir.rw_offset dir))
                5) as [E | _]; [contradiction|].
    destruct (Z.eqb_spec (byte_at (L (Dir.sector dir)) (Dir.rw_offset dir))
                229) as [E | _]; [contradiction|].
    cbn [orb negb].
    destruct (Z.eqb_spec
                (Z.land
                   (byte_at (L (Dir.sector dir))
                      (Dir.rw_offset dir + SFN_ATTR)) ATTR_LFN) ATTR_LFN)
      as [E | _]; [contradiction|].
    rewrite Hcmp. cbn [Z.eqb negb andb]. rewrite Hnext. reflexivity.
Qed.

Lemma fat_dir_search_loop_skip (char_signed : bool) (n : nat) :
  forall (vol : volume_s) (dev : device) (L : Z -> list Z) (dir : Dir.t)
         (name : string) (noff size lfn_match : Z) (fuel : nat),
    shows vol dev L ->
    0 <= Dir.rw_offset dir ->
    Dir.rw_offset dir + 32 * Z.of_nat n + 32 <= sector_size vol ->
    sector_size vol < 2 ^ 32 ->
    (forall i, (i < n)%nat ->
       deleted_record (L (Dir.sector dir))
         (Dir.rw_offset dir + 32 * Z.of_nat i)
       \/ (sfn_record (L (Dir.sector dir))
             (Dir.rw_offset dir + 32 * Z.of_nat i)
           /\ fat_dir_sfn_cmp (L (Dir.sector dir))
                (Dir.rw_offset dir + 32 * Z.of_nat i) name noff size = 0)) ->
    exists vol' dev' lfn_match',
      same_geometry vol vol' /\ shows vol' dev' L
      /\ fat_dir_search_loop char_signed (n + fuel) vol dev dir name noff
           size 0 lfn_match 0
         = fat_dir_search_loop char_signed fuel vol' dev'
             (Dir.mk (Dir.vol dir) (Dir.start_sect dir) (Dir.sector dir)
                (Dir.cluster dir) (Dir.rw_offset dir + 32 * Z.of_nat n)
                (Dir.size dir))
             name noff size 0 lfn_match' 0.
Proof.
  induction n as [|k IH];
    intros vol dev L dir name noff size lfn_match fuel Hs Hlo Hhi Hss Hrec.
  - exists vol, dev, lfn_match.
    split; [apply same_geometry_refl|]. split; [exact Hs|].
    change (32 * Z.of_nat 0) with 0. rewrite Z.add_0_r.
    destruct dir; reflexivity.
  - destruct (fat_dir_search_loop_pass char_signed vol dev L dir name noff
                size lfn_match (k + fuel) Hs Hlo) as
      (vol1 & dev1 & lm1 & Hg1 & Hs1 & Hstep); [lia | exact Hss | |].
    { specialize (Hrec O (Nat.lt_0_succ k)).
      change (32 * Z.of_nat 0) with 0 in Hrec.
      rewrite Z.add_0_r in Hrec. exact Hrec. }
    assert (Hsz : sector_size vol1 = sector_size vol)
      by (destruct Hg1 as (_ & _ & H & _); exact H).
    destruct (IH vol1 dev1 L
                (Dir.mk (Dir.vol dir) (Dir.start_sect dir) (Dir.sector dir)
                   (Dir.cluster dir) (Dir.rw_offset dir + 32)
                   (Dir.size dir))
                name noff size lm1 fuel Hs1)
      as (vol2 & dev2 & lm2 & Hg2 & Hs2 & Hrest).
    + cbn [Dir.rw_offset]. lia.
    + cbn [Dir.rw_offset]. rewrite Hsz. lia.
    + rewrite Hsz. exact Hss.
    + intros i Hi. cbn [Dir.rw_offset Dir.sector].
      replace (Dir.rw_offset dir + 32 + 32 * Z.of_nat i)
        with (Dir.rw_offset dir + 32 * Z.of_nat (S i)) by lia.
      apply Hrec. lia.
    + exists vol2, dev2, lm2.
      split; [apply (same_geometry_trans _ vol1); assumption|].
      split; [exact Hs2|].
      change (S k + fuel)%nat with (S (k + fuel)).
      rewrite Hstep, Hrest.
      cbn [Dir.vol Dir.start_sect Dir.sector Dir.cluster Dir.rw_offset
           Dir.size].
      replace (Dir.rw_offset dir + 32 + 32 * Z.of_nat k)
        with (Dir.rw_offset dir + 32 * Z.of_nat (S k)) by lia.
      reflexivity.
Qed.

(** X26: [fat_dir_search] finds an entry by its short name.  With the
    cursor in the first sector of the directory, when the [n] records
    from the cursor on are deleted records or short-name records whose
    name does not compare equal, and the next record of the sector is a
    short-name record whose name does, the search returns 1 and moves
    the cursor to the start of the entry it found: the cluster is made
    of the two cluster halves of the record, the sector is the first of
    that cluster, the size is the size field.  The value of the local
    [lfn_match], which has no initialiser, plays no part. *)
Theorem fat_dir_search_finds_short_name (char_signed : bool)
  (vol : volume_s) (dev : device)
  (dir : Dir.t) (name : string) (noff size lfn_match_init : Z)
  (n fuel : nat) :
  coherent vol dev -> no_faults dev ->
  Dir.start_sect dir = Dir.sector dir ->
  0 <= Dir.rw_offset dir ->
  Dir.rw_offset dir + 32 * Z.of_nat n + 32 <= sector_size vol ->
  sector_size vol < 2 ^ 32 ->
  (forall i, (i < n)%nat ->
     deleted_record (view vol dev (Dir.sector dir))
       (Dir.rw_offset dir + 32 * Z.of_nat i)
     \/ (sfn_record (view vol dev (Dir.sector dir))
           (Dir.rw_offset dir + 32 * Z.of_nat i)
         /\ fat_dir_sfn_cmp (view vol dev (Dir.sector dir))
              (Dir.rw_offset dir + 32 * Z.of_nat i) name noff size = 0)) ->
  sfn_record (view vol dev (Dir.sector dir))
    (Dir.rw_offset dir + 32 * Z.of_nat n) ->
  fat_dir_sfn_cmp (view vol dev (Dir.sector dir))
    (Dir.rw_offset dir + 32 * Z.of_nat n) name noff size = 1 ->
  (n < fuel)%nat ->
  exists vol' dev',
    let b := view vol dev (Dir.sector dir) in
    let off := Dir.rw_offset dir + 32 * Z.of_nat n in
    let cluster :=
      u32 (Z.lor (Z.shiftl (fat_load16 b (off + SFN_CLUSTH)) 16)
             (fat_load16 b (off + SFN_CLUSTL))) in
    fat_dir_search char_signed fuel lfn_match_init vol dev dir name noff size
    = Some (1,
            Dir.mk (Dir.vol dir) (fat_clust_to_sect vol cluster)
              (fat_clust_to_sect vol cluster) cluster 0
              (fat_load32 b (off + SFN_FILE_SIZE)),
            vol', dev')
    /\ same_geometry vol vol'
    /\ (forall l, view vol' dev' l = view vol dev l).
Proof.
  intros Hc Hf Hstart Hlo Hhi Hss Hrec ((Hn0 & Hn229 & Hn5) & Hattr) Hcmp
    Hfuel.
  pose proof (shows_view vol dev Hc Hf) as Hs.
  set (L := view vol dev) in *.
  unfold fat_dir_search. rewrite Hstart, Z.eqb_refl. cbn [negb].
  replace fuel with (n + S (fuel - S n))%nat by lia.
  destruct (fat_dir_search_loop_skip char_signed n vol dev L dir name noff
              size lfn_match_init (S (fuel - S n)) Hs Hlo Hhi Hss Hrec)
    as (vol1 & dev1 & lm1 & Hg1 & Hs1 & Hskip).
  rewrite Hskip.
  destruct (fat_read_shows _ _ _ (Dir.sector dir) Hs1)
    as (vol2 & dev2 & Hr & Hg2 & Hs2 & Hl2 & Hb2).
  exists vol2, dev2. cbv zeta.
  assert (Hg : same_geometry vol vol2)
    by (apply (same_geometry_trans _ vol1); assumption).
  split; [|split; [exact Hg | apply Hs2]].
  cbn [fat_dir_search_loop Dir.sector Dir.rw_offset Dir.vol]. rewrite Hr.
  cbn [Z.eqb]. rewrite Hb2.
  destruct (Z.eqb_spec
              (byte_at (L (Dir.sector dir))
                 (Dir.rw_offset dir + 32 * Z.of_nat n)) 0)
    as [E | _]; [contradiction|].
  destruct (Z.eqb_spec
              (byte_at (L (Dir.sector dir))
                 (Dir.rw_offset dir + 32 * Z.of_nat n)) 5)
    as [E | _]; [contradiction|].
  destruct (Z.eqb_spec
              (byte_at (L (Dir.sector dir))
                 (Dir.rw_offset dir + 32 * Z.of_nat n)) 229)
    as [E | _]; [contradiction|].
  cbn [orb negb].
  destruct (Z.eqb_spec
              (Z.land
                 (byte_at (L (Dir.sector dir))
                    (Dir.rw_offset dir + 32 * Z.of_nat n + SFN_ATTR))
                 ATTR_LFN) ATTR_LFN)
    as [E | _]; [contradiction|].
  rewrite Hcmp. cbn [Z.eqb negb andb].
  rewrite (fat_clust_to_sect_geometry _ _ _ Hg). reflexivity.
Qed.

Lemma fat_dir_search_finds_short_name_witness :
  exists vol' dev',
    let b := view vol_C dev_search (Dir.sector root_dir) in
    let off := Dir.rw_offset root_dir + 32 * Z.of_nat 1 in
    let cluster :=
      u32 (Z.lor (Z.shiftl (fat_load16 b (off + SFN_CLUSTH)) 16)
             (fat_load16 b (off + SFN_CLUSTL))) in
    fat_dir_search false 2 7 vol_C dev_search root_dir "a" 0 1
    = Some (1,
            Dir.mk (Dir.vol root_dir) (fat_clust_to_sect vol_C cluster)
              (fat_clust_to_sect vol_C cluster) cluster 0
              (fat_load32 b (off + SFN_FILE_SIZE)),
            vol', dev')
    /\ same_geometry vol_C vol'
    /\ (forall l, view vol' dev' l = view vol_C dev_search l).
Proof.
  apply (fat_dir_search_finds_short_name false vol_C dev_search root_dir
           "a" 0 1 7 1 2).
  - intros _. reflexivity.
  - reflexivity.
  - reflexivity.
  - vm_compute. discriminate.
  - vm_compute. discriminate.
  - reflexivity.
  - intros i Hi. destruct i as [|i]; [|lia]. right.
    vm_compute. repeat split; discriminate.
  - vm_compute. repeat split; discriminate.
  - reflexivity.
  - lia.
Defined.

(** X27: [fat_dir_search] reports a name that is not there.  With the
    cursor in the first sector of the directory, when the [n] records
    from the cursor on are deleted records or short-name records whose
    name does not compare equal, and the next record of the sector is
    the end mark (first byte 0), the search returns 0 with the cursor on
    the end mark; what the driver sees of the medium is as before. *)
Theorem fat_dir_search_not_found (char_signed : bool) (vol : volume_s)
  (dev : device)
  (dir : Dir.t) (name : string) (noff size lfn_match_init : Z)
  (n fuel : nat) :
  coherent vol dev -> no_faults dev ->
  Dir.start_sect dir = Dir.sector dir ->
  0 <= Dir.rw_offset dir ->
  Dir.rw_offset dir + 32 * Z.of_nat n + 32 <= sector_size vol ->
  sector_size vol < 2 ^ 32 ->
  (forall i, (i < n)%nat ->
     deleted_record (view vol dev (Dir.sector dir))
       (Dir.rw_offset dir + 32 * Z.of_nat i)
     \/ (sfn_record (view vol dev (Dir.sector dir))
           (Dir.rw_offset dir + 32 * Z.of_nat i)
         /\ fat_dir_sfn_cmp (view vol dev (Dir.sector dir))
              (Dir.rw_offset dir + 32 * Z.of_nat i) name noff size = 0)) ->
  byte_at (view vol dev (Dir.sector dir))
    (Dir.rw_offset dir + 32 * Z.of_nat n) = 0 ->
  (n < fuel)%nat ->
  exists vol' dev',
    fat_dir_search char_signed fuel lfn_match_init vol dev dir name noff size
    = Some (0,
            Dir.mk (Dir.vol dir) (Dir.start_sect dir) (Dir.sector dir)
              (Dir.cluster dir) (Dir.rw_offset dir + 32 * Z.of_nat n)
              (Dir.size dir),
            vol', dev')
    /\ same_geometry vol vol'
    /\ (forall l, view vol' dev' l = view vol dev l).
Proof.
  intros Hc Hf Hstart Hlo Hhi Hss Hrec Hend Hfuel.
  pose proof (shows_view vol dev Hc Hf) as Hs.
  set (L := view vol dev) in *.
  unfold fat_dir_search. rewrite Hstart, Z.eqb_refl. cbn [negb].
  replace fuel with (n + S (fuel - S n))%nat by lia.
  destruct (fat_dir_search_loop_skip char_signed n vol dev L dir name noff
              size lfn_match_init (S (fuel - S n)) Hs Hlo Hhi Hss Hrec)
    as (vol1 & dev1 & lm1 & Hg1 & Hs1 & Hskip).
  rewrite Hskip.
  destruct (fat_read_shows _ _ _ (Dir.sector dir) Hs1)
    as (vol2 & dev2 & Hr & Hg2 & Hs2 & Hl2 & Hb2).
  exists vol2, dev2.
  split; [|split; [apply (same_geometry_trans _ vol1); assumption
                  | apply Hs2]].
  cbn [fat_dir_search_loop Dir.sector Dir.rw_offset]. rewrite Hr.
  cbn [Z.eqb]. rewrite Hb2, Hend. cbn [Z.eqb].
  rewrite Hstart. reflexivity.
Qed.

Lemma fat_dir_search_not_found_witness :
  exists vol' dev',
    fat_dir_search false 3 7 vol_C dev_search root_dir "b" 0 1
    = Some (0,
            Dir.mk (Dir.vol root_dir) (Dir.start_sect root_dir)
              (Dir.sector root_dir) (Dir.cluster root_dir)
              (Dir.rw_offset root_dir + 32 * Z.of_nat 2)
              (Dir.size root_dir),
            vol', dev')
    /\ same_geometry vol_C vol'
    /\ (forall l, view vol' dev' l = view vol_C dev_search l).
Proof.
  apply (fat_dir_search_not_found false vol_C dev_search root_dir "b" 0 1 7
           2 3).
  - intros _. reflexivity.
  - reflexivity.
  - reflexivity.
  - vm_compute. discriminate.
  - vm_compute. discriminate.
  - reflexivity.
  - intros i Hi. destruct i as [|[|i]]; [| |lia]; right;
      vm_compute; repeat split; discriminate.
  - reflexivity.
  - lia.
Defined.

(** ** Comparing a long name *)

Lemma lfn_chars_range (offs : list Z) (lfn : list Z) (off : Z) :
  forall j, (j < List.length (lfn_chars offs lfn off))%nat ->
            0 <= nth j (lfn_chars offs lfn off) 0 < 256.
Proof.
  induction offs as [|o rest IH]; intros j Hj; cbn [lfn_chars] in *.
  - cbn in Hj. lia.
  - destruct ((byte_at lfn (off + o) =? 0)
              || (byte_at lfn (off + o) =? 255)).
    + cbn in Hj. lia.
    + destruct j as [|j']; cbn [nth].
      * apply byte_at_range.
      * apply IH. cbn [List.length] in Hj. lia.
Qed.

Lemma fat_dir_lfn_cmp_loop_spec (char_signed : bool) (offs : list Z) :
  forall (i : Z) (lfn : list Z) (off : Z) (name : string)
         (noff name_off : Z),
    (fat_dir_lfn_cmp_loop char_signed offs i lfn off name noff name_off = 1
     <-> forall j, (j < List.length (lfn_chars offs lfn off))%nat ->
                   nth j (lfn_chars offs lfn off) 0
                   = plain_char char_signed
                       (char_at name (noff + name_off + i + Z.of_nat j)))
    /\ (fat_dir_lfn_cmp_loop char_signed offs i lfn off name noff name_off
        = 0
        \/ fat_dir_lfn_cmp_loop char_signed offs i lfn off name noff name_off
           = 1).
Proof.
  induction offs as [|o rest IH]; intros i lfn off name noff name_off;
    cbn [fat_dir_lfn_cmp_loop lfn_chars].
  - split; [|auto]. split; [|reflexivity].
    intros _ j Hj. cbn in Hj. lia.
  - destruct ((byte_at lfn (off + o) =? 0)
              || (byte_at lfn (off + o) =? 255)).
    + split; [|auto]. split; [|reflexivity].
      intros _ j Hj. cbn in Hj. lia.
    + destruct (Z.eqb_spec (byte_at lfn (off + o))
                  (plain_char char_signed
                     (char_at name (noff + name_off + i))))
        as [He | Hne]; cbn [negb].
      * destruct (IH (i + 1) lfn off name noff name_off) as [Hiff Hbool].
        split; [|exact Hbool]. rewrite Hiff. split.
        -- intros H j Hj. destruct j as [|j'].
           ++ cbn [nth]. change (Z.of_nat 0) with 0.
              rewrite Z.add_0_r. exact He.
           ++ cbn [nth]. cbn [List.length] in Hj.
              replace (noff + name_off + i + Z.of_nat (S j'))
                with (noff + name_off + (i + 1) + Z.of_nat j') by lia.
              apply H. lia.
        -- intros H j Hj.
           replace (noff + name_off + (i + 1) + Z.of_nat j)
             with (noff + name_off + i + Z.of_nat (S j)) by lia.
           apply (H (S j)). cbn [List.length]. lia.
      * split; [|auto]. split; [discriminate|].
        intros H. exfalso. apply Hne.
        specialize (H O). cbn [nth List.length] in H.
        change (Z.of_nat 0) with 0 in H. rewrite Z.add_0_r in H.
        apply H. lia.
Qed.

(** X28: the long-name comparison is a prefix comparison that does not
    look at [size].  [fat_dir_lfn_cmp] returns 1 exactly when the
    characters of the slot up to its first 0x00 or 0xFF equal the
    characters of the name from [13 * (sequence number - 1)] on, each
    read as a plain [char], and 0 otherwise: a name that goes on after
    the slot ends compares equal, and so does every name with a slot
    that holds no character.  Where plain [char] is signed, a name with
    a byte from 0x80 on under a character of the slot never compares
    equal. *)
Theorem fat_dir_lfn_cmp_prefix (char_signed : bool) (lfn : list Z)
  (off : Z) (name : string) (noff size : Z) :
  (fat_dir_lfn_cmp char_signed lfn off name noff size = 1
   <-> forall j, (j < List.length (lfn_chars lfn_offsets lfn off))%nat ->
                 nth j (lfn_chars lfn_offsets lfn off) 0
                 = plain_char char_signed
                     (char_at name
                        (noff
                         + u8 (13 * (Z.land (byte_at lfn (off + LFN_SEQ))
                                       LFN_SEQ_MSK - 1))
                         + Z.of_nat j)))
  /\ (fat_dir_lfn_cmp char_signed lfn off name noff size = 0
      \/ fat_dir_lfn_cmp char_signed lfn off name noff size = 1)
  /\ (forall j, char_signed = true ->
                (j < List.length (lfn_chars lfn_offsets lfn off))%nat ->
                128 <= char_at name
                         (noff
                          + u8 (13 * (Z.land (byte_at lfn (off + LFN_SEQ))
                                        LFN_SEQ_MSK - 1))
                          + Z.of_nat j) ->
                fat_dir_lfn_cmp char_signed lfn off name noff size = 0).
Proof.
  unfold fat_dir_lfn_cmp.
  set (name_off :=
         u8 (13 * (Z.land (byte_at lfn (off + LFN_SEQ)) LFN_SEQ_MSK - 1))).
  destruct (fat_dir_lfn_cmp_loop_spec char_signed lfn_offsets 0 lfn off
              name noff name_off) as [Hiff Hbool].
  assert (Hiff' :
            fat_dir_lfn_cmp_loop char_signed lfn_offsets 0 lfn off name noff
              name_off = 1
            <-> forall j,
                (j < List.length (lfn_chars lfn_offsets lfn off))%nat ->
                nth j (lfn_chars lfn_offsets lfn off) 0
                = plain_char char_signed
                    (char_at name (noff + name_off + Z.of_nat j))).
  { rewrite Hiff. split; intros H j Hj; specialize (H j Hj).
    - rewrite Z.add_0_r in H. exact H.
    - rewrite Z.add_0_r. exact H. }
  split; [exact Hiff'|]. split; [exact Hbool|].
  intros j Hsigned Hj Hhigh.
  destruct Hbool as [H0 | H1]; [exact H0|]. exfalso.
  pose proof (proj1 Hiff' H1 j Hj) as Heq.
  pose proof (lfn_chars_range lfn_offsets lfn off j Hj) as Hrange.
  pose proof (char_at_range name (noff + name_off + Z.of_nat j)) as Hc.
  rewrite Hsigned in Heq. unfold plain_char in Heq.
  cbn [andb] in Heq.
  destruct (Z.geb_spec (char_at name (noff + name_off + Z.of_nat j)) 128);
    lia.
Qed.

(** ** C10: the checksum byte 0 *)

Lemma lfn_copy_loop_inv (offs : list Z) :
  forall (i : Z) (entry : list Z) (off name_offset : Z) (nm : list Z)
         (nl : Z),
    0 <= nl < 256 ->
    List.length (fst (lfn_copy_loop offs i entry off name_offset nm nl))
    = List.length nm
    /\ 0 <= snd (lfn_copy_loop offs i entry off name_offset nm nl) < 256.
Proof.
  induction offs as [|o rest IH];
    intros i entry off name_offset nm nl Hnl; cbn [lfn_copy_loop fst snd].
  - split; [reflexivity | exact Hnl].
  - destruct (negb ((byte_at entry (off + o) =? 0)
                    || (byte_at entry (off + o) =? 255))).
    + destruct (IH (i + 1) entry off name_offset
                  (set_byte nm (name_offset + i) (byte_at entry (off + o)))
                  (u8 (nl + 1))) as [Hlen Hrange]; [apply u8_range|].
      rewrite length_set_byte in Hlen. split; assumption.
    + apply IH. exact Hnl.
Qed.

(** A short-name record reached with the checksum variable at 0, be it
    that no LFN slot came before or that the last slot stores the byte
    0, is delivered without a look at its checksum. *)
Lemma fat_dir_read_loop_zero_crc (k : nat) :
  forall (vol : volume_s) (dev : device) (L : Z -> list Z) (dir : Dir.t)
         (info : info_s) (crc0 nl : Z) (fuel : nat),
    shows vol dev L ->
    (forall i, (i < k)%nat ->
               lfn_slot (L (Dir.sector (dir_nth i vol L dir)))
                 (Dir.rw_offset (dir_nth i vol L dir))) ->
    sfn_record (L (Dir.sector (dir_nth k vol L dir)))
      (Dir.rw_offset (dir_nth k vol L dir)) ->
    match k with
    | O => crc0
    | S j =>
        byte_at (L (Dir.sector (dir_nth j vol L dir)))
          (Dir.rw_offset (dir_nth j vol L dir) + LFN_CRC)
    end = 0 ->
    0 <= nl < 256 -> (11 <= List.length (name info))%nat ->
    exists info' vol' dev',
      fat_dir_read_loop (S k + fuel) vol dev dir info crc0 nl
      = Some (FSTATUS_OK, dir_nth (S k) vol L dir, info', vol', dev')
      /\ (forall j, 0 <= j < 11 ->
                    byte_at (name info') j
                    = byte_at (L (Dir.sector (dir_nth k vol L dir)))
                        (Dir.rw_offset (dir_nth k vol L dir) + j))
      /\ attribute info'
         = byte_at (L (Dir.sector (dir_nth k vol L dir)))
             (Dir.rw_offset (dir_nth k vol L dir) + SFN_ATTR)
      /\ size info'
         = fat_load32 (L (Dir.sector (dir_nth k vol L dir)))
             (Dir.rw_offset (dir_nth k vol L dir) + SFN_FILE_SIZE).
Proof.
  induction k as [|k IH];
    intros vol dev L dir info crc0 nl fuel Hs Hlfn Hsfn Hz Hnl Hlen.
  - cbn [dir_nth] in *. cbn [Nat.add].
    destruct (fat_read_shows _ _ _ (Dir.sector dir) Hs)
      as (vol1 & dev1 & Hr & Hg1 & Hs1 & Hl1 & Hb1).
    destruct (fat_dir_get_next_shows _ _ _ dir Hs1)
      as (r2 & vol2 & dev2 & Hnext & Hg2 & Hs2).
    rewrite (dir_next_geometry _ _ _ _ Hg1) in Hnext.
    destruct Hsfn as ((Hu0 & Hu229 & Hu5) & Hattr).
    apply Z.eqb_neq in Hu0, Hu229, Hu5, Hattr.
    destruct (sfn_copy_loop_spec 11 0 (L (Dir.sector dir))
                (Dir.rw_offset dir) (name info) nl)
      as (Hcopy & _ & _); [lia | change (Z.of_nat 11) with 11; lia
                          | exact Hnl |].
    cbn [fat_dir_read_loop]. rewrite Hr. cbn [Z.eqb]. rewrite Hb1.
    rewrite Hu0, Hu229, Hu5. cbn [negb andb]. rewrite Hattr, Hz.
    cbn [negb andb Z.eqb].
    destruct (sfn_copy_loop 11 0 (L (Dir.sector dir)) (Dir.rw_offset dir)
                (name info) nl) as [nm nl1] eqn:Hloop.
    cbn [fst snd] in Hcopy. rewrite Hnext.
    eexists. exists vol2, dev2. split; [reflexivity|].
    cbn [name attribute size].
    split; [intros j Hj; apply Hcopy; change (Z.of_nat 11) with 11; lia|].
    split; reflexivity.
  - pose proof (Hlfn O (Nat.lt_0_succ k)) as Hcur. cbn [dir_nth] in Hcur.
    destruct Hcur as ((Hu0 & Hu229 & Hu5) & Hattr).
    apply Z.eqb_neq in Hu0, Hu229, Hu5. apply Z.eqb_eq in Hattr.
    destruct (fat_read_shows _ _ _ (Dir.sector dir) Hs)
      as (vol1 & dev1 & Hr & Hg1 & Hs1 & Hl1 & Hb1).
    destruct (fat_dir_get_next_shows _ _ _ dir Hs1)
      as (r2 & vol2 & dev2 & Hnext & Hg2 & Hs2).
    rewrite (dir_next_geometry _ _ _ _ Hg1) in Hnext.
    assert (Hg : same_geometry vol vol2)
      by (apply (same_geometry_trans _ vol1); assumption).
    change (S (S k) + fuel)%nat with (S (S k + fuel)).
    cbn [fat_dir_read_loop dir_nth].
    rewrite Hr. cbn [Z.eqb]. rewrite Hb1.
    rewrite Hu0, Hu229, Hu5. cbn [negb andb]. rewrite Hattr.
    destruct (lfn_copy_loop_inv lfn_offsets 0 (L (Dir.sector dir))
                (Dir.rw_offset dir)
                (u8 (13 * (Z.land (byte_at (L (Dir.sector dir))
                                     (Dir.rw_offset dir)) LFN_SEQ_MSK - 1)))
                (name info) nl Hnl) as [Hlen1 Hnl1].
    destruct (lfn_copy_loop lfn_offsets 0 (L (Dir.sector dir))
                (Dir.rw_offset dir) _ (name info) nl) as [nm nl1].
    cbn [fst snd] in Hlen1, Hnl1.
    rewrite Hnext.
    destruct (IH vol2 dev2 L (dir_next vol L dir)
                (mk_info nm (name_length info) (attribute info)
                   (c_time_tenth info) (c_time info) (c_date info)
                   (w_time info) (w_date info) (a_date info) (size info))
                (byte_at (L (Dir.sector dir)) (Dir.rw_offset dir + LFN_CRC))
                nl1 fuel Hs2)
      as (info' & vol' & dev' & Hres & Hname & Hat & Hsz).
    + intros i Hi. rewrite (dir_nth_geometry _ _ _ _ _ Hg).
      apply (Hlfn (S i)). lia.
    + rewrite (dir_nth_geometry _ _ _ _ _ Hg). exact Hsfn.
    + destruct k as [|j];
        [exact Hz | rewrite (dir_nth_geometry _ _ _ _ _ Hg); exact Hz].
    + exact Hnl1.
    + cbn [name]. rewrite Hlen1. exact Hlen.
    + rewrite (dir_nth_geometry _ _ _ _ _ Hg) in Hres.
      rewrite !(dir_nth_geometry _ _ _ _ _ Hg) in Hname.
      rewrite !(dir_nth_geometry _ _ _ _ _ Hg) in Hat.
      rewrite !(dir_nth_geometry _ _ _ _ _ Hg) in Hsz.
      exists info', vol', dev'.
      split; [exact Hres|]. split; [exact Hname|]. split; assumption.
Qed.

(** C10: the check is not made when the checksum byte that the last LFN
    slot stores is 0.  When the cursor stands on a run of one or more
    LFN slots in use that is followed by a SFN record in use, and the
    last slot of the run stores the checksum byte 0, [fat_dir_read] (all
    transfers succeeding) returns [FSTATUS_OK] whatever
    [fat_dir_sfn_crc] of the record is, so also when it differs from
    the stored byte; it delivers the record under its short name, the
    11 name bytes written over the start of the long name. *)
Theorem fat_dir_read_zero_checksum_unchecked (vol : volume_s)
  (dev : device) (dir : Dir.t) (info : info_s) (k fuel : nat) :
  coherent vol dev -> no_faults dev ->
  (forall i, (i <= k)%nat ->
             lfn_slot
               (view vol dev (Dir.sector (dir_nth i vol (view vol dev) dir)))
               (Dir.rw_offset (dir_nth i vol (view vol dev) dir))) ->
  sfn_record
    (view vol dev (Dir.sector (dir_nth (S k) vol (view vol dev) dir)))
    (Dir.rw_offset (dir_nth (S k) vol (view vol dev) dir)) ->
  byte_at (view vol dev (Dir.sector (dir_nth k vol (view vol dev) dir)))
    (Dir.rw_offset (dir_nth k vol (view vol dev) dir) + LFN_CRC) = 0 ->
  (11 <= List.length (name info))%nat ->
  (S k < fuel)%nat ->
  exists info' vol' dev',
    fat_dir_read fuel vol dev dir info
    = Some (FSTATUS_OK, dir_nth (S (S k)) vol (view vol dev) dir,
            info', vol', dev')
    /\ (forall j, 0 <= j < 11 ->
                  byte_at (name info') j
                  = byte_at
                      (view vol dev
                         (Dir.sector (dir_nth (S k) vol (view vol dev) dir)))
                      (Dir.rw_offset (dir_nth (S k) vol (view vol dev) dir)
                       + j))
    /\ attribute info'
       = byte_at
           (view vol dev (Dir.sector (dir_nth (S k) vol (view vol dev) dir)))
           (Dir.rw_offset (dir_nth (S k) vol (view vol dev) dir) + SFN_ATTR)
    /\ size info'
       = fat_load32
           (view vol dev (Dir.sector (dir_nth (S k) vol (view vol dev) dir)))
           (Dir.rw_offset (dir_nth (S k) vol (view vol dev) dir)
            + SFN_FILE_SIZE).
Proof.
  intros Hc Hf Hlfn Hsfn Hz Hlen Hfuel.
  pose proof (shows_view _ _ Hc Hf) as Hs.
  unfold fat_dir_read.
  replace fuel with (S (S k) + (fuel - S (S k)))%nat by lia.
  apply (fat_dir_read_loop_zero_crc (S k) vol dev (view vol dev) dir info
           0 0 (fuel - S (S k))%nat Hs).
  - intros i Hi. apply Hlfn. lia.
  - exact Hsfn.
  - exact Hz.
  - lia.
  - exact Hlen.
Qed.

Lemma fat_dir_read_zero_checksum_unchecked_witness :
  byte_at (view vol_C (dev_demo 0 []) 4128) (0 + LFN_CRC) = 0
  /\ fat_dir_sfn_crc (view vol_C (dev_demo 0 []) 4128) 32 = 128
  /\ exists info' vol' dev',
       fat_dir_read 2 vol_C (dev_demo 0 []) root_dir blank_info
       = Some (FSTATUS_OK,
               dir_nth 2 vol_C (view vol_C (dev_demo 0 [])) root_dir,
               info', vol', dev')
       /\ (forall j, 0 <= j < 11 ->
                     byte_at (name info') j
                     = byte_at (view vol_C (dev_demo 0 []) 4128) (32 + j))
       /\ attribute info'
          = byte_at (view vol_C (dev_demo 0 []) 4128) (32 + SFN_ATTR)
       /\ size info'
          = fat_load32 (view vol_C (dev_demo 0 []) 4128)
              (32 + SFN_FILE_SIZE).
Proof.
  split; [reflexivity|]. split; [reflexivity|].
  apply (fat_dir_read_zero_checksum_unchecked vol_C (dev_demo 0 [])
           root_dir blank_info 0 2).
  - intros _. reflexivity.
  - reflexivity.
  - intros i Hi. assert (i = O) by lia. subst i.
    unfold lfn_slot, entry_in_use. vm_compute.
    repeat split; try reflexivity; intro H; discriminate H.
  - unfold sfn_record, entry_in_use. vm_compute.
    repeat split; intro H; discriminate H.
  - reflexivity.
  - vm_compute. lia.
  - lia.
Defined.
